(** * Billing service: order state machine and webhook reconciliation

    A shallow embedding of the billing service of the package store:
    - [infrastructure/models.py]           the three tables and their enums;
    - [infrastructure/repositories/order.py] the repositories over them;
    - [infrastructure/stripe/service.py]   the payment gateway adapter;
    - [infrastructure/broker/events.py]    the event publisher;
    - [application/billing_service.py]     the orchestrator;
    - [presentation/billing.py]            the endpoints.

    Every repository method commits before it returns, so the embedding is
    a state monad in which an exception keeps the state reached so far. *)

From Stdlib Require Import List String Ascii ZArith Lia Bool Arith PeanoNat.
From Stdlib Require Import Permutation Sorted.
Import ListNotations.
Local Open Scope string_scope.
Local Open Scope list_scope.
Local Open Scope nat_scope.

(** ** Scalars *)

(** [uuid.UUID]; [uuid4()] draws from a supply kept in the state. *)
Definition UUID := nat.
(** [datetime]; [datetime.now()] and [func.now()] read a clock kept in the state. *)
Definition datetime := nat.
(** [Decimal] with the two places of [Numeric(10, 2)]: the value in hundredths. *)
Definition Decimal := Z.

(** ** infrastructure/models.py *)

Inductive OrderStatus := CREATED | PENDING_PAYMENT | PAID | FAILED | CANCELLED.

Inductive PackageType := BASIC | STANDARD | PREMIUM.

Definition OrderStatus_eqb (a b : OrderStatus) : bool :=
  match a, b with
  | CREATED, CREATED | PENDING_PAYMENT, PENDING_PAYMENT | PAID, PAID
  | FAILED, FAILED | CANCELLED, CANCELLED => true
  | _, _ => false
  end.

(** [str(OrderStatus.X)] of a plain [Enum], as an f-string prints it. *)
Definition str_OrderStatus (s : OrderStatus) : string :=
  match s with
  | CREATED => "OrderStatus.CREATED"
  | PENDING_PAYMENT => "OrderStatus.PENDING_PAYMENT"
  | PAID => "OrderStatus.PAID"
  | FAILED => "OrderStatus.FAILED"
  | CANCELLED => "OrderStatus.CANCELLED"
  end.

Definition str_PackageType (p : PackageType) : string :=
  match p with
  | BASIC => "PackageType.BASIC"
  | STANDARD => "PackageType.STANDARD"
  | PREMIUM => "PackageType.PREMIUM"
  end.

Module Order.
Record t := mk {
    id : UUID;
    user_id : UUID;
    package_type : PackageType;
    amount : Decimal;
    currency : string;
    status : OrderStatus;
    stripe_payment_intent_id : option string;
    stripe_client_secret : option string;
    description : option string;
    extra_metadata : option string;
    created_at : datetime;
    updated_at : datetime;
    paid_at : option datetime
}.
End Order.

Module WebhookEvent.
Record t := mk {
    id : UUID;
    stripe_event_id : string;
    event_type : string;
    order_id : option UUID;
    processed : bool;
    processing_started_at : option datetime;
    processed_at : option datetime;
    error_message : option string;
    retry_count : Z;
    raw_payload : string;
    created_at : datetime
}.
End WebhookEvent.

Module PaymentAudit.
Record t := mk {
    id : UUID;
    order_id : UUID;
    action : string;
    old_status : option OrderStatus;
    new_status : OrderStatus;
    stripe_event_id : option string;
    details : option string;
    created_at : datetime
}.
End PaymentAudit.

(** ** domain/schemas.py: the events put on the broker *)

Inductive DomainEvent :=
| OrderCreatedEvent (order_id user_id : UUID) (package_type : PackageType)
    (amount : Decimal) (currency : string) (created_at : datetime)
| OrderPaidEvent (order_id user_id : UUID) (package_type : PackageType)
    (amount : Decimal) (currency : string) (paid_at : datetime)
    (stripe_payment_intent_id : string)
| OrderFailedEvent (order_id user_id : UUID) (reason : string)
    (failed_at : datetime).

Definition event_order_id (e : DomainEvent) : UUID :=
  match e with
  | OrderCreatedEvent o _ _ _ _ _ => o
  | OrderPaidEvent o _ _ _ _ _ _ => o
  | OrderFailedEvent o _ _ _ => o
  end.

Definition routing_key (e : DomainEvent) : string :=
  match e with
  | OrderCreatedEvent _ _ _ _ _ _ => "order.created"
  | OrderPaidEvent _ _ _ _ _ _ _ => "order.paid"
  | OrderFailedEvent _ _ _ _ => "order.failed"
  end.

Definition OrderCreate_metadata := option (list (string * string)).

(** ** What a [stripe.Event] carries, as far as the service reads it *)

(** The ['message'] of a [last_payment_error]: the key may be absent, or
    present with [None] (the provider documents the field as nullable), or
    hold the text. *)
Inductive lpe_message :=
| MessageAbsent
| MessageNone
| MessageStr (m : string).

(** [payment_intent.get('last_payment_error', {})]: the key may be absent,
    present with [None], or a dict that may hold a ['message']. *)
Inductive last_payment_error :=
| LpeAbsent
| LpeNone
| LpeDict (message : lpe_message).

Record StripeEvent := {
  ev_id : string;                          (* event.id *)
  ev_type : string;                        (* event.type *)
  pi_id : string;                          (* event.data.object.id *)
  pi_metadata_order_id : option string;    (* ...get('metadata', {}).get('order_id') *)
  pi_last_payment_error : last_payment_error
}.

(** ** Exceptions *)

Inductive Exn :=
| ValueError (msg : string)
| Exception (msg : string)
| AttributeError (msg : string)
| MultipleResultsFound
| IntegrityError (msg : string)
| DBAPIError (msg : string)
| BrokerError (msg : string)
| ValidationError (msg : string).

(** [str(e)] *)
Definition str_exn (e : Exn) : string :=
  match e with
  | ValueError m | Exception m | AttributeError m
  | IntegrityError m | DBAPIError m | BrokerError m | ValidationError m => m
  | MultipleResultsFound =>
      "Multiple rows were found when one or none was required"
  end.

(** [except ValueError]: pydantic's ValidationError is a ValueError. *)
Definition is_ValueError (e : Exn) : bool :=
  match e with ValueError _ | ValidationError _ => true | _ => false end.

(** ** The world the service runs in *)

(** Side effects in the order in which they become visible. *)
Inductive Effect :=
| OrderInsert (order_id : UUID)
| OrderUpdate (order_id : UUID) (new_status : OrderStatus)
| WebhookWrite (event_id : UUID)
| AuditWrite (order_id : UUID) (action : string)
| GatewayCreate (order_id : UUID)
| GatewayCancel (payment_intent_id : string)
| Publish (key : string) (order_id : UUID) (delivered : bool).

Record State := mkState {
  orders : list Order.t;
  webhook_events : list WebhookEvent.t;
  payment_audit : list PaymentAudit.t;
  broker : list DomainEvent;       (* messages the broker accepted *)
  trace : list Effect;             (* oldest first *)
  clock : datetime;
  uuid_supply : UUID
}.

Definition initial_state : State := mkState [] [] [] [] [] 0 0.

(** The parts outside the repository: the payment provider, the broker, and
    the library calls ([UUID(s)], [str(uuid)], [json.dumps]) whose results the
    service only passes on. *)
Record Env := {
  (* stripe.PaymentIntent.create(amount, currency, metadata): the intent's
     (id, client_secret), or the text of the StripeError *)
  stripe_PaymentIntent_create :
    Z -> string -> list (string * string) -> (string * string) + string;
  (* stripe.PaymentIntent.cancel(id): the text of the StripeError, if any *)
  stripe_PaymentIntent_cancel : string -> option string;
  (* broker.publish(message, exchange, routing_key): the error, if any *)
  broker_publish : DomainEvent -> option string;
  (* UUID(s): None stands for the ValueError of a malformed string *)
  uuid_of_string : string -> option UUID;
  str_of_uuid : UUID -> string;
  json_dumps : list (string * string) -> string;
  (* str() of the ValidationError of OrderFailedEvent(reason=None) *)
  str_ValidationError : string
}.

(** ** The monad: state that survives an exception *)

Inductive Res (A : Type) :=
| Ok (a : A)
| Raise (e : Exn).
Arguments Ok {A} a.
Arguments Raise {A} e.

Definition M (A : Type) := State -> Res A * State.

Definition ret {A} (a : A) : M A := fun s => (Ok a, s).

Definition raise {A} (e : Exn) : M A := fun s => (Raise e, s).

Definition bind {A B} (m : M A) (f : A -> M B) : M B :=
  fun s =>
    match m s with
    | (Ok a, s') => f a s'
    | (Raise e, s') => (Raise e, s')
    end.

(** [try: body  except Exception as e: handler e] *)
Definition try_except {A} (body : M A) (handler : Exn -> M A) : M A :=
  fun s =>
    match body s with
    | (Ok a, s') => (Ok a, s')
    | (Raise e, s') => handler e s'
    end.

Declare Scope py_scope.
Delimit Scope py_scope with py.
Notation "x <- m ;; k" := (bind m (fun x => k))
  (at level 61, m at next level, right associativity) : py_scope.
Notation "m ;; k" := (bind m (fun _ => k))
  (at level 61, right associativity) : py_scope.
Local Open Scope py_scope.

Definition get_state : M State := fun s => (Ok s, s).

Definition modify (f : State -> State) : M unit := fun s => (Ok tt, f s).

Definition emit (e : Effect) : M unit :=
  modify (fun s => mkState (orders s) (webhook_events s) (payment_audit s)
                     (broker s) (trace s ++ [e]) (clock s) (uuid_supply s)).

Definition now : M datetime :=
  fun s => (Ok (clock s),
            mkState (orders s) (webhook_events s) (payment_audit s)
              (broker s) (trace s) (S (clock s)) (uuid_supply s)).

Definition uuid4 : M UUID :=
  fun s => (Ok (uuid_supply s),
            mkState (orders s) (webhook_events s) (payment_audit s)
              (broker s) (trace s) (clock s) (S (uuid_supply s))).

Definition set_orders (l : list Order.t) : M unit :=
  modify (fun s => mkState l (webhook_events s) (payment_audit s)
                     (broker s) (trace s) (clock s) (uuid_supply s)).

Definition set_webhook_events (l : list WebhookEvent.t) : M unit :=
  modify (fun s => mkState (orders s) l (payment_audit s)
                     (broker s) (trace s) (clock s) (uuid_supply s)).

Definition set_payment_audit (l : list PaymentAudit.t) : M unit :=
  modify (fun s => mkState (orders s) (webhook_events s) l
                     (broker s) (trace s) (clock s) (uuid_supply s)).

Definition set_broker (l : list DomainEvent) : M unit :=
  modify (fun s => mkState (orders s) (webhook_events s) (payment_audit s)
                     l (trace s) (clock s) (uuid_supply s)).

(** [Result.scalar_one_or_none()] *)
Definition scalar_one_or_none {A} (rows : list A) : M (option A) :=
  match rows with
  | [] => ret None
  | [x] => ret (Some x)
  | _ => raise MultipleResultsFound
  end.

(** Attribute access on the result of a query: [None] has no attributes. *)
Definition deref {A} (o : option A) : M A :=
  match o with
  | Some x => ret x
  | None => raise (AttributeError "'NoneType' object has no attribute")
  end.

Definition opt_string_eqb (a : option string) (b : string) : bool :=
  match a with
  | Some x => String.eqb x b
  | None => false
  end.

(** ** SQL statements over a table *)

(** [UPDATE t SET values WHERE where_] *)
Definition sql_update {A} (where_ : A -> bool) (values : A -> A)
    (rows : list A) : list A :=
  map (fun r => if where_ r then values r else r) rows.

(** [... RETURNING t]: the rows the update wrote. *)
Definition returning {A} (where_ : A -> bool) (values : A -> A)
    (rows : list A) : list A :=
  map values (filter where_ rows).

(** [ORDER BY created_at DESC] *)
Fixpoint insert_desc (o : Order.t) (l : list Order.t) : list Order.t :=
  match l with
  | [] => [o]
  | x :: r =>
      if Order.created_at x <=? Order.created_at o
      then o :: x :: r
      else x :: insert_desc o r
  end.

Definition order_by_created_at_desc (l : list Order.t) : list Order.t :=
  fold_right insert_desc [] l.

(** ** infrastructure/repositories/order.py *)

(** The largest [integer] (the type of [retry_count]) and the range of a
    [bigint] (the type of LIMIT and OFFSET) of the database. *)
Definition INT32_MAX : Z := 2147483647%Z.
Definition INT64_MIN : Z := (-9223372036854775808)%Z.
Definition INT64_MAX : Z := 9223372036854775807%Z.

Definition in_int64 (z : Z) : bool :=
  (INT64_MIN <=? z)%Z && (z <=? INT64_MAX)%Z.

Module OrderRepository.

Definition create (user_id : UUID) (package_type : PackageType)
    (amount : Decimal) (currency : string) (description : option string)
    (metadata : option string) : M Order.t :=
  oid <- uuid4 ;;
  t <- now ;;
  let order :=
    Order.mk oid user_id package_type amount currency CREATED None None
      description metadata t t None in
  s <- get_state ;;
  set_orders (orders s ++ [order]) ;;
  emit (OrderInsert oid) ;;
  ret order.

Definition get_by_id (order_id : UUID) : M (option Order.t) :=
  s <- get_state ;;
  scalar_one_or_none
    (filter (fun o => Order.id o =? order_id) (orders s)).

Definition get_by_payment_intent_id (payment_intent_id : string)
    : M (option Order.t) :=
  s <- get_state ;;
  scalar_one_or_none
    (filter (fun o => opt_string_eqb (Order.stripe_payment_intent_id o)
                        payment_intent_id) (orders s)).

Definition user_query (user_id : UUID) (status : option OrderStatus)
    (rows : list Order.t) : list Order.t :=
  let query := filter (fun o => Order.user_id o =? user_id) rows in
  match status with
  | Some st => filter (fun o => OrderStatus_eqb (Order.status o) st) query
  | None => query
  end.

(** LIMIT and OFFSET are Python integers of any size. The driver refuses to
    bind one that does not fit a [bigint]; the server then refuses a negative
    OFFSET, and after that a negative LIMIT. The count query has run by then
    and wrote nothing. The texts are the database's own, without the
    statement that SQLAlchemy appends. *)
Definition get_user_orders (user_id : UUID) (limit offset : Z)
    (status : option OrderStatus) : M (list Order.t * Z) :=
  s <- get_state ;;
  let query := user_query user_id status (orders s) in
  let total := Z.of_nat (List.length query) in
  if negb (in_int64 limit) || negb (in_int64 offset)
  then raise (DBAPIError "value out of int64 range")
  else if (offset <? 0)%Z
  then raise (DBAPIError "OFFSET must not be negative")
  else if (limit <? 0)%Z then raise (DBAPIError "LIMIT must not be negative")
  else
    ret (firstn (Z.to_nat limit)
           (skipn (Z.to_nat offset) (order_by_created_at_desc query)),
         total).

Definition set_payment_intent (payment_intent_id client_secret : string)
    (t : datetime) (o : Order.t) : Order.t :=
  Order.mk (Order.id o) (Order.user_id o) (Order.package_type o)
    (Order.amount o) (Order.currency o) PENDING_PAYMENT
    (Some payment_intent_id) (Some client_secret)
    (Order.description o) (Order.extra_metadata o)
    (Order.created_at o) t (Order.paid_at o).

(** [stripe_payment_intent_id] is declared [unique=True]. *)
Definition update_payment_intent (order_id : UUID)
    (payment_intent_id client_secret : string) : M (option Order.t) :=
  t <- now ;;
  s <- get_state ;;
  let where_ := fun o => Order.id o =? order_id in
  let values := set_payment_intent payment_intent_id client_secret t in
  let rows := sql_update where_ values (orders s) in
  if 1 <? List.length (filter (fun o => opt_string_eqb
                                     (Order.stripe_payment_intent_id o)
                                     payment_intent_id) rows)
  then raise (IntegrityError "orders.stripe_payment_intent_id")
  else
    set_orders rows ;;
    emit (OrderUpdate order_id PENDING_PAYMENT) ;;
    scalar_one_or_none (returning where_ values (orders s)).

(** [values = {'status': new_status}; if paid_at: values['paid_at'] = paid_at] *)
Definition set_status (new_status : OrderStatus) (paid_at : option datetime)
    (t : datetime) (o : Order.t) : Order.t :=
  Order.mk (Order.id o) (Order.user_id o) (Order.package_type o)
    (Order.amount o) (Order.currency o) new_status
    (Order.stripe_payment_intent_id o) (Order.stripe_client_secret o)
    (Order.description o) (Order.extra_metadata o)
    (Order.created_at o) t
    (match paid_at with
     | Some p => Some p
     | None => Order.paid_at o
     end).

Definition update_status (order_id : UUID) (new_status : OrderStatus)
    (paid_at : option datetime) : M (option Order.t) :=
  t <- now ;;
  s <- get_state ;;
  let where_ := fun o => Order.id o =? order_id in
  let values := set_status new_status paid_at t in
  set_orders (sql_update where_ values (orders s)) ;;
  emit (OrderUpdate order_id new_status) ;;
  scalar_one_or_none (returning where_ values (orders s)).

(** The dict [get_statistics] returns. *)
Record Statistics := {
  total_orders : Z;
  paid_orders : Z;
  failed_orders : Z;
  total_revenue : Decimal
}.

(** [func.count(Order.id).filter(p)]; ids are never NULL. *)
Definition count_where (p : Order.t -> bool) (rows : list Order.t) : Z :=
  Z.of_nat (List.length (filter p rows)).

(** [func.sum(Order.amount).filter(p)]: NULL when no row passes. *)
Definition sum_amount_where (p : Order.t -> bool) (rows : list Order.t)
    : option Decimal :=
  match filter p rows with
  | [] => None
  | l => Some (fold_right Z.add 0%Z (map Order.amount l))
  end.

(** [x or default] for a number that may be [None]: zero is falsy as well. *)
Definition or_default (x : option Z) (default : Z) : Z :=
  match x with
  | Some v => if (v =? 0)%Z then default else v
  | None => default
  end.

Definition get_statistics : M Statistics :=
  s <- get_state ;;
  let rows := orders s in
  let is_paid := fun o => OrderStatus_eqb (Order.status o) PAID in
  let is_failed := fun o => OrderStatus_eqb (Order.status o) FAILED in
  ret {| total_orders := or_default (Some (count_where (fun _ => true) rows)) 0;
         paid_orders := or_default (Some (count_where is_paid rows)) 0;
         failed_orders := or_default (Some (count_where is_failed rows)) 0;
         total_revenue := or_default (sum_amount_where is_paid rows) 0 |}.

End OrderRepository.

Module WebhookEventRepository.

(** [stripe_event_id] is declared [unique=True]. *)
Definition create (stripe_event_id event_type raw_payload : string)
    (order_id : option UUID) : M WebhookEvent.t :=
  s <- get_state ;;
  if existsb (fun w => String.eqb (WebhookEvent.stripe_event_id w)
                         stripe_event_id) (webhook_events s)
  then raise (IntegrityError "webhook_events.stripe_event_id")
  else
    wid <- uuid4 ;;
    t <- now ;;
    let event :=
      WebhookEvent.mk wid stripe_event_id event_type order_id false
        None None None 0%Z raw_payload t in
    set_webhook_events (webhook_events s ++ [event]) ;;
    emit (WebhookWrite wid) ;;
    ret event.

Definition get_by_stripe_event_id (stripe_event_id : string)
    : M (option WebhookEvent.t) :=
  s <- get_state ;;
  scalar_one_or_none
    (filter (fun w => String.eqb (WebhookEvent.stripe_event_id w)
                        stripe_event_id) (webhook_events s)).

Definition set_processing (t : datetime) (w : WebhookEvent.t)
    : WebhookEvent.t :=
  WebhookEvent.mk (WebhookEvent.id w) (WebhookEvent.stripe_event_id w)
    (WebhookEvent.event_type w) (WebhookEvent.order_id w)
    (WebhookEvent.processed w) (Some t) (WebhookEvent.processed_at w)
    (WebhookEvent.error_message w) (WebhookEvent.retry_count w)
    (WebhookEvent.raw_payload w) (WebhookEvent.created_at w).

Definition mark_processing (event_id : UUID) : M unit :=
  t <- now ;;
  s <- get_state ;;
  set_webhook_events
    (sql_update (fun w => WebhookEvent.id w =? event_id)
       (set_processing t) (webhook_events s)) ;;
  emit (WebhookWrite event_id).

(** [values = {'processed': error_message is None, 'processed_at': now,
               'error_message': error_message};
     if order_id: values['order_id'] = order_id] *)
Definition set_processed (order_id : option UUID)
    (error_message : option string) (t : datetime) (w : WebhookEvent.t)
    : WebhookEvent.t :=
  WebhookEvent.mk (WebhookEvent.id w) (WebhookEvent.stripe_event_id w)
    (WebhookEvent.event_type w)
    (match order_id with
     | Some o => Some o
     | None => WebhookEvent.order_id w
     end)
    (match error_message with
     | None => true
     | Some _ => false
     end)
    (WebhookEvent.processing_started_at w) (Some t)
    error_message (WebhookEvent.retry_count w)
    (WebhookEvent.raw_payload w) (WebhookEvent.created_at w).

Definition mark_processed (event_id : UUID) (order_id : option UUID)
    (error_message : option string) : M unit :=
  t <- now ;;
  s <- get_state ;;
  set_webhook_events
    (sql_update (fun w => WebhookEvent.id w =? event_id)
       (set_processed order_id error_message t) (webhook_events s)) ;;
  emit (WebhookWrite event_id).

Definition bump_retry_count (w : WebhookEvent.t) : WebhookEvent.t :=
  WebhookEvent.mk (WebhookEvent.id w) (WebhookEvent.stripe_event_id w)
    (WebhookEvent.event_type w) (WebhookEvent.order_id w)
    (WebhookEvent.processed w) (WebhookEvent.processing_started_at w)
    (WebhookEvent.processed_at w) (WebhookEvent.error_message w)
    (WebhookEvent.retry_count w + 1)%Z
    (WebhookEvent.raw_payload w) (WebhookEvent.created_at w).

(** [retry_count] is an [integer] column: past 2147483647 the addition
    overflows and the statement fails with nothing written. *)
Definition increment_retry_count (event_id : UUID) : M unit :=
  s <- get_state ;;
  let where_ := fun w => WebhookEvent.id w =? event_id in
  if existsb (fun w => (INT32_MAX <? WebhookEvent.retry_count w + 1)%Z)
       (filter where_ (webhook_events s))
  then raise (DBAPIError "integer out of range")
  else
    set_webhook_events
      (sql_update where_ bump_retry_count (webhook_events s)) ;;
    emit (WebhookWrite event_id).

End WebhookEventRepository.

Module PaymentAuditRepository.

Definition log_action (order_id : UUID) (action : string)
    (new_status : OrderStatus) (old_status : option OrderStatus)
    (stripe_event_id : option string) (details : option string)
    : M PaymentAudit.t :=
  aid <- uuid4 ;;
  t <- now ;;
  let audit :=
    PaymentAudit.mk aid order_id action old_status new_status
      stripe_event_id details t in
  s <- get_state ;;
  set_payment_audit (payment_audit s ++ [audit]) ;;
  emit (AuditWrite order_id action) ;;
  ret audit.

(** [ORDER BY created_at ASC] *)
Fixpoint insert_asc (a : PaymentAudit.t) (l : list PaymentAudit.t)
    : list PaymentAudit.t :=
  match l with
  | [] => [a]
  | x :: r =>
      if PaymentAudit.created_at a <=? PaymentAudit.created_at x
      then a :: x :: r
      else x :: insert_asc a r
  end.

Definition order_by_created_at_asc (l : list PaymentAudit.t)
    : list PaymentAudit.t :=
  fold_right insert_asc [] l.

Definition get_order_history (order_id : UUID) : M (list PaymentAudit.t) :=
  s <- get_state ;;
  ret (order_by_created_at_asc
         (filter (fun a => PaymentAudit.order_id a =? order_id)
            (payment_audit s))).

End PaymentAuditRepository.

(** ** infrastructure/stripe/service.py *)

(** [str.lower()] on ASCII letters. *)
Definition lower_ascii (c : ascii) : ascii :=
  let n := nat_of_ascii c in
  if (65 <=? n) && (n <=? 90) then ascii_of_nat (n + 32) else c.

Fixpoint lower (s : string) : string :=
  match s with
  | EmptyString => EmptyString
  | String c r => String (lower_ascii c) (lower r)
  end.

(** [d.update(u)] on a dict kept as a list of items. *)
Definition dict_update (d u : list (string * string))
    : list (string * string) :=
  filter (fun kv => negb (existsb (fun kv' => String.eqb (fst kv') (fst kv)) u))
    d ++ u.

(** [int(amount * 100)]: a [Decimal] is kept in hundredths. *)
Definition amount_cents (amount : Decimal) : Z := amount.

(** Truth value of a [str]: the empty string is falsy. *)
Definition truthy (s : string) : bool := negb (String.eqb s "").



Module StripeService.

Definition create_payment_intent (env : Env) (order_id : UUID)
    (amount : Decimal) (currency : string)
    (metadata : list (string * string)) : M (string * string) :=
  let intent_metadata :=
    dict_update [("order_id", str_of_uuid env order_id)] metadata in
  emit (GatewayCreate order_id) ;;
  match stripe_PaymentIntent_create env (amount_cents amount)
          (lower currency) intent_metadata with
  | inl intent => ret intent
  | inr e => raise (Exception (String.append "Stripe error: " e))
  end.

Definition cancel_payment_intent (env : Env) (payment_intent_id : string)
    : M unit :=
  emit (GatewayCancel payment_intent_id) ;;
  match stripe_PaymentIntent_cancel env payment_intent_id with
  | None => ret tt
  | Some e => raise (Exception (String.append "Stripe error: " e))
  end.

Definition extract_order_id_from_event (env : Env) (event : StripeEvent)
    : option UUID :=
  if String.prefix "payment_intent." (ev_type event) then
    match pi_metadata_order_id event with
    | Some order_id_str =>
        if truthy order_id_str then uuid_of_string env order_id_str else None
    | None => None
    end
  else if String.prefix "charge." (ev_type event) then
    match pi_metadata_order_id event with
    | Some order_id_str =>
        if truthy order_id_str then uuid_of_string env order_id_str else None
    | None => None
    end
  else None.


End StripeService.

(** ** infrastructure/broker/events.py *)

Module OrderEventPublisher.

(** [broker.publish(...)] inside [try ... except Exception: log; raise].
    The three methods differ only in the routing key, which the event
    determines. *)
Definition publish (env : Env) (event : DomainEvent) : M unit :=
  match broker_publish env event with
  | None =>
      s <- get_state ;;
      set_broker (broker s ++ [event]) ;;
      emit (Publish (routing_key event) (event_order_id event) true)
  | Some e =>
      emit (Publish (routing_key event) (event_order_id event) false) ;;
      raise (BrokerError e)
  end.

Definition publish_order_created := publish.
Definition publish_order_paid := publish.
Definition publish_order_failed := publish.

End OrderEventPublisher.

(** ** config.py and domain/schemas.py *)

Record PackagePricing := {
  basic_price : Decimal;
  standard_price : Decimal;
  premium_price : Decimal
}.

Record PackageInfo := {
  pkg_type : PackageType;
  pkg_name : string;
  pkg_description : string;
  pkg_price : Decimal;
  pkg_currency : string;
  pkg_features : list string
}.

Record OrderCreate := {
  oc_package_type : PackageType;
  oc_metadata : OrderCreate_metadata
}.

Record PaymentIntentResponse := {
  pir_order_id : UUID;
  pir_client_secret : string;
  pir_amount : Decimal;
  pir_currency : string;
  pir_status : OrderStatus
}.

(** [OrderResponse.model_validate(order)] copies the columns of the row; the
    row itself stands for the response. *)
Definition OrderResponse := Order.t.

(** [f'{x}'] of a value that is a [str] or [None]. *)
Definition format_str (x : option string) : string :=
  match x with
  | Some m => m
  | None => "None"
  end.

(** [OrderFailedEvent(order_id=..., user_id=..., reason=..., failed_at=...)]:
    the field [reason: str] refuses [None] with a ValidationError. *)
Definition new_OrderFailedEvent (env : Env) (order_id user_id : UUID)
    (reason : option string) (failed_at : datetime) : M DomainEvent :=
  match reason with
  | Some r => ret (OrderFailedEvent order_id user_id r failed_at)
  | None => raise (ValidationError (str_ValidationError env))
  end.

(** ** application/billing_service.py *)

Module BillingService.

Section Service.

Variable env : Env.
Variable pricing : PackagePricing.

Definition get_package_info (package_type : PackageType) : PackageInfo :=
  match package_type with
  | BASIC =>
      Build_PackageInfo BASIC "Basic Package" "Perfect for small businesses"
        (basic_price pricing) "USD"
        ["1,000 impressions"; "Basic analytics"; "Email support"]
  | STANDARD =>
      Build_PackageInfo STANDARD "Standard Package"
        "Great for growing companies" (standard_price pricing) "USD"
        ["10,000 impressions"; "Advanced analytics";
         "Priority email support"; "A/B testing"]
  | PREMIUM =>
      Build_PackageInfo PREMIUM "Premium Package" "For established brands"
        (premium_price pricing) "USD"
        ["100,000 impressions"; "Full analytics suite";
         "24/7 phone support"; "A/B testing"; "Custom targeting"]
  end.

Definition get_all_packages : list PackageInfo :=
  [get_package_info BASIC; get_package_info STANDARD;
   get_package_info PREMIUM].

(** [json.dumps(order_data.metadata) if order_data.metadata else None] *)
Definition dump_metadata (m : OrderCreate_metadata) : option string :=
  match m with
  | Some (kv :: d) => Some (json_dumps env (kv :: d))
  | _ => None
  end.

Definition create_order (user_id : UUID) (order_data : OrderCreate)
    : M (OrderResponse * PaymentIntentResponse) :=
  let package_info := get_package_info (oc_package_type order_data) in
  order <- OrderRepository.create user_id (oc_package_type order_data)
             (pkg_price package_info) (pkg_currency package_info)
             (Some (pkg_name package_info))
             (dump_metadata (oc_metadata order_data)) ;;
  PaymentAuditRepository.log_action (Order.id order) "order_created"
    CREATED None None
    (Some (String.append "Package: "
             (str_PackageType (oc_package_type order_data)))) ;;
  r <- try_except
         (intent <- StripeService.create_payment_intent env
                      (Order.id order) (Order.amount order)
                      (Order.currency order)
                      [("package_type",
                        str_PackageType (oc_package_type order_data))] ;;
          let payment_intent_id := fst intent in
          let client_secret := snd intent in
          updated <- OrderRepository.update_payment_intent (Order.id order)
                       payment_intent_id client_secret ;;
          order <- deref updated ;;
          PaymentAuditRepository.log_action (Order.id order)
            "payment_intent_created" PENDING_PAYMENT (Some CREATED) None
            (Some (String.append "Payment Intent ID: " payment_intent_id)) ;;
          ret (order, client_secret))
         (fun e => raise e) ;;
  let order := fst r in
  let client_secret := snd r in
  OrderEventPublisher.publish_order_created env
    (OrderCreatedEvent (Order.id order) (Order.user_id order)
       (Order.package_type order) (Order.amount order)
       (Order.currency order) (Order.created_at order)) ;;
  ret (order,
       Build_PaymentIntentResponse (Order.id order) client_secret
         (Order.amount order) (Order.currency order) (Order.status order)).

Definition get_order (order_id user_id : UUID) : M OrderResponse :=
  order <- OrderRepository.get_by_id order_id ;;
  match order with
  | None => raise (ValueError "Order not found")
  | Some order =>
      if negb (Order.user_id order =? user_id)
      then raise (ValueError "Access denied")
      else ret order
  end.

Definition get_user_orders (user_id : UUID) (page page_size : Z)
    (status : option OrderStatus) : M (list OrderResponse * Z) :=
  let offset := ((page - 1) * page_size)%Z in
  OrderRepository.get_user_orders user_id page_size offset status.

(** [order.status not in [OrderStatus.CREATED, OrderStatus.PENDING_PAYMENT]] *)
Definition cancellable (s : OrderStatus) : bool :=
  existsb (OrderStatus_eqb s) [CREATED; PENDING_PAYMENT].

Definition cancel_order (order_id user_id : UUID) : M OrderResponse :=
  order <- OrderRepository.get_by_id order_id ;;
  match order with
  | None => raise (ValueError "Order not found")
  | Some order =>
      if negb (Order.user_id order =? user_id)
      then raise (ValueError "Access denied")
      else if negb (cancellable (Order.status order))
      then raise (ValueError
                    (String.append "Cannot cancel order with status "
                       (str_OrderStatus (Order.status order))))
      else
        match Order.stripe_payment_intent_id order with
        | Some payment_intent_id =>
            if truthy payment_intent_id
            then try_except
                   (StripeService.cancel_payment_intent env payment_intent_id)
                   (fun _ => ret tt)
            else ret tt
        | None => ret tt
        end ;;
        let old_status := Order.status order in
        updated <- OrderRepository.update_status (Order.id order)
                     CANCELLED None ;;
        order <- deref updated ;;
        PaymentAuditRepository.log_action (Order.id order) "order_cancelled"
          CANCELLED (Some old_status) None None ;;
        ret order
  end.

Definition _handle_payment_succeeded (event : StripeEvent)
    (webhook_event_id : UUID) : M unit :=
  let payment_intent_id := pi_id event in
  order <- OrderRepository.get_by_payment_intent_id payment_intent_id ;;
  match order with
  | None => ret tt
  | Some order =>
      WebhookEventRepository.mark_processed webhook_event_id
        (Some (Order.id order)) None ;;
      if OrderStatus_eqb (Order.status order) PAID then ret tt
      else
        let old_status := Order.status order in
        paid_at <- now ;;
        updated <- OrderRepository.update_status (Order.id order) PAID
                     (Some paid_at) ;;
        order <- deref updated ;;
        PaymentAuditRepository.log_action (Order.id order)
          "payment_succeeded" PAID (Some old_status) (Some (ev_id event))
          (Some (String.append "Payment Intent: " payment_intent_id)) ;;
        OrderEventPublisher.publish_order_paid env
          (OrderPaidEvent (Order.id order) (Order.user_id order)
             (Order.package_type order) (Order.amount order)
             (Order.currency order) paid_at payment_intent_id)
  end.

(** [payment_intent.get('last_payment_error', {}).get('message', 'Unknown error')]:
    a [str], or [None] when the message is there and null. *)
Definition failure_message (event : StripeEvent) : M (option string) :=
  match pi_last_payment_error event with
  | LpeAbsent => ret (Some "Unknown error")
  | LpeNone => raise (AttributeError "'NoneType' object has no attribute 'get'")
  | LpeDict MessageAbsent => ret (Some "Unknown error")
  | LpeDict MessageNone => ret None
  | LpeDict (MessageStr m) => ret (Some m)
  end.

Definition _handle_payment_failed (event : StripeEvent)
    (webhook_event_id : UUID) : M unit :=
  let payment_intent_id := pi_id event in
  order <- OrderRepository.get_by_payment_intent_id payment_intent_id ;;
  match order with
  | None => ret tt
  | Some order =>
      WebhookEventRepository.mark_processed webhook_event_id
        (Some (Order.id order)) None ;;
      let old_status := Order.status order in
      updated <- OrderRepository.update_status (Order.id order) FAILED None ;;
      error_message <- failure_message event ;;
      order <- deref updated ;;
      PaymentAuditRepository.log_action (Order.id order) "payment_failed"
        FAILED (Some old_status) (Some (ev_id event))
        (Some (String.append "Error: " (format_str error_message))) ;;
      failed_at <- now ;;
      failed_event <- new_OrderFailedEvent env (Order.id order)
                        (Order.user_id order) error_message failed_at ;;
      OrderEventPublisher.publish_order_failed env failed_event
  end.

Definition _handle_payment_canceled (event : StripeEvent)
    (webhook_event_id : UUID) : M unit :=
  let payment_intent_id := pi_id event in
  order <- OrderRepository.get_by_payment_intent_id payment_intent_id ;;
  match order with
  | None => ret tt
  | Some order =>
      WebhookEventRepository.mark_processed webhook_event_id
        (Some (Order.id order)) None ;;
      let old_status := Order.status order in
      updated <- OrderRepository.update_status (Order.id order)
                   CANCELLED None ;;
      order <- deref updated ;;
      PaymentAuditRepository.log_action (Order.id order) "payment_canceled"
        CANCELLED (Some old_status) (Some (ev_id event)) None ;;
      ret tt
  end.

(** Lines 243-260 of [process_webhook]: the look-up in the ledger.  [None]
    is the early [return] for an event already processed. *)
Definition begin_processing (stripe_event : StripeEvent)
    (raw_payload : string) : M (option UUID) :=
  let event_id := ev_id stripe_event in
  let event_type := ev_type stripe_event in
  existing_event <- WebhookEventRepository.get_by_stripe_event_id event_id ;;
  match existing_event with
  | Some existing_event =>
      if WebhookEvent.processed existing_event then ret None
      else
        WebhookEventRepository.increment_retry_count
          (WebhookEvent.id existing_event) ;;
        WebhookEventRepository.mark_processing
          (WebhookEvent.id existing_event) ;;
        ret (Some (WebhookEvent.id existing_event))
  | None =>
      let order_id :=
        StripeService.extract_order_id_from_event env stripe_event in
      existing_event <- WebhookEventRepository.create event_id event_type
                          raw_payload order_id ;;
      WebhookEventRepository.mark_processing
        (WebhookEvent.id existing_event) ;;
      ret (Some (WebhookEvent.id existing_event))
  end.

(** The [if / elif / else] on the event type inside the [try]. *)
Definition dispatch (stripe_event : StripeEvent) (webhook_event_id : UUID)
    : M unit :=
  let event_type := ev_type stripe_event in
  if String.eqb event_type "payment_intent.succeeded" then
    _handle_payment_succeeded stripe_event webhook_event_id
  else if String.eqb event_type "payment_intent.payment_failed" then
    _handle_payment_failed stripe_event webhook_event_id
  else if String.eqb event_type "payment_intent.canceled" then
    _handle_payment_canceled stripe_event webhook_event_id
  else ret tt.

(** Lines 262-281: the [try] around the dispatch and its [except]. *)
Definition finish_processing (stripe_event : StripeEvent)
    (webhook_event_id : UUID) : M unit :=
  try_except
    (dispatch stripe_event webhook_event_id ;;
     WebhookEventRepository.mark_processed webhook_event_id None None)
    (fun e =>
       let error_msg :=
         String.append "Error processing webhook: " (str_exn e) in
       WebhookEventRepository.mark_processed webhook_event_id None
         (Some error_msg) ;;
       raise e).

Definition process_webhook (stripe_event : StripeEvent)
    (raw_payload : string) : M unit :=
  started <- begin_processing stripe_event raw_payload ;;
  match started with
  | None => ret tt
  | Some webhook_event_id => finish_processing stripe_event webhook_event_id
  end.

End Service.

End BillingService.

(** The values of [PackageType], and [PackageType(value)], which raises
    ValueError (here [None]) for any other string. *)
Definition PackageType_value (p : PackageType) : string :=
  match p with
  | BASIC => "basic"
  | STANDARD => "standard"
  | PREMIUM => "premium"
  end.

Definition PackageType_of_value (s : string) : option PackageType :=
  if String.eqb s "basic" then Some BASIC
  else if String.eqb s "standard" then Some STANDARD
  else if String.eqb s "premium" then Some PREMIUM
  else None.

(** ** presentation/billing.py *)

Inductive HttpResult (A : Type) :=
| Response (body : A)
| HTTPException (status_code : nat) (detail : string).
Arguments Response {A} body.
Arguments HTTPException {A} status_code detail.

Definition HTTP_404_NOT_FOUND := 404.
Definition HTTP_400_BAD_REQUEST := 400.

Module Presentation.

(** [try: return await billing_service.get_order(order_id, user_id)
     except ValueError as e: raise HTTPException(404, str(e))
     except Exception as e: raise HTTPException(400, str(e))] *)
Definition get_order (order_id user_id : UUID) (s : State)
    : HttpResult OrderResponse * State :=
  match BillingService.get_order order_id user_id s with
  | (Ok r, s') => (Response r, s')
  | (Raise e, s') =>
      if is_ValueError e
      then (HTTPException HTTP_404_NOT_FOUND (str_exn e), s')
      else (HTTPException HTTP_400_BAD_REQUEST (str_exn e), s')
  end.

Definition cancel_order (env : Env) (order_id user_id : UUID) (s : State)
    : HttpResult OrderResponse * State :=
  match BillingService.cancel_order env order_id user_id s with
  | (Ok r, s') => (Response r, s')
  | (Raise e, s') =>
      if is_ValueError e
      then (HTTPException HTTP_400_BAD_REQUEST (str_exn e), s')
      else (HTTPException HTTP_400_BAD_REQUEST (str_exn e), s')
  end.

Definition get_packages (pricing : PackagePricing) : list PackageInfo :=
  BillingService.get_all_packages pricing.

(** [try: return get_package_info(PackageType(package_type))
     except ValueError: raise HTTPException(404, 'Package not found')] *)
Definition get_package (pricing : PackagePricing) (package_type : string)
    : HttpResult PackageInfo :=
  match PackageType_of_value package_type with
  | Some pkg_type => Response (BillingService.get_package_info pricing pkg_type)
  | None => HTTPException HTTP_404_NOT_FOUND "Package not found"
  end.

Definition create_order (env : Env) (pricing : PackagePricing)
    (order_data : OrderCreate) (user_id : UUID) (s : State)
    : HttpResult (OrderResponse * PaymentIntentResponse) * State :=
  match BillingService.create_order env pricing user_id order_data s with
  | (Ok r, s') => (Response r, s')
  | (Raise e, s') => (HTTPException HTTP_400_BAD_REQUEST (str_exn e), s')
  end.

Record OrderListResponse := {
  olr_orders : list OrderResponse;
  olr_total : Z;
  olr_page : Z;
  olr_page_size : Z
}.

Definition get_orders (user_id : UUID) (page page_size : Z)
    (order_status : option OrderStatus) (s : State)
    : HttpResult OrderListResponse * State :=
  if (page <? 1)%Z then (HTTPException 400 "Page must be >= 1", s)
  else if ((page_size <? 1) || (100 <? page_size))%Z
  then (HTTPException 400 "Page size must be between 1 and 100", s)
  else
    match BillingService.get_user_orders user_id page page_size
            order_status s with
    | (Ok (orders, total), s') =>
        (Response (Build_OrderListResponse orders total page page_size), s')
    | (Raise e, s') => (HTTPException HTTP_400_BAD_REQUEST (str_exn e), s')
    end.



End Presentation.

(** ** Vocabulary of the properties *)

(** [paid], [failed] and [cancelled] have no successor in the state machine. *)
Definition terminal (s : OrderStatus) : bool :=
  match s with
  | PAID | FAILED | CANCELLED => true
  | CREATED | PENDING_PAYMENT => false
  end.

(** An order matches a listing request. *)
Definition matches (user_id : UUID) (status : option OrderStatus)
    (o : Order.t) : Prop :=
  Order.user_id o = user_id /\
  match status with
  | Some st => Order.status o = st
  | None => True
  end.

(** Newest first. *)
Definition newer_or_same (a b : Order.t) : Prop :=
  Order.created_at b <= Order.created_at a.

(** ** Sample data *)

Definition sample_pricing : PackagePricing :=
  Build_PackagePricing 999%Z 2999%Z 9999%Z.

(** Provider and broker both answer. *)
Definition env_up : Env := {|
  stripe_PaymentIntent_create := fun _ _ _ => inl ("pi_1", "pi_1_secret");
  stripe_PaymentIntent_cancel := fun _ => None;
  broker_publish := fun _ => None;
  uuid_of_string := fun _ => None;
  str_of_uuid := fun _ => "00000000-0000-0000-0000-000000000000";
  json_dumps := fun _ => "{}";
  str_ValidationError := "1 validation error for OrderFailedEvent"
|}.

(** The provider refuses every call. *)
Definition env_gateway_down : Env := {|
  stripe_PaymentIntent_create := fun _ _ _ => inr "api connection error";
  stripe_PaymentIntent_cancel := fun _ => Some "api connection error";
  broker_publish := fun _ => None;
  uuid_of_string := fun _ => None;
  str_of_uuid := fun _ => "00000000-0000-0000-0000-000000000000";
  json_dumps := fun _ => "{}";
  str_ValidationError := "1 validation error for OrderFailedEvent"
|}.

(** The broker refuses every message. *)
Definition env_broker_down : Env := {|
  stripe_PaymentIntent_create := fun _ _ _ => inl ("pi_1", "pi_1_secret");
  stripe_PaymentIntent_cancel := fun _ => None;
  broker_publish := fun _ => Some "connection closed";
  uuid_of_string := fun _ => None;
  str_of_uuid := fun _ => "00000000-0000-0000-0000-000000000000";
  json_dumps := fun _ => "{}";
  str_ValidationError := "1 validation error for OrderFailedEvent"
|}.

Definition sample_order (id user_id : UUID) (status : OrderStatus)
    (intent : option string) (created_at : datetime)
    (paid_at : option datetime) : Order.t :=
  Order.mk id user_id STANDARD 2999%Z "USD" status intent intent
    (Some "Standard Package") None created_at created_at paid_at.

(** One order of user 7, paid at time 5. *)
Definition state_paid : State :=
  mkState [sample_order 0 7 PAID (Some "pi_1") 0 (Some 5)] [] [] [] [] 10 1.

(** Two paid orders, of users 7 and 8, each with its own payment intent. *)
Definition state_two_paid : State :=
  mkState [sample_order 0 7 PAID (Some "pi_1") 0 (Some 5);
           sample_order 1 8 PAID (Some "pi_2") 1 (Some 6)] [] [] [] [] 10 2.

(** One order of user 7, waiting for its payment. *)
Definition state_pending : State :=
  mkState [sample_order 0 7 PENDING_PAYMENT (Some "pi_1") 0 None]
    [] [] [] [] 10 1.

Definition sample_event (id type : string) : StripeEvent :=
  Build_StripeEvent id type "pi_1" None LpeAbsent.

(** ** Reasoning about a run *)

(** [wp m Q s]: running [m] from [s] ends in a result and a state that
    satisfy [Q]. Every [m] of this development is total, so this is no
    partial-correctness statement. *)
Definition wp {A} (m : M A) (Q : Res A -> State -> Prop) (s : State) : Prop :=
  Q (fst (m s)) (snd (m s)).

(** The order a provider event resolves to: the one row that carries the
    payment intent of the event. *)
Definition resolves_to (ev : StripeEvent) (st : State) (o : Order.t) : Prop :=
  fst (OrderRepository.get_by_payment_intent_id (pi_id ev) st) = Ok (Some o).

(** The columns of an order that no statement of the repository assigns
    after the insert. *)
Definition order_core (o : Order.t)
    : UUID * UUID * PackageType * Decimal * string * option string *
      option string * datetime :=
  (Order.id o, Order.user_id o, Order.package_type o, Order.amount o,
   Order.currency o, Order.description o, Order.extra_metadata o,
   Order.created_at o).

(** The status a provider event asks for. *)
Definition event_target (event_type : string) : option OrderStatus :=
  if String.eqb event_type "payment_intent.succeeded" then Some PAID
  else if String.eqb event_type "payment_intent.payment_failed" then Some FAILED
  else if String.eqb event_type "payment_intent.canceled" then Some CANCELLED
  else None.

(** The three effects whose order matters. *)
Definition is_core (e : Effect) : bool :=
  match e with
  | OrderUpdate _ _ | AuditWrite _ _ | Publish _ _ _ => true
  | _ => false
  end.

(** Store mutation, then audit write, then publish, all for one order; the
    sequence may stop early but never reorders. *)
Definition store_audit_publish (l : list Effect) : bool :=
  match filter is_core l with
  | [] => true
  | [OrderUpdate _ _] => true
  | [OrderUpdate o _; AuditWrite o' _] => o =? o'
  | [OrderUpdate o _; AuditWrite o' _; Publish _ o'' _] =>
      (o =? o') && (o' =? o'')
  | _ => false
  end.

(** The ledger row of a provider event: what identifies it. *)
Definition ledger_key (w : WebhookEvent.t) : UUID * string :=
  (WebhookEvent.id w, WebhookEvent.stripe_event_id w).

(** The rows of the ledger that belong to one provider event. *)
Definition same_event (event_id : string) (w : WebhookEvent.t) : bool :=
  String.eqb (WebhookEvent.stripe_event_id w) event_id.

(** ** Histories of the orchestrator *)

Inductive Op :=
| CreateOrder (user_id : UUID) (order_data : OrderCreate)
| GetOrder (order_id user_id : UUID)
| ListOrders (user_id : UUID) (page page_size : Z)
    (status : option OrderStatus)
| CancelOrder (order_id user_id : UUID)
| ProcessWebhook (stripe_event : StripeEvent) (raw_payload : string).

(** The state an operation leaves, whether it returned or raised. *)
Definition run_op (env : Env) (pricing : PackagePricing) (op : Op)
    (st : State) : State :=
  match op with
  | CreateOrder user_id order_data =>
      snd (BillingService.create_order env pricing user_id order_data st)
  | GetOrder order_id user_id =>
      snd (BillingService.get_order order_id user_id st)
  | ListOrders user_id page page_size status =>
      snd (BillingService.get_user_orders user_id page page_size status st)
  | CancelOrder order_id user_id =>
      snd (BillingService.cancel_order env order_id user_id st)
  | ProcessWebhook stripe_event raw_payload =>
      snd (BillingService.process_webhook env stripe_event raw_payload st)
  end.

(** The states the service went through, newest first, starting from empty
    tables; provider, broker and configuration may differ at every step. *)
Inductive history : list State -> Prop :=
| history_init : history [initial_state]
| history_step env pricing op st past :
    history (st :: past) ->
    history (run_op env pricing op st :: st :: past).

(** The order is, or at some earlier point was, paid. *)
Definition was_paid (order_id : UUID) (h : list State) : Prop :=
  exists s o,
    In s h /\ In o (orders s) /\
    Order.id o = order_id /\ Order.status o = PAID.

(** Primary keys are distinct and were all drawn from the supply. *)
Definition keys_ok (st : State) : Prop :=
  NoDup (map Order.id (orders st)) /\
  forall o, In o (orders st) -> Order.id o < uuid_supply st.

(** How a row of the new orders table relates to the old table: it continues
    a row with the same id, with [paid_at] untouched or set on entering
    [PAID], or it is a new row without [paid_at]. *)
Definition row_step (st st' : State) (o' : Order.t) : Prop :=
  (exists o,
     In o (orders st) /\ Order.id o' = Order.id o /\
     ((Order.paid_at o' = Order.paid_at o /\
       (Order.status o' = PAID -> Order.status o = PAID)) \/
      (Order.status o' = PAID /\ Order.paid_at o' <> None /\
       Order.status o <> PAID))) \/
  (Order.id o' = uuid_supply st /\ uuid_supply st < uuid_supply st' /\
   Order.paid_at o' = None /\ Order.status o' <> PAID).

(** What holds of every history: keys in order, every id ever seen below
    the current supply, and [paid_at] telling whether the order was paid. *)
Definition history_ok (h : list State) : Prop :=
  match h with
  | [] => False
  | st :: past =>
      keys_ok st /\
      (forall s o, In s (st :: past) -> In o (orders s) ->
                   Order.id o < uuid_supply st) /\
      (forall o, In o (orders st) ->
                 (Order.paid_at o <> None <->
                  was_paid (Order.id o) (st :: past)))
  end.

(** An order is created for user 7, then its payment succeeds. *)
Definition state_created : State :=
  run_op env_up sample_pricing (CreateOrder 7 (Build_OrderCreate STANDARD None))
    initial_state.

Definition state_after_payment : State :=
  run_op env_up sample_pricing
    (ProcessWebhook (sample_event "evt_1" "payment_intent.succeeded") "{}")
    state_created.

(** ** Vocabulary of the further properties *)

(** Oldest first. *)
Definition older_or_same (a b : PaymentAudit.t) : Prop :=
  PaymentAudit.created_at a <= PaymentAudit.created_at b.

(** The configured price of a package. *)
Definition price_of (pricing : PackagePricing) (p : PackageType) : Decimal :=
  match p with
  | BASIC => basic_price pricing
  | STANDARD => standard_price pricing
  | PREMIUM => premium_price pricing
  end.

(** The columns of a ledger row that stay as inserted. *)
Definition ledger_core (w : WebhookEvent.t)
    : UUID * string * string * string * datetime :=
  (WebhookEvent.id w, WebhookEvent.stripe_event_id w,
   WebhookEvent.event_type w, WebhookEvent.raw_payload w,
   WebhookEvent.created_at w).

(** [l'] is [l] with rows added at the end. *)
Definition extends {A} (l l' : list A) : Prop := exists extra, l' = l ++ extra.

(** The payment-intent ids attached to orders, in table order. *)
Definition intent_ids (rows : list Order.t) : list string :=
  flat_map (fun o => match Order.stripe_payment_intent_id o with
                     | Some p => [p]
                     | None => []
                     end) rows.



(** The pending order of user 7 with a ledger row for provider event
    "evt_1" that was tried 2147483646 times and never processed. *)
Definition state_many_retries : State :=
  mkState [sample_order 0 7 PENDING_PAYMENT (Some "pi_1") 0 None]
    [WebhookEvent.mk 1 "evt_1" "payment_intent.succeeded" None false
       (Some 1) (Some 2) (Some "Error processing webhook: connection closed")
       2147483646%Z "{}" 0]
    [] [] [] 10 2.

(** One order of user 7, created and not yet given a payment intent. *)
Definition state_created_no_intent : State :=
  mkState [sample_order 0 7 CREATED None 0 None] [] [] [] [] 10 1.

(** The order row after a successful [create_order]. *)
Definition created_order (pricing : PackagePricing) (env : Env)
    (st : State) (user_id : UUID) (order_data : OrderCreate)
    (intent secret : string) : Order.t :=
  Order.mk (uuid_supply st) user_id (oc_package_type order_data)
    (price_of pricing (oc_package_type order_data)) "USD" PENDING_PAYMENT
    (Some intent) (Some secret)
    (Some (pkg_name (BillingService.get_package_info pricing
                       (oc_package_type order_data))))
    (BillingService.dump_metadata env (oc_metadata order_data))
    (clock st) (clock st + 2) None.

(** The reason a payment-failed event gives: the message of its
    [last_payment_error], or "Unknown error" when there is none. *)
Definition failure_reason (event : StripeEvent) : string :=
  match pi_last_payment_error event with
  | LpeDict (MessageStr m) => m
  | _ => "Unknown error"
  end.

(** * Properties *)

(** ** Running the repositories *)

Lemma get_by_id_reads order_id st :
  snd (OrderRepository.get_by_id order_id st) = st.
Proof.
  unfold OrderRepository.get_by_id, bind, get_state, scalar_one_or_none.
  destruct (filter _ _) as [|x [|y l]]; reflexivity.
Qed.

Lemma get_by_id_run order_id st r :
  fst (OrderRepository.get_by_id order_id st) = r ->
  OrderRepository.get_by_id order_id st = (r, st).
Proof.
  intros <-. rewrite <- (get_by_id_reads order_id st) at 3.
  destruct (OrderRepository.get_by_id order_id st); reflexivity.
Qed.

Lemma cancel_order_rejects_terminal env st order_id user_id o :
  fst (OrderRepository.get_by_id order_id st) = Ok (Some o) ->
  Order.user_id o = user_id ->
  terminal (Order.status o) = true ->
  BillingService.cancel_order env order_id user_id st =
    (Raise (ValueError (String.append "Cannot cancel order with status "
                          (str_OrderStatus (Order.status o)))), st).
Proof.
  intros Hget Hown Hterm.
  unfold BillingService.cancel_order, bind.
  rewrite (get_by_id_run _ _ _ Hget).
  rewrite Hown, Nat.eqb_refl. cbn [negb].
  destruct (Order.status o); try discriminate; reflexivity.
Qed.

(** ** C7: cancelling a terminal order *)

(** C7. When the order found under [order_id] belongs to the caller and is
    paid, failed or cancelled, [cancel_order] raises the ValueError
    "Cannot cancel order with status ..." and returns the state it was given:
    no row is written, the trace gains no effect, so no gateway
    cancellation is attempted. *)
Theorem cancel_order_terminal_fails env st order_id user_id o :
  fst (OrderRepository.get_by_id order_id st) = Ok (Some o) ->
  Order.user_id o = user_id ->
  terminal (Order.status o) = true ->
  fst (BillingService.cancel_order env order_id user_id st) =
    Raise (ValueError (String.append "Cannot cancel order with status "
                         (str_OrderStatus (Order.status o)))) /\
  snd (BillingService.cancel_order env order_id user_id st) = st /\
  trace (snd (BillingService.cancel_order env order_id user_id st)) = trace st.
Proof.
  intros Hget Hown Hterm.
  rewrite (cancel_order_rejects_terminal env st order_id user_id o Hget Hown Hterm).
  cbn [fst snd]. repeat split.
Qed.

Lemma cancel_order_terminal_fails_witness :
  fst (BillingService.cancel_order env_up 0 7 state_paid) =
    Raise (ValueError "Cannot cancel order with status OrderStatus.PAID") /\
  snd (BillingService.cancel_order env_up 0 7 state_paid) = state_paid.
Proof.
  destruct (cancel_order_terminal_fails env_up state_paid 0 7
              (sample_order 0 7 PAID (Some "pi_1") 0 (Some 5))
              eq_refl eq_refl eq_refl) as (H1 & H2 & _).
  split; [exact H1 | exact H2].
Defined.

(** ** C10: how the two endpoints classify a foreign order *)

Lemma get_order_foreign st order_id user_id o :
  fst (OrderRepository.get_by_id order_id st) = Ok (Some o) ->
  Order.user_id o <> user_id ->
  BillingService.get_order order_id user_id st =
    (Raise (ValueError "Access denied"), st).
Proof.
  intros Hget Hown.
  unfold BillingService.get_order, bind.
  rewrite (get_by_id_run _ _ _ Hget).
  apply Nat.eqb_neq in Hown. rewrite Hown. reflexivity.
Qed.

Lemma get_order_absent st order_id user_id :
  fst (OrderRepository.get_by_id order_id st) = Ok None ->
  BillingService.get_order order_id user_id st =
    (Raise (ValueError "Order not found"), st).
Proof.
  intros Hget.
  unfold BillingService.get_order, bind.
  rewrite (get_by_id_run _ _ _ Hget). reflexivity.
Qed.

Lemma cancel_order_foreign env st order_id user_id o :
  fst (OrderRepository.get_by_id order_id st) = Ok (Some o) ->
  Order.user_id o <> user_id ->
  BillingService.cancel_order env order_id user_id st =
    (Raise (ValueError "Access denied"), st).
Proof.
  intros Hget Hown.
  unfold BillingService.cancel_order, bind.
  rewrite (get_by_id_run _ _ _ Hget).
  apply Nat.eqb_neq in Hown. rewrite Hown. reflexivity.
Qed.

(** C10, as the code has it. For an existing order requested by somebody
    else, the get-order endpoint answers 404 with detail "Access denied" and
    the cancel-order endpoint answers 400 with the same detail; an absent
    order gets 404 as well, with detail "Order not found". The status code of
    the get-order endpoint is the same in both cases, the detail is not. *)
Theorem foreign_order_status_codes env st order_id user_id o :
  fst (OrderRepository.get_by_id order_id st) = Ok (Some o) ->
  Order.user_id o <> user_id ->
  Presentation.get_order order_id user_id st =
    (HTTPException HTTP_404_NOT_FOUND "Access denied", st) /\
  Presentation.cancel_order env order_id user_id st =
    (HTTPException HTTP_400_BAD_REQUEST "Access denied", st) /\
  (forall absent_id,
     fst (OrderRepository.get_by_id absent_id st) = Ok None ->
     Presentation.get_order absent_id user_id st =
       (HTTPException HTTP_404_NOT_FOUND "Order not found", st)).
Proof.
  intros Hget Hown. split; [|split].
  - unfold Presentation.get_order.
    rewrite (get_order_foreign _ _ _ _ Hget Hown). reflexivity.
  - unfold Presentation.cancel_order.
    rewrite (cancel_order_foreign env _ _ _ _ Hget Hown). reflexivity.
  - intros absent_id Habs. unfold Presentation.get_order.
    rewrite (get_order_absent _ _ _ Habs). reflexivity.
Qed.

Lemma foreign_order_status_codes_witness :
  Presentation.get_order 0 8 state_paid =
    (HTTPException 404 "Access denied", state_paid) /\
  Presentation.cancel_order env_up 0 8 state_paid =
    (HTTPException 400 "Access denied", state_paid).
Proof.
  destruct (foreign_order_status_codes env_up state_paid 0 8
              (sample_order 0 7 PAID (Some "pi_1") 0 (Some 5)) eq_refl)
    as (H1 & H2 & _).
  - cbn. lia.
  - split; [exact H1 | exact H2].
Defined.

(** C10 as stated fails on "indistinguishable from absence": user 8 asking
    for order 0 (owned by user 7) and for order 1 (absent) gets two
    different answers, since the detail carries the service's message. *)
Lemma foreign_order_distinguishable_from_absent :
  fst (OrderRepository.get_by_id 0 state_paid) =
    Ok (Some (sample_order 0 7 PAID (Some "pi_1") 0 (Some 5))) /\
  fst (OrderRepository.get_by_id 1 state_paid) = Ok None /\
  fst (Presentation.get_order 0 8 state_paid) =
    HTTPException 404 "Access denied" /\
  fst (Presentation.get_order 1 8 state_paid) =
    HTTPException 404 "Order not found" /\
  fst (Presentation.get_order 0 8 state_paid) <>
    fst (Presentation.get_order 1 8 state_paid).
Proof.
  repeat split; try reflexivity. cbv. discriminate.
Qed.

(** ** C8: the gateway fails while an order is created *)

(** C8. If the provider refuses the payment intent, [create_order] raises
    "Stripe error: ..." to its caller; the order inserted before the call is
    still there, alone at the end of the table, in status [CREATED] and
    without intent; so is its [order_created] audit row; the broker has
    received nothing and no publish was attempted. *)
Theorem create_order_gateway_failure env pricing st user_id order_data err :
  (forall amount currency metadata,
     stripe_PaymentIntent_create env amount currency metadata = inr err) ->
  let run := BillingService.create_order env pricing user_id order_data st in
  fst run = Raise (Exception (String.append "Stripe error: " err)) /\
  (exists o,
     orders (snd run) = orders st ++ [o] /\
     Order.id o = uuid_supply st /\
     Order.user_id o = user_id /\
     Order.status o = CREATED /\
     Order.stripe_payment_intent_id o = None /\
     Order.paid_at o = None) /\
  (exists a,
     payment_audit (snd run) = payment_audit st ++ [a] /\
     PaymentAudit.order_id a = uuid_supply st /\
     PaymentAudit.action a = "order_created" /\
     PaymentAudit.new_status a = CREATED) /\
  broker (snd run) = broker st /\
  trace (snd run) =
    trace st ++ [OrderInsert (uuid_supply st);
                 AuditWrite (uuid_supply st) "order_created";
                 GatewayCreate (uuid_supply st)].
Proof.
  intros Hfail run. subst run.
  cbv beta iota zeta delta [BillingService.create_order OrderRepository.create
    PaymentAuditRepository.log_action StripeService.create_payment_intent
    try_except bind uuid4 now get_state set_orders set_payment_audit
    emit modify ret raise fst snd
    orders webhook_events payment_audit broker trace clock uuid_supply].
  rewrite Hfail.
  cbv beta iota zeta delta [fst snd raise
    orders webhook_events payment_audit broker trace clock uuid_supply].
  repeat split.
  - eexists. repeat split.
  - eexists. repeat split.
  - rewrite <- !app_assoc. reflexivity.
Qed.

Lemma create_order_gateway_failure_witness :
  fst (BillingService.create_order env_gateway_down sample_pricing 7
         (Build_OrderCreate BASIC None) initial_state) =
    Raise (Exception "Stripe error: api connection error") /\
  map Order.status
    (orders (snd (BillingService.create_order env_gateway_down sample_pricing
                    7 (Build_OrderCreate BASIC None) initial_state))) =
    [CREATED].
Proof.
  destruct (create_order_gateway_failure env_gateway_down sample_pricing
              initial_state 7 (Build_OrderCreate BASIC None)
              "api connection error" (fun _ _ _ => eq_refl))
    as (H1 & _).
  split; [exact H1 | reflexivity].
Defined.

(** ** C9: one page of a user's orders *)

Lemma insert_desc_perm o l : Permutation (insert_desc o l) (o :: l).
Proof.
  induction l as [|x r IH]; cbn.
  - apply Permutation_refl.
  - destruct (Order.created_at x <=? Order.created_at o).
    + apply Permutation_refl.
    + apply perm_trans with (x :: o :: r).
      * apply perm_skip, IH.
      * apply perm_swap.
Qed.

Lemma order_by_created_at_desc_perm l :
  Permutation (order_by_created_at_desc l) l.
Proof.
  induction l as [|x r IH]; cbn.
  - apply perm_nil.
  - eapply perm_trans; [apply insert_desc_perm|]. apply perm_skip, IH.
Qed.

Lemma insert_desc_hd o l a :
  newer_or_same a o -> HdRel newer_or_same a l ->
  HdRel newer_or_same a (insert_desc o l).
Proof.
  intros Hao Hl. destruct l as [|x r]; cbn.
  - constructor. exact Hao.
  - destruct (Order.created_at x <=? Order.created_at o).
    + constructor. exact Hao.
    + constructor. inversion Hl; assumption.
Qed.

Lemma insert_desc_sorted o l :
  Sorted newer_or_same l -> Sorted newer_or_same (insert_desc o l).
Proof.
  induction 1 as [|x r Hr IH Hhd]; cbn.
  - repeat constructor.
  - destruct (Order.created_at x <=? Order.created_at o) eqn:E.
    + constructor; [constructor; assumption|].
      constructor. apply Nat.leb_le in E. exact E.
    + constructor; [exact IH|].
      apply insert_desc_hd; [|exact Hhd].
      apply Nat.leb_gt in E. unfold newer_or_same. lia.
Qed.

Lemma order_by_created_at_desc_sorted l :
  Sorted newer_or_same (order_by_created_at_desc l).
Proof.
  induction l as [|x r IH]; cbn.
  - constructor.
  - apply insert_desc_sorted, IH.
Qed.

Lemma OrderStatus_eqb_eq a b : OrderStatus_eqb a b = true <-> a = b.
Proof. destruct a, b; cbn; split; congruence. Qed.

Lemma user_query_matches user_id status rows o :
  In o (OrderRepository.user_query user_id status rows) <->
  In o rows /\ matches user_id status o.
Proof.
  unfold OrderRepository.user_query, matches.
  destruct status as [st|]; rewrite ?filter_In, ?Nat.eqb_eq,
    ?OrderStatus_eqb_eq; tauto.
Qed.

Lemma in_int64_iff z :
  in_int64 z = true <-> (INT64_MIN <= z <= INT64_MAX)%Z.
Proof.
  unfold in_int64. rewrite andb_true_iff, !Z.leb_le. tauto.
Qed.

Lemma in_int64_true z :
  (INT64_MIN <= z <= INT64_MAX)%Z -> in_int64 z = true.
Proof. apply in_int64_iff. Qed.

(** C9, as the code has it. Let [ranked] be the caller's orders that pass
    the status filter, put newest first as the query orders them. For every
    page [p >= 1] and page size [s >= 0] such that [s] and the offset
    [(p-1)*s] fit the database's [bigint], [get_user_orders] returns without
    error, leaves the state alone, and yields the rows of [ranked] at ranks
    (p-1)*s+1 .. p*s (row [i] of the page is row [(p-1)*s + i] of [ranked],
    and the page stops where [ranked] does) together with the length of
    [ranked], which neither [p] nor [s] enters. For every other page size
    (negative, or too large, or giving too large an offset) the call raises
    the database's error, again with the state left alone. *)
Theorem get_user_orders_page st user_id status :
  let ranked :=
    order_by_created_at_desc
      (OrderRepository.user_query user_id status (orders st)) in
  Sorted newer_or_same ranked /\
  (forall o, In o ranked <-> In o (orders st) /\ matches user_id status o) /\
  Permutation ranked (OrderRepository.user_query user_id status (orders st)) /\
  (forall p s : Z,
     (1 <= p)%Z -> (0 <= s <= INT64_MAX)%Z -> ((p - 1) * s <= INT64_MAX)%Z ->
     exists page,
       BillingService.get_user_orders user_id p s status st =
         (Ok (page, Z.of_nat (List.length ranked)), st) /\
       (forall i, i < Z.to_nat s ->
          nth_error page i = nth_error ranked (Z.to_nat ((p - 1) * s) + i)) /\
       List.length page =
         Nat.min (Z.to_nat s) (List.length ranked - Z.to_nat ((p - 1) * s))) /\
  (forall p s : Z,
     (1 <= p)%Z ->
     (s < 0 \/ INT64_MAX < s \/ INT64_MAX < (p - 1) * s)%Z ->
     exists msg,
       BillingService.get_user_orders user_id p s status st =
         (Raise (DBAPIError msg), st)).
Proof.
  intro ranked. split; [|split; [|split; [|split]]].
  - apply order_by_created_at_desc_sorted.
  - intro o. rewrite <- user_query_matches. subst ranked. split.
    + apply Permutation_in, order_by_created_at_desc_perm.
    + apply Permutation_in, Permutation_sym, order_by_created_at_desc_perm.
  - apply order_by_created_at_desc_perm.
  - intros p s Hp Hs Hoff.
    exists (firstn (Z.to_nat s) (skipn (Z.to_nat ((p - 1) * s)) ranked)).
    split; [|split].
    + unfold BillingService.get_user_orders, OrderRepository.get_user_orders,
        bind, get_state.
      rewrite (in_int64_true s), (in_int64_true ((p - 1) * s))
        by (unfold INT64_MIN, INT64_MAX in *; nia).
      cbn [negb orb].
      destruct (Z.ltb_spec ((p - 1) * s) 0) as [Hneg|_]; [nia|].
      destruct (Z.ltb_spec s 0) as [Hneg|_]; [lia|].
      unfold ret. subst ranked.
      rewrite (Permutation_length
                 (order_by_created_at_desc_perm
                    (OrderRepository.user_query user_id status (orders st)))).
      reflexivity.
    + intros i Hi. rewrite nth_error_firstn.
      apply Nat.ltb_lt in Hi. rewrite Hi. apply nth_error_skipn.
    + rewrite length_firstn, length_skipn. reflexivity.
  - intros p s Hp Hbad.
    unfold BillingService.get_user_orders, OrderRepository.get_user_orders,
      bind, get_state.
    destruct (negb (in_int64 s) || negb (in_int64 ((p - 1) * s))) eqn:Hrange;
      [eexists; reflexivity|].
    apply orb_false_elim in Hrange. destruct Hrange as [H1 H2].
    apply negb_false_iff, in_int64_iff in H1.
    apply negb_false_iff, in_int64_iff in H2.
    destruct (Z.ltb_spec ((p - 1) * s) 0) as [Hneg|Hpos];
      [eexists; reflexivity|].
    destruct (Z.ltb_spec s 0) as [Hneg|Hpos'];
      [eexists; reflexivity|].
    exfalso. lia.
Qed.

Lemma get_user_orders_page_witness :
  (exists page,
     BillingService.get_user_orders 7 1 10 (Some PAID) state_paid =
       (Ok (page, 1%Z), state_paid) /\
     nth_error page 0 =
       Some (sample_order 0 7 PAID (Some "pi_1") 0 (Some 5))) /\
  (exists msg,
     BillingService.get_user_orders 7 3 INT64_MAX (Some PAID) state_paid =
       (Raise (DBAPIError msg), state_paid)).
Proof.
  destruct (get_user_orders_page state_paid 7 (Some PAID))
    as (_ & _ & _ & H & Hbad).
  split.
  - destruct (H 1%Z 10%Z ltac:(lia) ltac:(unfold INT64_MAX; lia)
                ltac:(unfold INT64_MAX; lia)) as (page & Hrun & Hnth & _).
    exists page. split; [exact Hrun|].
    rewrite (Hnth 0 ltac:(cbn; lia)). reflexivity.
  - apply Hbad; [lia|]. right. right. unfold INT64_MAX. lia.
Defined.

(** C9 as stated fails: it speaks of every page size, but a negative page
    size, and a page so far out that the offset leaves the range of a
    [bigint], are refused by the database; the call raises and returns no
    page. *)
Lemma get_user_orders_refused :
  (exists msg,
     BillingService.get_user_orders 7 1 (-1) None state_paid =
       (Raise (DBAPIError msg), state_paid)) /\
  (exists msg,
     BillingService.get_user_orders 7 9223372036854775809 1 None state_paid =
       (Raise (DBAPIError msg), state_paid)).
Proof. split; eexists; reflexivity. Qed.

(** ** Rules for [wp] *)

Lemma wp_bind {A B} (m : M A) (f : A -> M B) Q s :
  wp m (fun r s' => match r with
                    | Ok a => wp (f a) Q s'
                    | Raise e => Q (Raise e) s'
                    end) s ->
  wp (bind m f) Q s.
Proof. unfold wp, bind. destruct (m s) as [[a|e] s']; auto. Qed.

Lemma wp_try {A} (m : M A) (h : Exn -> M A) Q s :
  wp m (fun r s' => match r with
                    | Ok a => Q (Ok a) s'
                    | Raise e => wp (h e) Q s'
                    end) s ->
  wp (try_except m h) Q s.
Proof. unfold wp, try_except. destruct (m s) as [[a|e] s']; auto. Qed.

Lemma wp_mono {A} (m : M A) (Q Q' : Res A -> State -> Prop) s :
  wp m Q s -> (forall r s', Q r s' -> Q' r s') -> wp m Q' s.
Proof. unfold wp. auto. Qed.

Lemma wp_run {A} (m : M A) Q s r s' : wp m Q s -> m s = (r, s') -> Q r s'.
Proof. unfold wp. intros H E. rewrite E in H. exact H. Qed.

Lemma wp_ret {A} (a : A) Q s : Q (Ok a) s -> wp (ret a) Q s.
Proof. exact (fun H => H). Qed.

Lemma wp_raise {A} e (Q : Res A -> State -> Prop) s :
  Q (Raise e) s -> wp (raise e) Q s.
Proof. exact (fun H => H). Qed.

Lemma wp_get_state Q s : Q (Ok s) s -> wp get_state Q s.
Proof. exact (fun H => H). Qed.

Lemma wp_modify f Q s : Q (Ok tt) (f s) -> wp (modify f) Q s.
Proof. exact (fun H => H). Qed.

Lemma wp_now Q s :
  Q (Ok (clock s))
    (mkState (orders s) (webhook_events s) (payment_audit s) (broker s)
       (trace s) (S (clock s)) (uuid_supply s)) ->
  wp now Q s.
Proof. exact (fun H => H). Qed.

Lemma wp_uuid4 Q s :
  Q (Ok (uuid_supply s))
    (mkState (orders s) (webhook_events s) (payment_audit s) (broker s)
       (trace s) (clock s) (S (uuid_supply s))) ->
  wp uuid4 Q s.
Proof. exact (fun H => H). Qed.

Ltac simp_state :=
  cbv beta iota zeta;
  cbn [orders webhook_events payment_audit broker trace clock uuid_supply
       fst snd].

(** One step of symbolic execution: the head of the program decides. *)
Ltac wp_step :=
  simp_state;
  lazymatch goal with
  | |- wp (bind _ _) _ _ => apply wp_bind
  | |- wp (try_except _ _) _ _ => apply wp_try
  | |- wp (if ?b then _ else _) _ _ => destruct b eqn:?
  | |- wp (match ?x with _ => _ end) _ _ => destruct x eqn:?
  | |- wp (ret _) _ _ => apply wp_ret
  | |- wp (raise _) _ _ => apply wp_raise
  | |- wp now _ _ => apply wp_now
  | |- wp uuid4 _ _ => apply wp_uuid4
  | |- wp get_state _ _ => apply wp_get_state
  | |- wp (emit _) _ _ => unfold emit at 1; apply wp_modify
  | |- wp (set_orders _) _ _ => unfold set_orders at 1; apply wp_modify
  | |- wp (set_webhook_events _) _ _ =>
      unfold set_webhook_events at 1; apply wp_modify
  | |- wp (set_payment_audit _) _ _ =>
      unfold set_payment_audit at 1; apply wp_modify
  | |- wp (set_broker _) _ _ => unfold set_broker at 1; apply wp_modify
  | |- wp (scalar_one_or_none _) _ _ => unfold scalar_one_or_none at 1
  | |- wp (deref _) _ _ => unfold deref at 1
  | |- wp (OrderRepository.create _ _ _ _ _ _) _ _ =>
      unfold OrderRepository.create at 1
  | |- wp (OrderRepository.get_by_id _) _ _ =>
      unfold OrderRepository.get_by_id at 1
  | |- wp (OrderRepository.get_by_payment_intent_id _) _ _ =>
      unfold OrderRepository.get_by_payment_intent_id at 1
  | |- wp (OrderRepository.update_status _ _ _) _ _ =>
      unfold OrderRepository.update_status at 1
  | |- wp (OrderRepository.update_payment_intent _ _ _) _ _ =>
      unfold OrderRepository.update_payment_intent at 1
  | |- wp (WebhookEventRepository.mark_processed _ _ _) _ _ =>
      unfold WebhookEventRepository.mark_processed at 1
  | |- wp (WebhookEventRepository.mark_processing _) _ _ =>
      unfold WebhookEventRepository.mark_processing at 1
  | |- wp (WebhookEventRepository.increment_retry_count _) _ _ =>
      unfold WebhookEventRepository.increment_retry_count at 1
  | |- wp (WebhookEventRepository.create _ _ _ _) _ _ =>
      unfold WebhookEventRepository.create at 1
  | |- wp (WebhookEventRepository.get_by_stripe_event_id _) _ _ =>
      unfold WebhookEventRepository.get_by_stripe_event_id at 1
  | |- wp (PaymentAuditRepository.log_action _ _ _ _ _ _) _ _ =>
      unfold PaymentAuditRepository.log_action at 1
  | |- wp (StripeService.create_payment_intent _ _ _ _ _) _ _ =>
      unfold StripeService.create_payment_intent at 1
  | |- wp (StripeService.cancel_payment_intent _ _) _ _ =>
      unfold StripeService.cancel_payment_intent at 1
  | |- wp (OrderEventPublisher.publish_order_created _ _) _ _ =>
      unfold OrderEventPublisher.publish_order_created,
        OrderEventPublisher.publish
  | |- wp (OrderEventPublisher.publish_order_paid _ _) _ _ =>
      unfold OrderEventPublisher.publish_order_paid,
        OrderEventPublisher.publish
  | |- wp (OrderEventPublisher.publish_order_failed _ _) _ _ =>
      unfold OrderEventPublisher.publish_order_failed,
        OrderEventPublisher.publish
  | |- wp (BillingService.failure_message _) _ _ =>
      unfold BillingService.failure_message at 1
  | |- wp (new_OrderFailedEvent _ _ _ _ _) _ _ =>
      unfold new_OrderFailedEvent at 1
  | |- wp (BillingService._handle_payment_succeeded _ _ _) _ _ =>
      unfold BillingService._handle_payment_succeeded at 1
  | |- wp (BillingService._handle_payment_failed _ _ _) _ _ =>
      unfold BillingService._handle_payment_failed at 1
  | |- wp (BillingService._handle_payment_canceled _ _) _ _ =>
      unfold BillingService._handle_payment_canceled at 1
  | |- wp (BillingService.dispatch _ _ _) _ _ =>
      unfold BillingService.dispatch at 1
  | |- wp (BillingService.begin_processing _ _ _) _ _ =>
      unfold BillingService.begin_processing at 1
  | |- wp (BillingService.create_order _ _ _ _) _ _ =>
      unfold BillingService.create_order at 1
  | |- wp (BillingService.cancel_order _ _ _) _ _ =>
      unfold BillingService.cancel_order at 1
  | |- wp (BillingService.get_order _ _) _ _ =>
      unfold BillingService.get_order at 1
  end.

Ltac wp_exec := repeat wp_step; simp_state.

(** ** SQL facts *)

Lemma returning_one {A} (w : A -> bool) (v : A -> A) rows y l :
  returning w v rows = y :: l ->
  exists x, y = v x /\ w x = true /\ In x rows.
Proof.
  unfold returning. intros H.
  destruct (filter w rows) as [|x l'] eqn:E; try discriminate.
  injection H as <- _. exists x.
  assert (In x (filter w rows)) as Hin by (rewrite E; left; reflexivity).
  apply filter_In in Hin. tauto.
Qed.

Lemma sql_update_In {A} (w : A -> bool) (v : A -> A) rows x :
  In x rows -> w x = true -> In (v x) (sql_update w v rows).
Proof.
  intros Hin Hw. unfold sql_update.
  apply in_map_iff. exists x. rewrite Hw. auto.
Qed.

Lemma sql_update_map {A B} (key : A -> B) (w : A -> bool) (v : A -> A) rows :
  (forall x, key (v x) = key x) ->
  map key (sql_update w v rows) = map key rows.
Proof.
  intros Hk. unfold sql_update. rewrite map_map. apply map_ext.
  intro x. destruct (w x); auto.
Qed.

Lemma filter_sql_update {A} (p w : A -> bool) (v : A -> A) rows :
  (forall x, p (v x) = p x) ->
  filter p (sql_update w v rows) = sql_update w v (filter p rows).
Proof.
  intros Hp. unfold sql_update.
  induction rows as [|x r IH]; [reflexivity|].
  cbn [map filter]. rewrite IH.
  destruct (w x) eqn:Hw; rewrite ?Hp; destruct (p x);
    cbn [map]; rewrite ?Hw; reflexivity.
Qed.

Lemma filter_nil_existsb {A} (p : A -> bool) l :
  filter p l = [] -> existsb p l = false.
Proof.
  induction l as [|x r IH]; [reflexivity|]. cbn.
  destruct (p x); [discriminate|]. exact IH.
Qed.

Lemma sql_update_In_inv {A} (w : A -> bool) (v : A -> A) rows y :
  In y (sql_update w v rows) ->
  exists x, In x rows /\ y = (if w x then v x else x).
Proof.
  unfold sql_update. intros H. apply in_map_iff in H.
  destruct H as (x & <- & Hin). exists x. auto.
Qed.

Lemma sql_update_keeps_key {A B} (key : A -> B) (w : A -> bool) (v : A -> A)
    rows k :
  (forall x, key (v x) = key x) ->
  In k (map key rows) -> In k (map key (sql_update w v rows)).
Proof. intros Hk H. rewrite (sql_update_map key w v rows Hk). exact H. Qed.

(** ** The ledger of provider events *)

(** What [begin_processing] leaves behind: the three other tables are
    untouched, and the event has exactly one ledger row, whose id is the
    one handed to the dispatch. *)
Lemma begin_processing_spec env ev payload s :
  wp (BillingService.begin_processing env ev payload)
    (fun r s1 =>
       orders s1 = orders s /\
       payment_audit s1 = payment_audit s /\
       broker s1 = broker s /\
       uuid_supply s <= uuid_supply s1 /\
       (exists suffix,
          trace s1 = trace s ++ suffix /\ filter is_core suffix = []) /\
       match r with
       | Ok (Some weid) =>
           exists w,
             filter (same_event (ev_id ev)) (webhook_events s1) = [w] /\
             WebhookEvent.id w = weid
       | Ok None =>
           s1 = s /\
           exists w,
             filter (same_event (ev_id ev)) (webhook_events s) = [w] /\
             WebhookEvent.processed w = true
       | Raise _ => s1 = s
       end) s.
Proof.
  wp_exec; fold (same_event (ev_id ev)) in *.
  - (* first sight of the event *)
    rewrite (filter_nil_existsb _ _ Heql) in Heqb. discriminate.
  - repeat split; try lia.
    + exists [WebhookWrite (uuid_supply s); WebhookWrite (uuid_supply s)].
      rewrite <- app_assoc. split; reflexivity.
    + rewrite filter_sql_update by reflexivity.
      rewrite filter_app, Heql. cbn [filter app].
      unfold same_event at 1. cbn [WebhookEvent.stripe_event_id].
      rewrite String.eqb_refl. cbn [sql_update map WebhookEvent.id].
      rewrite Nat.eqb_refl. eexists. split; reflexivity.
  - (* already processed *)
    repeat split; try lia.
    + exists []. rewrite app_nil_r. split; reflexivity.
    + exists t. split; assumption.
  - (* seen before, not processed, and the retry counter is full *)
    repeat split; try lia.
    exists []. rewrite app_nil_r. split; reflexivity.
  - (* seen before, not processed *)
    repeat split; try lia.
    + exists [WebhookWrite (WebhookEvent.id t); WebhookWrite (WebhookEvent.id t)].
      rewrite <- app_assoc. split; reflexivity.
    + rewrite !filter_sql_update by reflexivity.
      rewrite Heql. cbn [sql_update map].
      rewrite Nat.eqb_refl. cbn [WebhookEventRepository.bump_retry_count
                                   WebhookEvent.id].
      rewrite Nat.eqb_refl. eexists. split; reflexivity.
  - (* more than one row *)
    repeat split; try lia.
    exists []. rewrite app_nil_r. split; reflexivity.
Qed.

(** The dispatch touches the ledger at most once, to note the order the
    event resolved to. *)
Lemma dispatch_ledger env ev weid s :
  wp (BillingService.dispatch env ev weid)
    (fun _ s' =>
       webhook_events s' = webhook_events s \/
       exists oid t,
         webhook_events s' =
           sql_update (fun w => WebhookEvent.id w =? weid)
             (WebhookEventRepository.set_processed (Some oid) None t)
             (webhook_events s)) s.
Proof.
  wp_exec; try (left; reflexivity); right; eauto.
Qed.

Lemma mark_processed_run event_id order_id error_message s :
  WebhookEventRepository.mark_processed event_id order_id error_message s =
    (Ok tt,
     mkState (orders s)
       (sql_update (fun w => WebhookEvent.id w =? event_id)
          (WebhookEventRepository.set_processed order_id error_message
             (clock s)) (webhook_events s))
       (payment_audit s) (broker s)
       (trace s ++ [WebhookWrite event_id]) (S (clock s)) (uuid_supply s)).
Proof. reflexivity. Qed.

(** The [try ... except] of [process_webhook], by the outcome of the
    dispatch. *)
Lemma finish_processing_run env ev weid s :
  BillingService.finish_processing env ev weid s =
    match BillingService.dispatch env ev weid s with
    | (Ok _, s') => WebhookEventRepository.mark_processed weid None None s'
    | (Raise e, s') =>
        (Raise e,
         snd (WebhookEventRepository.mark_processed weid None
                (Some (String.append "Error processing webhook: " (str_exn e)))
                s'))
    end.
Proof.
  unfold BillingService.finish_processing, try_except, bind.
  destruct (BillingService.dispatch env ev weid s) as [[[]|e] s'].
  - rewrite mark_processed_run. reflexivity.
  - rewrite mark_processed_run. reflexivity.
Qed.

Lemma process_webhook_run env ev payload s :
  BillingService.process_webhook env ev payload s =
    match BillingService.begin_processing env ev payload s with
    | (Ok (Some weid), s1) => BillingService.finish_processing env ev weid s1
    | (Ok None, s1) => (Ok tt, s1)
    | (Raise e, s1) => (Raise e, s1)
    end.
Proof.
  unfold BillingService.process_webhook, bind.
  destruct (BillingService.begin_processing env ev payload s) as [[[w|]|e] s1];
    reflexivity.
Qed.

Lemma ledger_row_kept env ev weid s w :
  In w (webhook_events s) -> WebhookEvent.id w = weid ->
  In (ledger_key w)
    (map ledger_key (webhook_events (snd (BillingService.dispatch env ev weid s)))).
Proof.
  intros Hin Hid.
  destruct (dispatch_ledger env ev weid s) as [E | (oid & t & E)];
    rewrite E.
  - apply in_map, Hin.
  - apply sql_update_keeps_key; [reflexivity|]. apply in_map, Hin.
Qed.

(** ** C1: a failing dispatch *)

(** C1, as the code has it. When the ledger look-up hands row [weid] to the
    dispatch and the dispatch raises [e], [process_webhook] raises the same
    [e]; the event's ledger row is still there and every row with that id
    now carries the message "Error processing webhook: " ++ str(e) and a
    processing time, with [processed = false], because [mark_processed]
    stores [error_message is None] in [processed]. *)
Theorem dispatch_failure_recorded env ev payload st weid s1 e :
  BillingService.begin_processing env ev payload st = (Ok (Some weid), s1) ->
  fst (BillingService.dispatch env ev weid s1) = Raise e ->
  let run := BillingService.process_webhook env ev payload st in
  fst run = Raise e /\
  (exists w,
     In w (webhook_events (snd run)) /\
     WebhookEvent.id w = weid /\
     WebhookEvent.stripe_event_id w = ev_id ev) /\
  (forall w,
     In w (webhook_events (snd run)) -> WebhookEvent.id w = weid ->
     WebhookEvent.processed w = false /\
     WebhookEvent.error_message w =
       Some (String.append "Error processing webhook: " (str_exn e)) /\
     WebhookEvent.processed_at w <> None).
Proof.
  intros Hbegin Hdisp run. subst run.
  rewrite process_webhook_run, Hbegin, finish_processing_run.
  pose proof (begin_processing_spec env ev payload st) as Hspec.
  unfold wp in Hspec. rewrite Hbegin in Hspec. cbn [fst snd] in Hspec.
  destruct Hspec as (_ & _ & _ & _ & _ & w & Hw & Hid).
  assert (In w (webhook_events s1) /\ same_event (ev_id ev) w = true)
    as [Hin Hsame].
  { apply filter_In. rewrite Hw. left. reflexivity. }
  pose proof (ledger_row_kept env ev weid s1 w Hin Hid) as Hkept.
  destruct (BillingService.dispatch env ev weid s1) as [r s2].
  cbn [fst snd] in *. subst r.
  rewrite mark_processed_run. cbn [fst snd webhook_events].
  split; [reflexivity|]. split.
  - apply in_map_iff in Hkept. destruct Hkept as (w2 & Hkey & Hin2).
    injection Hkey as Hid2 Hse2.
    exists (WebhookEventRepository.set_processed None
              (Some (String.append "Error processing webhook: " (str_exn e)))
              (clock s2) w2).
    split; [|split].
    + apply sql_update_In; [exact Hin2|]. rewrite Hid2, Hid.
      apply Nat.eqb_refl.
    + cbn. congruence.
    + cbn. rewrite Hse2. apply String.eqb_eq. exact Hsame.
  - intros w' Hin' Hid'. apply sql_update_In_inv in Hin'.
    destruct Hin' as (x & _ & ->).
    destruct (WebhookEvent.id x =? weid) eqn:E.
    + cbn. repeat split. discriminate.
    + apply Nat.eqb_neq in E. contradiction.
Qed.

Lemma dispatch_failure_recorded_witness :
  let run :=
    BillingService.process_webhook env_broker_down
      (sample_event "evt_1" "payment_intent.succeeded") "{}" state_pending in
  fst run = Raise (BrokerError "connection closed") /\
  exists w,
    In w (webhook_events (snd run)) /\
    WebhookEvent.id w = 1 /\
    WebhookEvent.stripe_event_id w = "evt_1".
Proof.
  destruct (dispatch_failure_recorded env_broker_down
              (sample_event "evt_1" "payment_intent.succeeded") "{}"
              state_pending 1
              (snd (BillingService.begin_processing env_broker_down
                      (sample_event "evt_1" "payment_intent.succeeded") "{}"
                      state_pending))
              (BrokerError "connection closed") eq_refl eq_refl)
    as (H1 & H2 & _).
  split; [exact H1 | exact H2].
Defined.

(** C1 as stated fails: the broker is down while a payment-succeeded event
    for the pending order is processed; the publish raises, the failure
    reaches the caller, and the ledger row is left with [processed = false]. *)
Lemma failed_dispatch_not_marked_processed :
  let run :=
    BillingService.process_webhook env_broker_down
      (sample_event "evt_1" "payment_intent.succeeded") "{}" state_pending in
  fst run = Raise (BrokerError "connection closed") /\
  map (fun w => (WebhookEvent.stripe_event_id w, WebhookEvent.processed w,
                 WebhookEvent.error_message w))
    (webhook_events (snd run)) =
    [("evt_1", false, Some "Error processing webhook: connection closed")].
Proof. split; reflexivity. Qed.

(** ** What the dispatch does to orders, audit rows and the broker *)

(** Facts carried by the hypotheses that symbolic execution leaves behind. *)
Ltac use_returning :=
  repeat match goal with
  | H : returning _ _ _ = _ :: _ |- _ =>
      let x := fresh "row" in
      let Hw := fresh "Hwhere" in
      let Hin := fresh "Hrow" in
      apply returning_one in H; destruct H as (x & -> & Hw & Hin);
      apply Nat.eqb_eq in Hw
  end.

Ltac use_found :=
  repeat match goal with
  | H : filter ?p ?rows = ?x :: _ |- _ =>
      lazymatch goal with
      | _ : In x rows |- _ => fail
      | _ =>
          let Hin := fresh "Hfound" in
          pose proof (proj1 (filter_In p x rows)) as Hin;
          rewrite H in Hin;
          specialize (Hin (or_introl eq_refl));
          destruct Hin as [Hin _]
      end
  end.

Lemma dispatch_trace env ev weid s :
  wp (BillingService.dispatch env ev weid)
    (fun r s' =>
       exists suffix,
         trace s' = trace s ++ suffix /\
         store_audit_publish suffix = true /\
         forall k oid,
           In (Publish k oid false) suffix ->
           (exists m, r = Raise (BrokerError m)) /\
           exists ns,
             In (OrderUpdate oid ns) suffix /\
             (exists o, In o (orders s') /\
                        Order.id o = oid /\ Order.status o = ns) /\
             (exists a, In a (payment_audit s') /\
                        PaymentAudit.order_id a = oid /\
                        PaymentAudit.new_status a = ns /\
                        PaymentAudit.stripe_event_id a = Some (ev_id ev))) s.
Proof.
  wp_exec; use_returning; use_found;
    cbn [Order.id Order.status Order.user_id OrderRepository.set_status
         routing_key event_order_id] in *;
    rewrite <- ?app_assoc;
    first [ exists []; split; [symmetry; apply app_nil_r|]
          | eexists; split; [reflexivity|] ];
    (split;
     [ cbv [store_audit_publish filter is_core app];
       rewrite ?Hwhere, ?Nat.eqb_refl; reflexivity
     | intros k oid Hin; cbn [In app] in Hin;
       repeat (destruct Hin as [Hin|Hin]; try discriminate Hin);
       try contradiction ]).
  all: injection Hin as _ <-.
  all: split; [eexists; reflexivity|].
  all: eexists; split; [cbn [In app]; rewrite Hwhere; eauto|].
  all: split.
  all: try (eexists; split;
            [ apply (sql_update_In _ _ _ row Hrow);
              apply Nat.eqb_eq; exact Hwhere
            | split; reflexivity ]).
  all: eexists; split; [apply in_or_app; right; left; reflexivity|].
  all: cbn [PaymentAudit.order_id PaymentAudit.new_status
            PaymentAudit.stripe_event_id]; auto.
Qed.

Lemma core_not_in l e :
  filter is_core l = [] -> is_core e = true -> ~ In e l.
Proof.
  intros Hnil Hcore Hin.
  assert (In e (filter is_core l)) as H by (apply filter_In; auto).
  rewrite Hnil in H. exact H.
Qed.

Lemma store_audit_publish_framed pre mid post :
  filter is_core pre = [] -> filter is_core post = [] ->
  store_audit_publish (pre ++ mid ++ post) = store_audit_publish mid.
Proof.
  intros Hpre Hpost. unfold store_audit_publish.
  rewrite !filter_app, Hpre, Hpost, app_nil_r. reflexivity.
Qed.

(** Using a [wp] fact about a run that is then named. *)
Ltac run_of H m s r s' :=
  unfold wp in H; destruct (m s) as [r s'] eqn:?; cbn [fst snd] in H.

(** ** C6: the order of the side effects *)

(** C6. The effects one [process_webhook] call adds to the trace contain,
    among the updates of orders, audit writes and publishes, at most one of
    each, for one and the same order, in the order update, audit, publish
    (a run may stop after the update or after the audit write). If a publish
    was refused, the call raises the broker's error, and the status written
    by the update and the audit row are in the tables of the final state. *)
Theorem webhook_effects_ordered env ev payload st :
  let run := BillingService.process_webhook env ev payload st in
  exists suffix,
    trace (snd run) = trace st ++ suffix /\
    store_audit_publish suffix = true /\
    forall k oid,
      In (Publish k oid false) suffix ->
      (exists m, fst run = Raise (BrokerError m)) /\
      exists ns,
        In (OrderUpdate oid ns) suffix /\
        (exists o, In o (orders (snd run)) /\
                   Order.id o = oid /\ Order.status o = ns) /\
        (exists a, In a (payment_audit (snd run)) /\
                   PaymentAudit.order_id a = oid /\
                   PaymentAudit.new_status a = ns /\
                   PaymentAudit.stripe_event_id a = Some (ev_id ev)).
Proof.
  intro run. subst run. rewrite process_webhook_run.
  pose proof (begin_processing_spec env ev payload st) as Hb.
  run_of Hb (BillingService.begin_processing env ev payload) st r s1.
  destruct Hb as (_ & _ & _ & _ & (pre & Hpre & Hcore) & Hr).
  destruct r as [[weid|]|e].
  - rewrite finish_processing_run.
    pose proof (dispatch_trace env ev weid s1) as Hd.
    run_of Hd (BillingService.dispatch env ev weid) s1 r s2.
    destruct Hd as (mid & Hmid & Hordered & Hfailed).
    assert (forall k oid,
              In (Publish k oid false) (pre ++ mid ++ [WebhookWrite weid]) ->
              In (Publish k oid false) mid) as Hmid_only.
    { intros k oid Hin. apply in_app_or in Hin. destruct Hin as [Hin|Hin].
      - exfalso. exact (core_not_in pre (Publish k oid false) Hcore eq_refl Hin).
      - apply in_app_or in Hin. destruct Hin as [Hin|[Hin|[]]];
          [exact Hin | discriminate]. }
    destruct r as [[]|e]; rewrite mark_processed_run;
      cbn [fst snd trace orders payment_audit];
      exists (pre ++ mid ++ [WebhookWrite weid]).
    all: split; [rewrite Hmid, Hpre, <- !app_assoc; reflexivity|].
    all: split; [rewrite store_audit_publish_framed; auto|].
    all: intros k oid Hin; apply Hmid_only in Hin;
      destruct (Hfailed k oid Hin) as ((m & Hm) & ns & Hupd & Ho & Ha).
    + discriminate.
    + split; [eauto|]. exists ns. split; [|split; assumption].
      apply in_or_app. right. apply in_or_app. left. exact Hupd.
  - cbn [fst snd]. exists pre. split; [exact Hpre|]. split.
    + unfold store_audit_publish. rewrite Hcore. reflexivity.
    + intros k oid Hin. exfalso.
      exact (core_not_in pre (Publish k oid false) Hcore eq_refl Hin).
  - cbn [fst snd]. exists pre. split; [exact Hpre|]. split.
    + unfold store_audit_publish. rewrite Hcore. reflexivity.
    + intros k oid Hin. exfalso.
      exact (core_not_in pre (Publish k oid false) Hcore eq_refl Hin).
Qed.

Lemma webhook_effects_ordered_witness :
  let run :=
    BillingService.process_webhook env_broker_down
      (sample_event "evt_1" "payment_intent.succeeded") "{}" state_pending in
  (exists m, fst run = Raise (BrokerError m)) /\
  exists o, In o (orders (snd run)) /\ Order.id o = 0 /\ Order.status o = PAID.
Proof.
  destruct (webhook_effects_ordered env_broker_down
              (sample_event "evt_1" "payment_intent.succeeded") "{}"
              state_pending) as (suffix & Htrace & _ & Hfailed).
  assert (suffix =
            [WebhookWrite 1; WebhookWrite 1; WebhookWrite 1;
             OrderUpdate 0 PAID; AuditWrite 0 "payment_succeeded";
             Publish "order.paid" 0 false; WebhookWrite 1]) as ->.
  { apply (app_inv_head (trace state_pending)). rewrite <- Htrace.
    reflexivity. }
  destruct (Hfailed "order.paid" 0) as (Hraise & ns & Hupd & Ho & _).
  - cbn [In]. do 5 right. left. reflexivity.
  - split; [exact Hraise|].
    destruct Hupd as [H|[H|[H|[H|[H|[H|[H|[]]]]]]]]; try discriminate H.
    injection H as <-. exact Ho.
Defined.

Lemma OrderStatus_eqb_neq a b : OrderStatus_eqb a b = false -> a <> b.
Proof. intros H E. apply OrderStatus_eqb_eq in E. congruence. Qed.

(** Either the dispatch leaves orders, audit rows and broker alone, or it
    resolved the event to an order [o] and wrote the event's target status
    to the rows with [o]'s id, followed by at most one audit row (exactly
    one if it then returned normally). *)
Lemma dispatch_orders env ev weid s :
  wp (BillingService.dispatch env ev weid)
    (fun r s' =>
       uuid_supply s <= uuid_supply s' /\
       ((orders s' = orders s /\
         payment_audit s' = payment_audit s /\
         broker s' = broker s) \/
        exists o ns pa t,
          orders s' =
            sql_update (fun x => Order.id x =? Order.id o)
              (OrderRepository.set_status ns pa t) (orders s) /\
          In o (orders s) /\
          event_target (ev_type ev) = Some ns /\
          ((ns = PAID /\ Order.status o <> PAID /\ pa <> None) \/
           (ns <> PAID /\ pa = None)) /\
          exists new,
            payment_audit s' = payment_audit s ++ new /\
            List.length new <= 1 /\
            (r = Ok tt -> List.length new = 1) /\
            (forall a, In a new ->
               PaymentAudit.stripe_event_id a = Some (ev_id ev) /\
               PaymentAudit.new_status a = ns))) s.
Proof.
  wp_exec; use_found; (split; [lia|]);
    try (left; repeat split; fail); right.
  all: do 4 eexists; split; [reflexivity|]; split; [assumption|].
  all: split; [unfold event_target;
               repeat match goal with
                      | H : String.eqb _ _ = _ |- _ => rewrite H
                      end; reflexivity|].
  all: split;
    [ first [ left; repeat split;
              [apply OrderStatus_eqb_neq; assumption | discriminate]
            | right; split; [discriminate | reflexivity] ] |].
  all: first
    [ exists []; split; [symmetry; apply app_nil_r|];
      split; [cbn; lia|]; split; [discriminate | intros a []]
    | eexists; split; [reflexivity|];
      split; [cbn; lia|]; split; [reflexivity|];
      intros a [<-|[]]; split; reflexivity ].
Qed.

(** The same, for the whole of [process_webhook]. *)
Lemma process_webhook_orders env ev payload st :
  let run := BillingService.process_webhook env ev payload st in
  uuid_supply st <= uuid_supply (snd run) /\
  ((orders (snd run) = orders st /\
    payment_audit (snd run) = payment_audit st /\
    broker (snd run) = broker st) \/
   exists o ns pa t,
     orders (snd run) =
       sql_update (fun x => Order.id x =? Order.id o)
         (OrderRepository.set_status ns pa t) (orders st) /\
     In o (orders st) /\
     event_target (ev_type ev) = Some ns /\
     ((ns = PAID /\ Order.status o <> PAID /\ pa <> None) \/
      (ns <> PAID /\ pa = None)) /\
     exists new,
       payment_audit (snd run) = payment_audit st ++ new /\
       List.length new <= 1 /\
       (fst run = Ok tt -> List.length new = 1) /\
       (forall a, In a new ->
          PaymentAudit.stripe_event_id a = Some (ev_id ev) /\
          PaymentAudit.new_status a = ns)).
Proof.
  intro run. subst run. rewrite process_webhook_run.
  pose proof (begin_processing_spec env ev payload st) as Hb.
  run_of Hb (BillingService.begin_processing env ev payload) st r s1.
  destruct Hb as (Ho & Ha & Hbr & Hsup & _ & _).
  destruct r as [[weid|]|e]; cbn [fst snd];
    try (split; [exact Hsup | left; repeat split; assumption]).
  rewrite finish_processing_run.
  pose proof (dispatch_orders env ev weid s1) as Hd.
  run_of Hd (BillingService.dispatch env ev weid) s1 r s2.
  destruct Hd as (Hsup2 & Hd).
  assert (forall e' : option string,
            snd (WebhookEventRepository.mark_processed weid None e' s2) =
            mkState (orders s2)
              (webhook_events
                 (snd (WebhookEventRepository.mark_processed weid None e' s2)))
              (payment_audit s2) (broker s2)
              (trace s2 ++ [WebhookWrite weid]) (S (clock s2))
              (uuid_supply s2)) as Hmark by reflexivity.
  assert (forall e' : option string,
            fst (WebhookEventRepository.mark_processed weid None e' s2) =
            Ok tt) as Hmark_ok by reflexivity.
  destruct r as [[]|e];
    [ rewrite (surjective_pairing
                 (WebhookEventRepository.mark_processed weid None None s2)),
        Hmark_ok | ];
    cbn [fst snd]; rewrite Hmark;
    cbn [orders payment_audit broker uuid_supply];
    (split; [lia|]);
    rewrite <- Ho, <- Ha, <- Hbr.
  - destruct Hd as [Hd | (o & ns & pa & t & Hd)]; [left; exact Hd|].
    right. exists o, ns, pa, t. exact Hd.
  - destruct Hd as [Hd | (o & ns & pa & t & H1 & H2 & H3 & H4 & new & H5 &
                          H6 & H7 & H8)]; [left; exact Hd|].
    right. exists o, ns, pa, t. repeat (split; [assumption|]).
    exists new. repeat (split; [assumption|]). exact H8.
Qed.

(** What [UPDATE orders SET status ... WHERE id = o.id] does to each row. *)
Lemma sql_update_status_rows (o : Order.t) ns pa t rows :
  Forall2 (fun a b : Order.t =>
             b = a \/
             (Order.id a = Order.id o /\ order_core b = order_core a /\
              Order.status b = ns))
    rows
    (sql_update (fun x => Order.id x =? Order.id o)
       (OrderRepository.set_status ns pa t) rows).
Proof.
  induction rows as [|x r IH]; cbn [sql_update map]; constructor.
  - destruct (Order.id x =? Order.id o) eqn:E.
    + right. apply Nat.eqb_eq in E. repeat split. exact E.
    + left. reflexivity.
  - exact IH.
Qed.

Lemma Forall2_same {A} (R : A -> A -> Prop) l :
  (forall x, R x x) -> Forall2 R l l.
Proof. intros H. induction l; constructor; auto. Qed.

Ltac eval_string_tests :=
  repeat match goal with
  | |- context [String.eqb ?a ?b] =>
      let v := eval vm_compute in (String.eqb a b) in
      change (String.eqb a b) with v
  end.

Lemma get_by_payment_intent_id_found p s o :
  fst (OrderRepository.get_by_payment_intent_id p s) = Ok (Some o) ->
  filter (fun x => opt_string_eqb (Order.stripe_payment_intent_id x) p)
    (orders s) = [o].
Proof.
  unfold OrderRepository.get_by_payment_intent_id, bind, get_state,
    scalar_one_or_none.
  destruct (filter _ (orders s)) as [|x [|y l]]; cbn [fst ret raise];
    intros H; congruence.
Qed.

(** The handlers of payment failed and payment canceled write their status
    whatever the order's status is; the handler of payment succeeded does so
    unless the order is paid already. *)
Lemma dispatch_overwrites env ev weid s o ns :
  (ev_type ev = "payment_intent.succeeded" /\ ns = PAID /\
   Order.status o <> PAID) \/
  (ev_type ev = "payment_intent.payment_failed" /\ ns = FAILED) \/
  (ev_type ev = "payment_intent.canceled" /\ ns = CANCELLED) ->
  filter (fun x => opt_string_eqb (Order.stripe_payment_intent_id x) (pi_id ev))
    (orders s) = [o] ->
  wp (BillingService.dispatch env ev weid)
    (fun _ s' =>
       exists pa t,
         orders s' =
           sql_update (fun x => Order.id x =? Order.id o)
             (OrderRepository.set_status ns pa t) (orders s)) s.
Proof.
  intros [(Htype & -> & Hst) | [[Htype ->] | [Htype ->]]] Hfound;
    unfold BillingService.dispatch; rewrite Htype; eval_string_tests;
    cbv beta iota;
    unfold BillingService._handle_payment_succeeded,
      BillingService._handle_payment_failed,
      BillingService._handle_payment_canceled,
      OrderRepository.get_by_payment_intent_id;
    do 3 wp_step; simp_state; rewrite Hfound;
    wp_exec;
    try (match goal with
         | H : OrderStatus_eqb _ PAID = true |- _ =>
             apply OrderStatus_eqb_eq in H; contradiction
         end);
    do 2 eexists; reflexivity.
Qed.

(** A first delivery is always taken up. *)
Lemma begin_processing_fresh env ev payload s :
  fst (WebhookEventRepository.get_by_stripe_event_id (ev_id ev) s) = Ok None ->
  exists weid, fst (BillingService.begin_processing env ev payload s) =
                 Ok (Some weid).
Proof.
  unfold BillingService.begin_processing,
    WebhookEventRepository.get_by_stripe_event_id at 1.
  unfold bind at 1 2. unfold get_state at 1. cbv beta iota.
  unfold WebhookEventRepository.get_by_stripe_event_id, bind at 1,
    get_state, scalar_one_or_none.
  destruct (filter _ (webhook_events s)) as [|x [|y l]] eqn:E;
    cbn [fst snd ret raise]; intros H; try discriminate H.
  unfold WebhookEventRepository.create, bind at 1 2, get_state.
  cbv beta iota. rewrite (filter_nil_existsb _ _ E).
  eexists. reflexivity.
Qed.

(** The rows the dispatch rewrites are those with the id of the order the
    event resolves to; it writes the target status of the event, and never
    [paid] over [paid]. *)
Lemma dispatch_resolved env ev weid s :
  wp (BillingService.dispatch env ev weid)
    (fun _ s' =>
       orders s' = orders s \/
       exists o ns pa t,
         filter (fun x => opt_string_eqb (Order.stripe_payment_intent_id x)
                            (pi_id ev)) (orders s) = [o] /\
         orders s' =
           sql_update (fun x => Order.id x =? Order.id o)
             (OrderRepository.set_status ns pa t) (orders s) /\
         event_target (ev_type ev) = Some ns /\
         (Order.status o = PAID -> ns <> PAID)) s.
Proof.
  wp_exec; try (left; reflexivity); right.
  all: do 4 eexists; split; [reflexivity|]; split; [reflexivity|].
  all: split; [unfold event_target;
               repeat match goal with
                      | H : String.eqb _ _ = _ |- _ => rewrite H
                      end; reflexivity|].
  all: first [ discriminate
             | intros Hpaid Hns;
               match goal with
               | H : OrderStatus_eqb _ PAID = false |- _ =>
                   apply OrderStatus_eqb_neq in H; contradiction
               end ].
Qed.

Lemma process_webhook_resolved env ev payload st :
  let run := BillingService.process_webhook env ev payload st in
  orders (snd run) = orders st \/
  exists o ns pa t,
    resolves_to ev st o /\
    orders (snd run) =
      sql_update (fun x => Order.id x =? Order.id o)
        (OrderRepository.set_status ns pa t) (orders st) /\
    event_target (ev_type ev) = Some ns /\
    (Order.status o = PAID -> ns <> PAID).
Proof.
  intro run. subst run. rewrite process_webhook_run.
  pose proof (begin_processing_spec env ev payload st) as Hb.
  run_of Hb (BillingService.begin_processing env ev payload) st r s1.
  destruct Hb as (Ho & _).
  destruct r as [[weid|]|e]; cbn [fst snd]; try (left; exact Ho).
  rewrite finish_processing_run.
  pose proof (dispatch_resolved env ev weid s1) as Hd.
  run_of Hd (BillingService.dispatch env ev weid) s1 r s2.
  assert (orders
            (snd (match r with
                  | Ok _ =>
                      WebhookEventRepository.mark_processed weid None None s2
                  | Raise e =>
                      (Raise e,
                       snd (WebhookEventRepository.mark_processed weid None
                              (Some (String.append
                                       "Error processing webhook: "
                                       (str_exn e))) s2))
                  end)) = orders s2) as ->.
  { destruct r; rewrite mark_processed_run; reflexivity. }
  rewrite Ho in Hd.
  destruct Hd as [Hd | (o & ns & pa & t & Hfound & Hd)]; [left; exact Hd|].
  right. exists o, ns, pa, t. split; [|exact Hd].
  unfold resolves_to, OrderRepository.get_by_payment_intent_id, bind,
    get_state. rewrite Hfound. reflexivity.
Qed.

(** ** C2: terminal orders *)

(** C2, as the code has it. [cancel_order] rejects an order that is paid,
    failed or cancelled and changes nothing. [process_webhook] keeps every
    order row in place, and a row it does not leave exactly as it was is a
    row of the order the event resolves to (by its payment intent), now in
    the target status of the event (paid, failed or cancelled, by event
    type) with the columns written at the insert untouched; a paid order is
    never written to paid again. So an order, terminal or not, that the
    event does not resolve to keeps its status, and so does a paid order
    under a payment-succeeded event. A first delivery of a payment-failed or
    payment-canceled event, however, does write its target to the order it
    resolves to, whatever that order's status, and a first delivery of a
    payment-succeeded event writes [paid] to an order that is failed or
    cancelled (any status but paid). *)
Theorem terminal_orders_cancel_and_webhooks env ev payload st :
  (forall order_id user_id o,
     fst (OrderRepository.get_by_id order_id st) = Ok (Some o) ->
     Order.user_id o = user_id ->
     terminal (Order.status o) = true ->
     BillingService.cancel_order env order_id user_id st =
       (Raise (ValueError (String.append "Cannot cancel order with status "
                             (str_OrderStatus (Order.status o)))), st)) /\
  Forall2 (fun a b : Order.t =>
             b = a \/
             exists o,
               resolves_to ev st o /\ Order.id a = Order.id o /\
               order_core b = order_core a /\
               event_target (ev_type ev) = Some (Order.status b) /\
               (Order.status o = PAID -> Order.status b <> PAID))
    (orders st)
    (orders (snd (BillingService.process_webhook env ev payload st))) /\
  (forall o ns,
     (ev_type ev = "payment_intent.succeeded" /\ ns = PAID /\
      Order.status o <> PAID) \/
     (ev_type ev = "payment_intent.payment_failed" /\ ns = FAILED) \/
     (ev_type ev = "payment_intent.canceled" /\ ns = CANCELLED) ->
     fst (WebhookEventRepository.get_by_stripe_event_id (ev_id ev) st) =
       Ok None ->
     resolves_to ev st o ->
     exists o',
       In o' (orders (snd (BillingService.process_webhook env ev payload st)))
       /\ Order.id o' = Order.id o /\ Order.status o' = ns).
Proof.
  split; [|split].
  - intros order_id user_id o. apply cancel_order_rejects_terminal.
  - destruct (process_webhook_resolved env ev payload st)
      as [Ho | (o & ns & pa & t & Hres & Ho & Htarget & Hpaid)];
      rewrite Ho.
    + apply Forall2_same. auto.
    + eapply Forall2_impl; [|apply sql_update_status_rows].
      cbn beta. intros a b [Hs | (Hid & Hcore & Hs)]; [left; exact Hs|].
      right. exists o. rewrite Hs. auto.
  - intros o ns Hkind Hfresh Hfound. unfold resolves_to in Hfound.
    apply get_by_payment_intent_id_found in Hfound.
    rewrite process_webhook_run.
    pose proof (begin_processing_spec env ev payload st) as Hb.
    destruct (begin_processing_fresh env ev payload st Hfresh) as (weid & Hw).
    run_of Hb (BillingService.begin_processing env ev payload) st r s1.
    cbn [fst] in Hw. subst r. destruct Hb as (Ho & _).
    rewrite finish_processing_run. rewrite <- Ho in Hfound.
    pose proof (dispatch_overwrites env ev weid s1 o ns Hkind Hfound) as Hd.
    run_of Hd (BillingService.dispatch env ev weid) s1 r s2.
    destruct Hd as (pa & t & Ho2).
    assert (In o (orders s1)) as Hin.
    { eapply proj1. apply filter_In. rewrite Hfound. left. reflexivity. }
    exists (OrderRepository.set_status ns pa t o).
    split; [|split; reflexivity].
    destruct r as [[]|e]; rewrite mark_processed_run;
      cbn [fst snd orders]; rewrite Ho2;
      apply sql_update_In; auto using Nat.eqb_refl.
Qed.

Lemma terminal_orders_cancel_and_webhooks_witness :
  let ev := Build_StripeEvent "evt_2" "payment_intent.canceled" "pi_2" None
              LpeAbsent in
  let run := BillingService.process_webhook env_up ev "{}" state_two_paid in
  BillingService.cancel_order env_up 0 7 state_two_paid =
    (Raise (ValueError "Cannot cancel order with status OrderStatus.PAID"),
     state_two_paid) /\
  Forall2 (fun a b : Order.t =>
             b = a \/
             exists o,
               resolves_to ev state_two_paid o /\ Order.id a = Order.id o /\
               order_core b = order_core a /\
               event_target (ev_type ev) = Some (Order.status b) /\
               (Order.status o = PAID -> Order.status b <> PAID))
    (orders state_two_paid) (orders (snd run)) /\
  exists o',
    In o' (orders (snd run)) /\ Order.id o' = 1 /\
    Order.status o' = CANCELLED.
Proof.
  intros ev run.
  destruct (terminal_orders_cancel_and_webhooks env_up ev "{}" state_two_paid)
    as (Hcancel & Hrows & Hover).
  split; [|split].
  - exact (Hcancel 0 7 (sample_order 0 7 PAID (Some "pi_1") 0 (Some 5))
             eq_refl eq_refl eq_refl).
  - exact Hrows.
  - exact (Hover (sample_order 1 8 PAID (Some "pi_2") 1 (Some 6)) CANCELLED
             (or_intror (or_intror (conj eq_refl eq_refl))) eq_refl eq_refl).
Defined.

(** C2 as stated fails: a payment-failed event that resolves to the paid
    order of [state_paid] is processed without error and leaves that order
    in status [FAILED]. *)
Lemma paid_order_becomes_failed :
  let run :=
    BillingService.process_webhook env_up
      (sample_event "evt_2" "payment_intent.payment_failed") "{}"
      state_paid in
  map Order.status (orders state_paid) = [PAID] /\
  fst (OrderRepository.get_by_payment_intent_id "pi_1" state_paid) =
    Ok (Some (sample_order 0 7 PAID (Some "pi_1") 0 (Some 5))) /\
  fst run = Ok tt /\
  map Order.status (orders (snd run)) = [FAILED].
Proof. repeat split. Qed.

(** ** C4: a payment-succeeded event for an order already paid *)

Lemma dispatch_already_paid env ev weid s o :
  ev_type ev = "payment_intent.succeeded" ->
  filter (fun x => opt_string_eqb (Order.stripe_payment_intent_id x) (pi_id ev))
    (orders s) = [o] ->
  Order.status o = PAID ->
  wp (BillingService.dispatch env ev weid)
    (fun r s' =>
       r = Ok tt /\
       orders s' = orders s /\
       payment_audit s' = payment_audit s /\
       broker s' = broker s /\
       trace s' = trace s ++ [WebhookWrite weid]) s.
Proof.
  intros Htype Hfound Hpaid.
  unfold BillingService.dispatch. rewrite Htype, String.eqb_refl.
  unfold BillingService._handle_payment_succeeded,
    OrderRepository.get_by_payment_intent_id.
  do 3 wp_step. simp_state. rewrite Hfound.
  wp_exec; try (rewrite Hpaid in *; discriminate).
  repeat split.
Qed.

(** C4. A payment-succeeded event that resolves to an order already paid
    publishes nothing and attempts no publish, writes no order row (so
    [paid_at] is what it was) and no audit row; when the provider event id
    is new to the ledger the call also returns normally. *)
Theorem paid_order_succeeded_again env ev payload st o :
  ev_type ev = "payment_intent.succeeded" ->
  fst (OrderRepository.get_by_payment_intent_id (pi_id ev) st) = Ok (Some o) ->
  Order.status o = PAID ->
  let run := BillingService.process_webhook env ev payload st in
  broker (snd run) = broker st /\
  orders (snd run) = orders st /\
  payment_audit (snd run) = payment_audit st /\
  (exists suffix,
     trace (snd run) = trace st ++ suffix /\ filter is_core suffix = []) /\
  (fst (WebhookEventRepository.get_by_stripe_event_id (ev_id ev) st) = Ok None ->
   fst run = Ok tt).
Proof.
  intros Htype Hfound Hpaid run. subst run.
  apply get_by_payment_intent_id_found in Hfound.
  rewrite process_webhook_run.
  pose proof (begin_processing_spec env ev payload st) as Hb.
  pose proof (begin_processing_fresh env ev payload st) as Hfresh.
  run_of Hb (BillingService.begin_processing env ev payload) st r s1.
  destruct Hb as (Ho & Ha & Hbr & _ & (pre & Hpre & Hcore) & _).
  destruct r as [[weid|]|e]; cbn [fst snd] in *.
  - rewrite finish_processing_run.
    rewrite <- Ho in Hfound.
    pose proof (dispatch_already_paid env ev weid s1 o Htype Hfound Hpaid)
      as Hd.
    run_of Hd (BillingService.dispatch env ev weid) s1 r s2.
    destruct Hd as (-> & Ho2 & Ha2 & Hbr2 & Ht2).
    rewrite mark_processed_run.
    cbn [fst snd broker orders payment_audit trace].
    repeat split; try congruence.
    exists (pre ++ [WebhookWrite weid; WebhookWrite weid]).
    rewrite Ht2, Hpre, <- !app_assoc. split; [reflexivity|].
    rewrite filter_app, Hcore. reflexivity.
  - split; [assumption|]. split; [assumption|]. split; [assumption|].
    split; [exists pre; auto|].
    intros H. destruct (Hfresh H) as (w & Hw). discriminate Hw.
  - split; [assumption|]. split; [assumption|]. split; [assumption|].
    split; [exists pre; auto|].
    intros H. destruct (Hfresh H) as (w & Hw). discriminate Hw.
Qed.

Lemma paid_order_succeeded_again_witness :
  let run :=
    BillingService.process_webhook env_up
      (sample_event "evt_9" "payment_intent.succeeded") "{}" state_paid in
  broker (snd run) = [] /\
  map Order.paid_at (orders (snd run)) = [Some 5] /\
  fst run = Ok tt.
Proof.
  destruct (paid_order_succeeded_again env_up
              (sample_event "evt_9" "payment_intent.succeeded") "{}"
              state_paid (sample_order 0 7 PAID (Some "pi_1") 0 (Some 5))
              eq_refl eq_refl eq_refl) as (H1 & H2 & _ & _ & H3).
  split; [exact H1|]. split; [rewrite H2; reflexivity|].
  apply H3. reflexivity.
Defined.

(** ** C3: the same event delivered twice *)

Lemma begin_processing_processed env ev payload s w :
  filter (same_event (ev_id ev)) (webhook_events s) = [w] ->
  WebhookEvent.processed w = true ->
  BillingService.begin_processing env ev payload s = (Ok None, s).
Proof.
  intros Hfound Hdone.
  unfold BillingService.begin_processing,
    WebhookEventRepository.get_by_stripe_event_id, bind, get_state.
  fold (same_event (ev_id ev)). rewrite Hfound.
  cbv [scalar_one_or_none ret]. rewrite Hdone. reflexivity.
Qed.

(** After a call that returned normally, the event has exactly one ledger
    row and that row is marked processed. *)
Lemma processed_after_success env ev payload st :
  fst (BillingService.process_webhook env ev payload st) = Ok tt ->
  exists w,
    filter (same_event (ev_id ev))
      (webhook_events (snd (BillingService.process_webhook env ev payload st)))
      = [w] /\
    WebhookEvent.processed w = true.
Proof.
  rewrite process_webhook_run.
  pose proof (begin_processing_spec env ev payload st) as Hb.
  run_of Hb (BillingService.begin_processing env ev payload) st r s1.
  destruct Hb as (_ & _ & _ & _ & _ & Hr).
  destruct r as [[weid|]|e]; cbn [fst snd]; intros Hok;
    try discriminate Hok.
  - rewrite finish_processing_run in *.
    pose proof (dispatch_ledger env ev weid s1) as Hd.
    run_of Hd (BillingService.dispatch env ev weid) s1 r s2.
    destruct r as [[]|e]; [|discriminate Hok].
    rewrite mark_processed_run. cbn [snd webhook_events].
    destruct Hr as (w & Hw & Hid).
    rewrite filter_sql_update by reflexivity.
    destruct Hd as [-> | (oid & t & ->)].
    + rewrite Hw. cbn [sql_update map]. rewrite Hid, Nat.eqb_refl.
      eexists. split; reflexivity.
    + rewrite filter_sql_update by reflexivity.
      rewrite Hw. cbn [sql_update map]. rewrite Hid, Nat.eqb_refl.
      cbn [WebhookEventRepository.set_processed WebhookEvent.id].
      rewrite Hid, Nat.eqb_refl.
      eexists. split; reflexivity.
  - destruct Hr as (-> & w & Hw & Hdone). eauto.
Qed.

(** C3. After a [process_webhook] call that returned normally, a second call
    with the same event and payload returns normally and hands back the
    state unchanged, whatever the provider and the broker do by then: no
    order status moves and no audit row is added. The first call itself
    added at most one audit row, carrying the event id, and exactly one
    whenever it changed the orders table. *)
Theorem process_webhook_twice env env' ev payload st :
  fst (BillingService.process_webhook env ev payload st) = Ok tt ->
  let st1 := snd (BillingService.process_webhook env ev payload st) in
  BillingService.process_webhook env' ev payload st1 = (Ok tt, st1) /\
  exists new,
    payment_audit st1 = payment_audit st ++ new /\
    List.length new <= 1 /\
    (orders st1 <> orders st -> List.length new = 1) /\
    (forall a, In a new ->
       PaymentAudit.stripe_event_id a = Some (ev_id ev)).
Proof.
  intros Hok st1. split.
  - destruct (processed_after_success env ev payload st Hok)
      as (w & Hw & Hdone).
    rewrite process_webhook_run.
    rewrite (begin_processing_processed env' ev payload st1 w Hw Hdone).
    reflexivity.
  - destruct (process_webhook_orders env ev payload st)
      as (_ & [(Ho & Ha & _) | (o & ns & pa & t & _ & _ & _ & _ & new & Ha &
                                Hlen & Hone & Hev)]).
    + exists []. subst st1. rewrite Ha, app_nil_r.
      repeat split; [cbn; lia | congruence | intros a []].
    + exists new. subst st1. repeat split; auto.
      intros a Hin. apply (Hev a Hin).
Qed.

Lemma process_webhook_twice_witness :
  let st1 :=
    snd (BillingService.process_webhook env_up
           (sample_event "evt_1" "payment_intent.succeeded") "{}"
           state_pending) in
  BillingService.process_webhook env_gateway_down
    (sample_event "evt_1" "payment_intent.succeeded") "{}" st1 = (Ok tt, st1) /\
  map Order.status (orders st1) = [PAID] /\
  List.length (payment_audit st1) = 1.
Proof.
  destruct (process_webhook_twice env_up env_gateway_down
              (sample_event "evt_1" "payment_intent.succeeded") "{}"
              state_pending eq_refl) as (H & _).
  split; [exact H|]. split; reflexivity.
Defined.

(** ** What each operation does to the orders table *)

Lemma get_order_reads order_id user_id st :
  snd (BillingService.get_order order_id user_id st) = st.
Proof.
  unfold BillingService.get_order, bind.
  rewrite (get_by_id_run order_id st _ eq_refl).
  destruct (fst (OrderRepository.get_by_id order_id st)) as [[o|]|e];
    try reflexivity.
  destruct (negb (Order.user_id o =? user_id)); reflexivity.
Qed.

Lemma get_user_orders_reads user_id page page_size status st :
  snd (BillingService.get_user_orders user_id page page_size status st) = st.
Proof.
  unfold BillingService.get_user_orders, OrderRepository.get_user_orders,
    bind, get_state.
  destruct (negb (in_int64 page_size) ||
            negb (in_int64 ((page - 1) * page_size))); [reflexivity|].
  destruct ((page - 1) * page_size <? 0)%Z; [reflexivity|].
  destruct (page_size <? 0)%Z; reflexivity.
Qed.

Lemma cancel_order_orders env order_id user_id st :
  wp (BillingService.cancel_order env order_id user_id)
    (fun _ st' =>
       uuid_supply st <= uuid_supply st' /\
       (orders st' = orders st \/
        exists o t,
          orders st' =
            sql_update (fun x => Order.id x =? Order.id o)
              (OrderRepository.set_status CANCELLED None t) (orders st))) st.
Proof.
  wp_exec; (split; [lia|]); try (left; reflexivity); right; eauto.
Qed.

Lemma create_order_orders env pricing user_id order_data st :
  wp (BillingService.create_order env pricing user_id order_data)
    (fun _ st' =>
       uuid_supply st < uuid_supply st' /\
       exists new,
         (orders st' = orders st ++ [new] \/
          exists p c t,
            orders st' =
              sql_update (fun x => Order.id x =? uuid_supply st)
                (OrderRepository.set_payment_intent p c t)
                (orders st ++ [new])) /\
         Order.id new = uuid_supply st /\
         Order.paid_at new = None /\
         Order.status new = CREATED) st.
Proof.
  wp_exec; (split; [lia|]); eexists;
    (split; [first [left; reflexivity | right; do 3 eexists; reflexivity]|]);
    repeat split.
Qed.

(** ** Keys and rows across one operation *)

Lemma NoDup_key_unique {A B} (key : A -> B) l x y :
  NoDup (map key l) -> In x l -> In y l -> key x = key y -> x = y.
Proof.
  induction l as [|a r IH]; cbn [map]; intros Hnd Hx Hy Hk; [contradiction|].
  inversion Hnd as [|? ? Hnotin Hnd']; subst.
  destruct Hx as [->|Hx], Hy as [->|Hy]; auto.
  - exfalso. apply Hnotin. rewrite Hk. apply in_map, Hy.
  - exfalso. apply Hnotin. rewrite <- Hk. apply in_map, Hx.
Qed.

Lemma step_same st st' :
  orders st' = orders st -> uuid_supply st <= uuid_supply st' ->
  keys_ok st ->
  keys_ok st' /\ forall o', In o' (orders st') -> row_step st st' o'.
Proof.
  intros Ho Hsup [Hnd Hlt]. split; [split|].
  - rewrite Ho. exact Hnd.
  - rewrite Ho. intros o Hin. specialize (Hlt o Hin). lia.
  - rewrite Ho. intros o' Hin. left. exists o'. auto.
Qed.

Lemma step_update st st' oid ns pa t :
  orders st' =
    sql_update (fun x => Order.id x =? oid)
      (OrderRepository.set_status ns pa t) (orders st) ->
  uuid_supply st <= uuid_supply st' ->
  (ns <> PAID /\ pa = None) \/
  (ns = PAID /\ pa <> None /\
   exists o, In o (orders st) /\ Order.id o = oid /\ Order.status o <> PAID) ->
  keys_ok st ->
  keys_ok st' /\ forall o', In o' (orders st') -> row_step st st' o'.
Proof.
  intros Ho Hsup Hkind [Hnd Hlt]. split; [split|].
  - rewrite Ho, sql_update_map by reflexivity. exact Hnd.
  - rewrite Ho. intros o Hin. apply sql_update_In_inv in Hin.
    destruct Hin as (x & Hx & ->). specialize (Hlt x Hx).
    destruct (Order.id x =? oid); cbn [Order.id OrderRepository.set_status];
      lia.
  - rewrite Ho. intros o' Hin. apply sql_update_In_inv in Hin.
    destruct Hin as (x & Hx & ->). left. exists x. split; [exact Hx|].
    destruct (Order.id x =? oid) eqn:E; [|auto].
    split; [reflexivity|].
    destruct Hkind as [(Hns & ->) | (-> & Hpa & o & Hin & Hid & Hst)].
    + left. cbn. split; [reflexivity|]. intros. contradiction.
    + right. apply Nat.eqb_eq in E.
      assert (x = o) as ->
        by (apply (NoDup_key_unique Order.id (orders st)); congruence).
      destruct pa as [p|]; [|congruence].
      cbn. repeat split; [discriminate | exact Hst].
Qed.

Lemma step_create st st' new :
  orders st' = orders st ++ [new] \/
  (exists p c t,
     orders st' =
       sql_update (fun x => Order.id x =? uuid_supply st)
         (OrderRepository.set_payment_intent p c t) (orders st ++ [new])) ->
  Order.id new = uuid_supply st ->
  Order.paid_at new = None ->
  Order.status new = CREATED ->
  uuid_supply st < uuid_supply st' ->
  keys_ok st ->
  keys_ok st' /\ forall o', In o' (orders st') -> row_step st st' o'.
Proof.
  intros Ho Hid Hpaid Hst Hsup [Hnd Hlt].
  assert (NoDup (map Order.id (orders st ++ [new]))) as Hnd'.
  { rewrite map_app. cbn [map]. apply NoDup_app.
    - exact Hnd.
    - constructor; [intros []| constructor].
    - intros k Hk [<-|[]]. apply in_map_iff in Hk.
      destruct Hk as (x & Hkx & Hx). specialize (Hlt x Hx). lia. }
  assert (forall o, In o (orders st ++ [new]) -> Order.id o < uuid_supply st')
    as Hlt'.
  { intros o Hin. apply in_app_or in Hin. destruct Hin as [Hin|[<-|[]]].
    - specialize (Hlt o Hin). lia.
    - lia. }
  assert (forall o, In o (orders st ++ [new]) -> row_step st st' o) as Hrows.
  { intros o Hin. apply in_app_or in Hin. destruct Hin as [Hin|[<-|[]]].
    - left. exists o. auto.
    - right. repeat split; try assumption. congruence. }
  unfold keys_ok.
  destruct Ho as [Ho | (p & c & t & Ho)]; rewrite Ho.
  - split; [split|]; assumption.
  - split; [split|].
    + rewrite sql_update_map by reflexivity. exact Hnd'.
    + intros o Hin. apply sql_update_In_inv in Hin.
      destruct Hin as (x & Hx & ->). specialize (Hlt' x Hx).
      destruct (Order.id x =? uuid_supply st); cbn; lia.
    + intros o Hin. apply sql_update_In_inv in Hin.
      destruct Hin as (x & Hx & ->).
      destruct (Order.id x =? uuid_supply st) eqn:E; [|auto].
      apply Nat.eqb_eq in E.
      apply in_app_or in Hx. destruct Hx as [Hx|[<-|[]]].
      * specialize (Hlt x Hx). lia.
      * right. cbn. repeat split; try assumption. discriminate.
Qed.

(** Every operation keeps the keys in order and moves each row as
    [row_step] says. *)
Lemma op_step env pricing op st :
  keys_ok st ->
  keys_ok (run_op env pricing op st) /\
  uuid_supply st <= uuid_supply (run_op env pricing op st) /\
  forall o', In o' (orders (run_op env pricing op st)) ->
             row_step st (run_op env pricing op st) o'.
Proof.
  intros Hok. destruct op as [u d | o u | u p ps s | o u | ev payload];
    cbn [run_op].
  - pose proof (create_order_orders env pricing u d st) as H.
    unfold wp in H. destruct H as (Hsup & new & Ho & Hid & Hpaid & Hst).
    split; [|split; [lia|]];
      apply (step_create st _ new Ho Hid Hpaid Hst Hsup Hok).
  - rewrite get_order_reads.
    split; [|split; [lia|]]; apply (step_same st st eq_refl (le_n _) Hok).
  - rewrite get_user_orders_reads.
    split; [|split; [lia|]]; apply (step_same st st eq_refl (le_n _) Hok).
  - pose proof (cancel_order_orders env o u st) as H.
    unfold wp in H. destruct H as (Hsup & [Ho | (x & t & Ho)]).
    + split; [|split; [lia|]]; apply (step_same st _ Ho Hsup Hok).
    + split; [|split; [lia|]];
        apply (step_update st _ _ _ _ _ Ho Hsup); auto.
      all: left; split; [discriminate | reflexivity].
  - destruct (process_webhook_orders env ev payload st)
      as (Hsup & [(Ho & _) | (x & ns & pa & t & Ho & Hin & _ & Hkind & _)]).
    + split; [|split; [lia|]]; apply (step_same st _ Ho Hsup Hok).
    + assert ((ns <> PAID /\ pa = None) \/
              (ns = PAID /\ pa <> None /\
               exists o, In o (orders st) /\ Order.id o = Order.id x /\
                         Order.status o <> PAID)) as Hkind'.
      { destruct Hkind as [(H1 & H2 & H3) | H]; [right | left; exact H].
        repeat split; try assumption. exists x. auto. }
      split; [|split; [lia|]];
        apply (step_update st _ _ _ _ _ Ho Hsup Hkind' Hok).
Qed.

(** ** C5: [paid_at] and the history of an order *)

Lemma was_paid_later order_id s h :
  was_paid order_id h -> was_paid order_id (s :: h).
Proof.
  intros (s0 & o & Hs & Ho & Hid & Hst). exists s0, o.
  repeat split; try assumption. right. exact Hs.
Qed.

Lemma history_invariant h : history h -> history_ok h.
Proof.
  induction 1 as [|env pricing op st past Hh IH].
  - cbn. repeat split.
    + constructor.
    + intros o [].
    + intros s o [<-|[]] [].
    + intros _. contradiction.
    + intros _. contradiction.
  - cbn [history_ok] in *. destruct IH as (Hok & Hbound & Hiff).
    destruct (op_step env pricing op st Hok) as (Hok' & Hsup & Hrows).
    set (st' := run_op env pricing op st) in *.
    split; [exact Hok'|]. split.
    + intros s o [<-|Hs] Ho.
      * apply Hok'. exact Ho.
      * specialize (Hbound s o Hs Ho). lia.
    + intros o' Ho'.
      destruct (Hrows o' Ho')
        as [(o & Ho & Hid & [(Hpaid & Hst) | (Hst & Hpaid & _)])
           | (Hid & _ & Hpaid & Hst)].
      * (* continued, paid_at untouched *)
        rewrite Hpaid, Hid, (Hiff o Ho). split.
        -- apply was_paid_later.
        -- intros (s & x & [<-|Hs] & Hx & Hxid & Hxst).
           ++ assert (x = o') as ->
                by (apply (NoDup_key_unique Order.id (orders st'));
                    try assumption; [apply Hok' | congruence]).
              exists st, o. repeat split; auto. left. reflexivity.
           ++ exists s, x. auto.
      * (* entered PAID *)
        split; [|intros _; exact Hpaid].
        intros _. exists st', o'. repeat split; auto. left. reflexivity.
      * (* created by this operation *)
        split; [intros H; contradiction|].
        intros (s & x & [<-|Hs] & Hx & Hxid & Hxst).
        -- assert (x = o') as ->
             by (apply (NoDup_key_unique Order.id (orders st'));
                 try assumption; apply Hok').
           contradiction.
        -- specialize (Hbound s x Hs Hx). lia.
Qed.

(** C5. Along every history of the service from empty tables: an order has
    a [paid_at] exactly if it is paid now or was paid in an earlier state;
    an operation that changes the [paid_at] of an order moves that order
    from a status other than [PAID] into [PAID], and every such move leaves
    a [paid_at]; an order that the operation created has none. *)
Theorem paid_at_iff_was_paid st past :
  history (st :: past) ->
  (forall o, In o (orders st) ->
     (Order.paid_at o <> None <-> was_paid (Order.id o) (st :: past))) /\
  (forall env pricing op o o',
     In o (orders st) ->
     In o' (orders (run_op env pricing op st)) ->
     Order.id o' = Order.id o ->
     (Order.paid_at o' <> Order.paid_at o ->
      Order.status o <> PAID /\ Order.status o' = PAID) /\
     (Order.status o <> PAID -> Order.status o' = PAID ->
      Order.paid_at o' <> None)) /\
  (forall env pricing op o',
     In o' (orders (run_op env pricing op st)) ->
     (forall o, In o (orders st) -> Order.id o <> Order.id o') ->
     Order.paid_at o' = None).
Proof.
  intros Hh. pose proof (history_invariant _ Hh) as (Hok & _ & Hiff).
  split; [exact Hiff|]. split.
  - intros env pricing op o o' Ho Ho' Hid.
    destruct (op_step env pricing op st Hok) as (_ & _ & Hrows).
    destruct (Hrows o' Ho')
      as [(x & Hx & Hxid & Hcase) | (Hnew & _)].
    + assert (x = o) as ->
        by (apply (NoDup_key_unique Order.id (orders st));
            try assumption; [apply Hok | congruence]).
      destruct Hcase as [(Hpaid & Hst) | (Hst & Hpaid & Hold)]; split.
      * intros Hne. congruence.
      * intros Hnot Hnow. elim Hnot. auto.
      * intros _. auto.
      * intros _ _. exact Hpaid.
    + destruct Hok as (_ & Hlt). specialize (Hlt o Ho). lia.
  - intros env pricing op o' Ho' Hfresh.
    destruct (op_step env pricing op st Hok) as (_ & _ & Hrows).
    destruct (Hrows o' Ho') as [(x & Hx & Hxid & _) | (_ & _ & Hpaid & _)].
    + elim (Hfresh x Hx). congruence.
    + exact Hpaid.
Qed.

Lemma paid_at_iff_was_paid_witness :
  map Order.paid_at (orders state_after_payment) = [Some 7] /\
  was_paid 0 [state_after_payment; state_created; initial_state].
Proof.
  split; [reflexivity|].
  destruct (paid_at_iff_was_paid state_after_payment
              [state_created; initial_state]
              (history_step _ _ _ _ _ (history_step _ _ _ _ _ history_init)))
    as (Hiff & _).
  apply (Hiff (Order.mk 0 7 STANDARD 2999%Z "USD" PAID (Some "pi_1")
                 (Some "pi_1_secret") (Some "Standard Package") None 0 8
                 (Some 7))).
  - vm_compute. left. reflexivity.
  - discriminate.
Defined.

(** * Further properties of the billing service *)

(** ** The catalogue endpoints *)

Lemma PackageType_of_value_iff s p :
  PackageType_of_value s = Some p <-> s = PackageType_value p.
Proof.
  unfold PackageType_of_value. split.
  - destruct (String.eqb_spec s "basic") as [->|_];
      [intros [= <-]; reflexivity|].
    destruct (String.eqb_spec s "standard") as [->|_];
      [intros [= <-]; reflexivity|].
    destruct (String.eqb_spec s "premium") as [->|_];
      [intros [= <-]; reflexivity|].
    discriminate.
  - intros ->. destruct p; reflexivity.
Qed.

(** X14. [get_package] answers 404 "Package not found" exactly for the strings
    that are not the value of a package type (the match is case sensitive);
    for the value of a type it returns that type's package at the
    configured price, which is also what [create_order] charges. *)
Theorem get_package_by_value pricing s :
  (forall p, s = PackageType_value p ->
     exists info,
       Presentation.get_package pricing s = Response info /\
       pkg_type info = p /\ pkg_price info = price_of pricing p /\
       In info (Presentation.get_packages pricing)) /\
  ((forall p, s <> PackageType_value p) ->
   Presentation.get_package pricing s =
     HTTPException HTTP_404_NOT_FOUND "Package not found").
Proof.
  unfold Presentation.get_package. split.
  - intros p Hs. apply PackageType_of_value_iff in Hs. rewrite Hs.
    eexists. split; [reflexivity|].
    unfold Presentation.get_packages, BillingService.get_all_packages.
    destruct p; (split; [reflexivity|]); (split; [reflexivity|]);
      cbn [In]; auto.
  - intros Hnone.
    destruct (PackageType_of_value s) as [p|] eqn:E; [|reflexivity].
    apply PackageType_of_value_iff in E. elim (Hnone p E).
Qed.

Lemma get_package_by_value_witness :
  Presentation.get_package sample_pricing "Basic" =
    HTTPException 404 "Package not found" /\
  exists info,
    Presentation.get_package sample_pricing "basic" = Response info /\
    pkg_price info = 999%Z.
Proof.
  destruct (get_package_by_value sample_pricing "Basic") as (_ & Hnone).
  destruct (get_package_by_value sample_pricing "basic") as (Hsome & _).
  split.
  - apply Hnone. intros p. destruct p; discriminate.
  - destruct (Hsome BASIC eq_refl) as (info & H1 & _ & H2 & _).
    exists info. split; [exact H1 | exact H2].
Defined.

(** ** The listing endpoint *)

Lemma In_firstn_skipn {A} (x : A) n m l :
  In x (firstn n (skipn m l)) -> In x l.
Proof.
  intros H.
  rewrite <- (firstn_skipn m l). apply in_or_app. right.
  rewrite <- (firstn_skipn n (skipn m l)). apply in_or_app. left. exact H.
Qed.

(** X13. The listing endpoint never changes the state. It answers 400 for a
    page below 1 or a page size outside 1..100 without querying, and 400
    with the database's error for a page so far out that the offset
    [(page-1)*page_size] leaves the range of a [bigint]. Every other request
    is answered with a page: at most [page_size] (hence at most 100) orders,
    each one the caller's and of the requested status, and a total that
    counts at least the page. *)
Theorem get_orders_endpoint user_id page page_size status s :
  snd (Presentation.get_orders user_id page page_size status s) = s /\
  ((page < 1)%Z ->
   fst (Presentation.get_orders user_id page page_size status s) =
     HTTPException 400 "Page must be >= 1") /\
  ((1 <= page)%Z -> (page_size < 1 \/ 100 < page_size)%Z ->
   fst (Presentation.get_orders user_id page page_size status s) =
     HTTPException 400 "Page size must be between 1 and 100") /\
  ((1 <= page)%Z -> (1 <= page_size <= 100)%Z ->
   (INT64_MAX < (page - 1) * page_size)%Z ->
   exists detail,
     fst (Presentation.get_orders user_id page page_size status s) =
       HTTPException 400 detail) /\
  ((1 <= page)%Z -> (1 <= page_size <= 100)%Z ->
   ((page - 1) * page_size <= INT64_MAX)%Z ->
   exists r,
     fst (Presentation.get_orders user_id page page_size status s) =
       Response r /\
     Presentation.olr_page r = page /\ Presentation.olr_page_size r = page_size /\
     (Z.of_nat (List.length (Presentation.olr_orders r)) <= page_size)%Z /\
     (Z.of_nat (List.length (Presentation.olr_orders r)) <= Presentation.olr_total r)%Z /\
     (forall o, In o (Presentation.olr_orders r) ->
        In o (orders s) /\ matches user_id status o)).
Proof.
  unfold Presentation.get_orders.
  destruct (Z.ltb_spec page 1) as [Hp|Hp].
  { repeat split; try reflexivity; intros; lia. }
  destruct (Z.ltb_spec page_size 1) as [Hs1|Hs1]; cbn [orb].
  { repeat split; try reflexivity; intros; lia. }
  destruct (Z.ltb_spec 100 page_size) as [Hs2|Hs2].
  { repeat split; try reflexivity; intros; lia. }
  unfold BillingService.get_user_orders, OrderRepository.get_user_orders,
    bind, get_state.
  rewrite (in_int64_true page_size)
    by (unfold INT64_MIN, INT64_MAX; lia).
  cbn [negb orb].
  destruct (in_int64 ((page - 1) * page_size)) eqn:Hrange; cbn [negb].
  2:{ cbn [raise fst snd].
      split; [reflexivity|]. split; [intros; lia|]. split; [intros; lia|].
      split; [intros _ _ _; eexists; reflexivity|].
      intros _ _ Hoff. exfalso.
      assert (in_int64 ((page - 1) * page_size) = true) as H
        by (apply in_int64_true; unfold INT64_MIN; nia).
      congruence. }
  apply in_int64_iff in Hrange.
  destruct (Z.ltb_spec ((page - 1) * page_size) 0) as [Hneg|_]; [nia|].
  destruct (Z.ltb_spec page_size 0) as [Hneg|_]; [lia|].
  cbn [ret fst snd].
  split; [reflexivity|]. split; [intros; lia|]. split; [intros; lia|].
  split; [intros; lia|].
  intros _ _ _. eexists. split; [reflexivity|].
  cbn [Presentation.olr_page Presentation.olr_page_size Presentation.olr_orders Presentation.olr_total].
  set (ranked := order_by_created_at_desc
                   (OrderRepository.user_query user_id status (orders s))).
  assert (List.length ranked =
          List.length (OrderRepository.user_query user_id status (orders s)))
    as Hlen by apply Permutation_length, order_by_created_at_desc_perm.
  split; [reflexivity|]. split; [reflexivity|]. split; [|split].
  - rewrite length_firstn. lia.
  - rewrite length_firstn, length_skipn. lia.
  - intros o Ho. apply In_firstn_skipn in Ho.
    apply user_query_matches.
    apply (Permutation_in o (order_by_created_at_desc_perm _)). exact Ho.
Qed.

Lemma get_orders_endpoint_witness :
  (exists r,
     fst (Presentation.get_orders 7 1 100 None state_paid) = Response r /\
     (Z.of_nat (List.length (Presentation.olr_orders r)) <= 100)%Z) /\
  fst (Presentation.get_orders 7 1 101 None state_paid) =
    HTTPException 400 "Page size must be between 1 and 100" /\
  (exists detail,
     fst (Presentation.get_orders 7 9223372036854775809 1 None state_paid) =
       HTTPException 400 detail).
Proof.
  destruct (get_orders_endpoint 7 1 100 None state_paid)
    as (_ & _ & _ & _ & Hok).
  destruct (get_orders_endpoint 7 1 101 None state_paid)
    as (_ & _ & Hbad & _).
  destruct (get_orders_endpoint 7 9223372036854775809 1 None state_paid)
    as (_ & _ & _ & Hfar & _).
  split; [|split].
  - destruct (Hok ltac:(lia) ltac:(lia) ltac:(unfold INT64_MAX; lia))
      as (r & Hr & _ & _ & Hlen & _).
    exists r. split; [exact Hr | exact Hlen].
  - apply Hbad; lia.
  - apply Hfar; unfold INT64_MAX; lia.
Defined.

(** ** The webhook endpoint *)



(** ** Statistics *)

Lemma filter_disjoint_length {A} (p q : A -> bool) l :
  (forall x, p x = true -> q x = false) ->
  List.length (filter p l) + List.length (filter q l) <= List.length l.
Proof.
  intros Hpq. induction l as [|x r IH]; cbn [filter List.length]; [lia|].
  destruct (p x) eqn:Hp.
  - rewrite (Hpq x Hp). cbn [List.length]. lia.
  - destruct (q x); cbn [List.length]; lia.
Qed.

Lemma filter_all_true {A} (l : list A) : filter (fun _ => true) l = l.
Proof. induction l as [|x r IH]; cbn; congruence. Qed.

Lemma or_default_count n : OrderRepository.or_default (Some (Z.of_nat n)) 0 = Z.of_nat n.
Proof.
  unfold OrderRepository.or_default.
  destruct (Z.eqb_spec (Z.of_nat n) 0); lia.
Qed.

(** X16. [get_statistics] reads only. Its counts are the row counts (the
    [or 0] never bites), paid and failed orders together never exceed the
    total, and the revenue is the sum of the amounts of the paid orders,
    which is 0 when the SQL sum is NULL because no order is paid. *)
Theorem get_statistics_counts s :
  exists stats,
    OrderRepository.get_statistics s = (Ok stats, s) /\
    OrderRepository.total_orders stats = Z.of_nat (List.length (orders s)) /\
    OrderRepository.paid_orders stats =
      Z.of_nat (List.length
                  (filter (fun o => OrderStatus_eqb (Order.status o) PAID)
                     (orders s))) /\
    (OrderRepository.paid_orders stats + OrderRepository.failed_orders stats
     <= OrderRepository.total_orders stats)%Z /\
    OrderRepository.total_revenue stats =
      fold_right Z.add 0%Z
        (map Order.amount
           (filter (fun o => OrderStatus_eqb (Order.status o) PAID)
              (orders s))) /\
    (OrderRepository.paid_orders stats = 0%Z ->
     OrderRepository.total_revenue stats = 0%Z).
Proof.
  eexists. split; [reflexivity|].
  cbn [OrderRepository.total_orders OrderRepository.paid_orders
       OrderRepository.failed_orders OrderRepository.total_revenue].
  unfold OrderRepository.count_where. rewrite !or_default_count.
  rewrite filter_all_true.
  assert (OrderRepository.or_default
            (OrderRepository.sum_amount_where
               (fun o => OrderStatus_eqb (Order.status o) PAID) (orders s)) 0 =
          fold_right Z.add 0%Z
            (map Order.amount
               (filter (fun o => OrderStatus_eqb (Order.status o) PAID)
                  (orders s)))) as Hrev.
  { unfold OrderRepository.sum_amount_where, OrderRepository.or_default.
    destruct (filter _ (orders s)) as [|x r]; [reflexivity|].
    destruct (Z.eqb_spec (fold_right Z.add 0%Z (map Order.amount (x :: r))) 0);
      congruence. }
  rewrite Hrev.
  split; [reflexivity|]. split; [reflexivity|]. split; [|split].
  - pose proof (filter_disjoint_length
                  (fun o => OrderStatus_eqb (Order.status o) PAID)
                  (fun o => OrderStatus_eqb (Order.status o) FAILED)
                  (orders s)) as H.
    assert (forall x : Order.t,
              OrderStatus_eqb (Order.status x) PAID = true ->
              OrderStatus_eqb (Order.status x) FAILED = false) as Hd
      by (intros x; destruct (Order.status x); cbn; congruence).
    specialize (H Hd). lia.
  - reflexivity.
  - intros Hzero.
    destruct (filter _ (orders s)) as [|x r]; [reflexivity|].
    cbn [List.length] in Hzero. lia.
Qed.

(** ** The audit history of an order *)

Lemma insert_asc_perm a l :
  Permutation (PaymentAuditRepository.insert_asc a l) (a :: l).
Proof.
  induction l as [|x r IH]; cbn [PaymentAuditRepository.insert_asc].
  - apply Permutation_refl.
  - destruct (PaymentAudit.created_at a <=? PaymentAudit.created_at x).
    + apply Permutation_refl.
    + apply perm_trans with (x :: a :: r); [apply perm_skip, IH|].
      apply perm_swap.
Qed.

Lemma order_by_created_at_asc_perm l :
  Permutation (PaymentAuditRepository.order_by_created_at_asc l) l.
Proof.
  induction l as [|x r IH]; cbn; [apply perm_nil|].
  eapply perm_trans; [apply insert_asc_perm|]. apply perm_skip, IH.
Qed.

Lemma insert_asc_sorted a l :
  Sorted older_or_same l ->
  Sorted older_or_same (PaymentAuditRepository.insert_asc a l).
Proof.
  induction 1 as [|x r Hr IH Hhd]; cbn [PaymentAuditRepository.insert_asc].
  - repeat constructor.
  - destruct (PaymentAudit.created_at a <=? PaymentAudit.created_at x) eqn:E.
    + constructor; [constructor; assumption|].
      constructor. apply Nat.leb_le in E. exact E.
    + constructor; [exact IH|].
      apply Nat.leb_gt in E.
      destruct r as [|y r']; cbn [PaymentAuditRepository.insert_asc].
      * constructor. unfold older_or_same. lia.
      * destruct (PaymentAudit.created_at a <=? PaymentAudit.created_at y).
        -- constructor. unfold older_or_same. lia.
        -- constructor. inversion Hhd; assumption.
Qed.

(** X17. [get_order_history] reads only and returns exactly the audit rows of
    the order asked for, each as often as the table holds it, oldest
    first; for an order without audit rows the list is empty. *)
Theorem get_order_history_sorted order_id s :
  exists rows,
    PaymentAuditRepository.get_order_history order_id s = (Ok rows, s) /\
    Sorted older_or_same rows /\
    Permutation rows
      (filter (fun a => PaymentAudit.order_id a =? order_id)
         (payment_audit s)) /\
    (forall a, In a rows <->
               In a (payment_audit s) /\ PaymentAudit.order_id a = order_id).
Proof.
  eexists. split; [reflexivity|]. split; [|split].
  - induction (filter _ (payment_audit s)) as [|x r IH]; cbn.
    + constructor.
    + apply insert_asc_sorted, IH.
  - apply order_by_created_at_asc_perm.
  - intro a. rewrite <- Nat.eqb_eq.
    rewrite <- (filter_In (fun a => PaymentAudit.order_id a =? order_id)).
    split; apply Permutation_in;
      [|apply Permutation_sym]; apply order_by_created_at_asc_perm.
Qed.

Lemma get_order_history_sorted_witness :
  exists rows,
    PaymentAuditRepository.get_order_history 0 state_created =
      (Ok rows, state_created) /\
    map PaymentAudit.action rows =
      ["order_created"; "payment_intent_created"].
Proof.
  destruct (get_order_history_sorted 0 state_created)
    as (rows & Hrun & _ & _ & _).
  exists rows. split; [exact Hrun|].
  vm_compute in Hrun. injection Hrun as <-. reflexivity.
Defined.

Lemma get_statistics_counts_witness :
  exists stats,
    OrderRepository.get_statistics state_pending = (Ok stats, state_pending) /\
    OrderRepository.total_revenue stats = 0%Z.
Proof.
  destruct (get_statistics_counts state_pending)
    as (stats & Hrun & _ & Hpaid & _ & _ & Hzero).
  exists stats. split; [exact Hrun|]. apply Hzero. rewrite Hpaid. reflexivity.
Defined.

(** ** Guided symbolic execution *)

(** Like [wp_step], but facts known about the state are used before a
    scrutinee is split. *)
Ltac wp_step_with tac := simp_state; first [progress tac | wp_step].
Ltac wp_exec_with tac := repeat (wp_step_with tac); simp_state.

Lemma get_by_id_found order_id s o :
  fst (OrderRepository.get_by_id order_id s) = Ok (Some o) ->
  filter (fun x => Order.id x =? order_id) (orders s) = [o].
Proof.
  unfold OrderRepository.get_by_id, bind, get_state, scalar_one_or_none.
  destruct (filter _ (orders s)) as [|x [|y l]]; cbn [fst ret raise];
    intros H; congruence.
Qed.

Lemma found_row {A} (p : A -> bool) rows x :
  filter p rows = [x] -> In x rows /\ p x = true.
Proof. intros H. apply filter_In. rewrite H. left. reflexivity. Qed.

Lemma returning_found {A} (w : A -> bool) (v : A -> A) rows x :
  filter w rows = [x] -> returning w v rows = [v x].
Proof. unfold returning. intros ->. reflexivity. Qed.

Lemma cancellable_not_terminal s :
  terminal s = false -> BillingService.cancellable s = true.
Proof. destruct s; cbn; congruence. Qed.

(** ** Cancelling an order that can be cancelled *)

(** The gateway calls a cancellation makes: one if the order has a
    non-empty payment-intent id, none otherwise. *)
Lemma cancel_order_run env st o :
  filter (fun x => Order.id x =? Order.id o) (orders st) = [o] ->
  terminal (Order.status o) = false ->
  wp (BillingService.cancel_order env (Order.id o) (Order.user_id o))
    (fun r s' =>
       r = Ok (OrderRepository.set_status CANCELLED None (clock st) o) /\
       orders s' =
         sql_update (fun x => Order.id x =? Order.id o)
           (OrderRepository.set_status CANCELLED None (clock st))
           (orders st) /\
       payment_audit s' =
         payment_audit st ++
         [PaymentAudit.mk (uuid_supply st) (Order.id o) "order_cancelled"
            (Some (Order.status o)) CANCELLED None None (S (clock st))] /\
       broker s' = broker st /\
       webhook_events s' = webhook_events st /\
       trace s' =
         trace st ++
         match Order.stripe_payment_intent_id o with
         | Some p => if truthy p then [GatewayCancel p] else []
         | None => []
         end ++
         [OrderUpdate (Order.id o) CANCELLED;
          AuditWrite (Order.id o) "order_cancelled"]) st.
Proof.
  intros Hfound Hterm.
  pose proof (cancellable_not_terminal _ Hterm) as Hcanc.
  pose proof (fun v => returning_found _ v _ _ Hfound) as Hret.
  wp_exec_with ltac:(rewrite ?Hfound, ?Hret, ?Nat.eqb_refl, ?Hcanc;
                     cbn [negb Order.id Order.status
                          OrderRepository.set_status]).
  all: rewrite <- ?app_assoc; repeat split.
Qed.

(** X4. Cancelling an order of one's own that is still [created] or
    [pending_payment] always succeeds, whatever the gateway answers: the
    rows with the order's id become [cancelled] with [paid_at] untouched,
    one [order_cancelled] audit row records the old status, nothing is
    published, and the gateway is asked to cancel exactly when the order
    carries a non-empty payment-intent id. *)
Theorem cancel_order_succeeds env st order_id user_id o :
  fst (OrderRepository.get_by_id order_id st) = Ok (Some o) ->
  Order.user_id o = user_id ->
  terminal (Order.status o) = false ->
  let run := BillingService.cancel_order env order_id user_id st in
  exists t o' a,
    fst run = Ok o' /\
    o' = OrderRepository.set_status CANCELLED None t o /\
    Order.status o' = CANCELLED /\ Order.paid_at o' = Order.paid_at o /\
    orders (snd run) =
      sql_update (fun x => Order.id x =? order_id)
        (OrderRepository.set_status CANCELLED None t) (orders st) /\
    In o' (orders (snd run)) /\
    payment_audit (snd run) = payment_audit st ++ [a] /\
    PaymentAudit.order_id a = order_id /\
    PaymentAudit.action a = "order_cancelled" /\
    PaymentAudit.old_status a = Some (Order.status o) /\
    PaymentAudit.new_status a = CANCELLED /\
    broker (snd run) = broker st /\
    trace (snd run) =
      trace st ++
      match Order.stripe_payment_intent_id o with
      | Some p => if truthy p then [GatewayCancel p] else []
      | None => []
      end ++
      [OrderUpdate order_id CANCELLED; AuditWrite order_id "order_cancelled"].
Proof.
  intros Hget Hown Hterm run. subst run.
  apply get_by_id_found in Hget.
  destruct (found_row _ _ _ Hget) as [Hin Hid]. apply Nat.eqb_eq in Hid.
  subst order_id user_id.
  pose proof (cancel_order_run env st o Hget Hterm) as H.
  unfold wp in H.
  destruct H as (Hr & Ho & Ha & Hb & _ & Ht).
  do 3 eexists. split; [exact Hr|]. split; [reflexivity|].
  split; [reflexivity|]. split; [reflexivity|]. split; [exact Ho|].
  split; [rewrite Ho; apply sql_update_In; [exact Hin | apply Nat.eqb_refl]|].
  split; [exact Ha|]. repeat (split; [reflexivity|]).
  split; [exact Hb | exact Ht].
Qed.

Lemma cancel_order_succeeds_witness :
  let run := BillingService.cancel_order env_gateway_down 0 7 state_pending in
  (exists o', fst run = Ok o' /\ Order.status o' = CANCELLED) /\
  trace (snd run) =
    [GatewayCancel "pi_1"; OrderUpdate 0 CANCELLED;
     AuditWrite 0 "order_cancelled"].
Proof.
  destruct (cancel_order_succeeds env_gateway_down state_pending 0 7
              (sample_order 0 7 PENDING_PAYMENT (Some "pi_1") 0 None)
              eq_refl eq_refl eq_refl)
    as (t & o' & a & H1 & _ & H2 & _ & _ & _ & _ & _ & _ & _ & _ & _ & H3).
  split; [exists o'; split; [exact H1 | exact H2] | exact H3].
Defined.

(** ** Creating an order *)

Lemma sql_update_fresh_row {A} (w : A -> bool) (v : A -> A) l x :
  (forall y, In y l -> w y = false) -> w x = true ->
  sql_update w v (l ++ [x]) = l ++ [v x].
Proof.
  intros Hold Hnew. unfold sql_update. rewrite map_app. cbn [map].
  rewrite Hnew. f_equal.
  rewrite <- (map_id l) at 2. apply map_ext_in.
  intros y Hy. rewrite (Hold y Hy). reflexivity.
Qed.

Lemma filter_fresh_row {A} (p : A -> bool) l x :
  (forall y, In y l -> p y = false) -> p x = true ->
  filter p (l ++ [x]) = [x].
Proof.
  intros Hold Hnew. rewrite filter_app. cbn [filter]. rewrite Hnew.
  assert (filter p l = []) as ->; [|reflexivity].
  induction l as [|y r IH]; [reflexivity|]. cbn [filter].
  rewrite (Hold y (or_introl eq_refl)). apply IH.
  intros z Hz. apply Hold. right. exact Hz.
Qed.

Lemma returning_fresh_row {A} (w : A -> bool) (v : A -> A) l x :
  (forall y, In y l -> w y = false) -> w x = true ->
  returning w v (l ++ [x]) = [v x].
Proof.
  intros Hold Hnew. unfold returning.
  rewrite (filter_fresh_row w l x Hold Hnew). reflexivity.
Qed.

Lemma price_of_package pricing p :
  pkg_price (BillingService.get_package_info pricing p) = price_of pricing p /\
  pkg_currency (BillingService.get_package_info pricing p) = "USD".
Proof. destruct p; split; reflexivity. Qed.

(** [create_order] when the gateway hands out an intent id that no order
    carries yet; the broker's answer decides between the two outcomes. *)
Lemma create_order_run env pricing st user_id order_data intent secret :
  (forall amount currency metadata,
     stripe_PaymentIntent_create env amount currency metadata =
       inl (intent, secret)) ->
  (forall x, In x (orders st) -> Order.id x <> uuid_supply st) ->
  (forall x, In x (orders st) ->
             Order.stripe_payment_intent_id x <> Some intent) ->
  let order :=
    created_order pricing env st user_id order_data intent secret in
  let event :=
    OrderCreatedEvent (Order.id order) user_id (oc_package_type order_data)
      (Order.amount order) "USD" (clock st) in
  wp (BillingService.create_order env pricing user_id order_data)
    (fun r s' =>
       orders s' = orders st ++ [order] /\
       (exists a1 a2,
          payment_audit s' = payment_audit st ++ [a1; a2] /\
          PaymentAudit.order_id a1 = Order.id order /\
          PaymentAudit.action a1 = "order_created" /\
          PaymentAudit.old_status a1 = None /\
          PaymentAudit.new_status a1 = CREATED /\
          PaymentAudit.order_id a2 = Order.id order /\
          PaymentAudit.action a2 = "payment_intent_created" /\
          PaymentAudit.old_status a2 = Some CREATED /\
          PaymentAudit.new_status a2 = PENDING_PAYMENT) /\
       match broker_publish env event with
       | None =>
           r = Ok (order,
                   Build_PaymentIntentResponse (Order.id order) secret
                     (Order.amount order) "USD" PENDING_PAYMENT) /\
           broker s' = broker st ++ [event]
       | Some e => r = Raise (BrokerError e) /\ broker s' = broker st
       end) st.
Proof.
  intros Hgw Hkeys Hintent order event.
  assert (forall x, In x (orders st) ->
            (Order.id x =? uuid_supply st) = false) as Hkeys'
    by (intros x Hx; apply Nat.eqb_neq, Hkeys, Hx).
  assert (forall x, In x (orders st) ->
            opt_string_eqb (Order.stripe_payment_intent_id x) intent = false)
    as Hintent'.
  { intros x Hx. specialize (Hintent x Hx). unfold opt_string_eqb.
    destruct (Order.stripe_payment_intent_id x) as [p|]; [|reflexivity].
    apply String.eqb_neq. congruence. }
  destruct (price_of_package pricing (oc_package_type order_data))
    as [Hprice Hcur].
  subst order event. unfold created_order. cbn [Order.id Order.amount].
  rewrite <- Hprice.
  wp_exec_with ltac:(
    rewrite ?Hgw, ?Hcur;
    rewrite ?sql_update_fresh_row, ?returning_fresh_row
      by first [exact Hkeys' | apply Nat.eqb_refl];
    rewrite ?filter_fresh_row
      by first [exact Hintent' | apply String.eqb_refl];
    cbn [List.length Nat.ltb Nat.leb fst snd Order.id Order.amount
         Order.currency Order.user_id Order.package_type Order.created_at
         Order.status OrderRepository.set_payment_intent]).
  all: rewrite ?Nat.add_succ_r, ?Nat.add_0_r.
  all: split; [reflexivity|]; split;
    [do 2 eexists; rewrite <- app_assoc; repeat split|];
    split; reflexivity.
Qed.

(** X1. When the gateway hands out an intent id that no order carries yet
    and the broker accepts the event, [create_order] returns the new order
    in [pending_payment] with that intent, priced as configured for its
    package, and the client secret; the order is the one row added, two
    audit rows ([order_created], then [payment_intent_created]) are added,
    and exactly one [OrderCreated] event with the order's amount goes out. *)
Theorem create_order_succeeds env pricing st user_id order_data intent secret :
  (forall amount currency metadata,
     stripe_PaymentIntent_create env amount currency metadata =
       inl (intent, secret)) ->
  (forall e, broker_publish env e = None) ->
  (forall x, In x (orders st) -> Order.id x <> uuid_supply st) ->
  (forall x, In x (orders st) ->
             Order.stripe_payment_intent_id x <> Some intent) ->
  let run := BillingService.create_order env pricing user_id order_data st in
  exists order payment a1 a2,
    fst run = Ok (order, payment) /\
    Order.user_id order = user_id /\
    Order.status order = PENDING_PAYMENT /\
    Order.stripe_payment_intent_id order = Some intent /\
    Order.amount order = price_of pricing (oc_package_type order_data) /\
    Order.paid_at order = None /\
    pir_order_id payment = Order.id order /\
    pir_client_secret payment = secret /\
    pir_status payment = PENDING_PAYMENT /\
    orders (snd run) = orders st ++ [order] /\
    payment_audit (snd run) = payment_audit st ++ [a1; a2] /\
    PaymentAudit.action a1 = "order_created" /\
    PaymentAudit.action a2 = "payment_intent_created" /\
    PaymentAudit.order_id a1 = Order.id order /\
    PaymentAudit.order_id a2 = Order.id order /\
    broker (snd run) =
      broker st ++
      [OrderCreatedEvent (Order.id order) user_id
         (oc_package_type order_data) (Order.amount order) "USD"
         (Order.created_at order)].
Proof.
  intros Hgw Hpub Hkeys Hintent run. subst run.
  pose proof (create_order_run env pricing st user_id order_data intent
                secret Hgw Hkeys Hintent) as H.
  cbv zeta in H. unfold wp in H. rewrite Hpub in H.
  destruct H as (Ho & (a1 & a2 & Ha & H1 & H2 & _ & _ & H3 & H4 & _) & Hr & Hb).
  do 4 eexists. split; [exact Hr|].
  repeat (split; [reflexivity|]).
  split; [exact Ho|]. split; [exact Ha|].
  repeat (split; [assumption|]). exact Hb.
Qed.

Lemma create_order_succeeds_witness :
  exists order payment,
    fst (BillingService.create_order env_up sample_pricing 7
           (Build_OrderCreate STANDARD None) initial_state) =
      Ok (order, payment) /\
    Order.status order = PENDING_PAYMENT /\
    Order.amount order = 2999%Z.
Proof.
  destruct (create_order_succeeds env_up sample_pricing initial_state 7
              (Build_OrderCreate STANDARD None) "pi_1" "pi_1_secret"
              (fun _ _ _ => eq_refl) (fun _ => eq_refl)
              (fun x (H : In x []) => match H with end)
              (fun x (H : In x []) => match H with end))
    as (order & payment & a1 & a2 & H1 & _ & H2 & _ & H3 & _).
  exists order, payment. split; [exact H1|]. split; [exact H2 | exact H3].
Defined.

(** X2. If the broker refuses the [OrderCreated] event, [create_order] raises
    the broker's error although everything before is committed: the order
    exists in [pending_payment] with its payment intent, both audit rows
    are written, and no event has gone out. *)
Theorem create_order_publish_failure env pricing st user_id order_data
    intent secret m :
  (forall amount currency metadata,
     stripe_PaymentIntent_create env amount currency metadata =
       inl (intent, secret)) ->
  (forall e, broker_publish env e = Some m) ->
  (forall x, In x (orders st) -> Order.id x <> uuid_supply st) ->
  (forall x, In x (orders st) ->
             Order.stripe_payment_intent_id x <> Some intent) ->
  let run := BillingService.create_order env pricing user_id order_data st in
  fst run = Raise (BrokerError m) /\
  (exists order,
     orders (snd run) = orders st ++ [order] /\
     Order.status order = PENDING_PAYMENT /\
     Order.stripe_payment_intent_id order = Some intent) /\
  (exists a1 a2,
     payment_audit (snd run) = payment_audit st ++ [a1; a2] /\
     PaymentAudit.action a1 = "order_created" /\
     PaymentAudit.action a2 = "payment_intent_created") /\
  broker (snd run) = broker st.
Proof.
  intros Hgw Hpub Hkeys Hintent run. subst run.
  pose proof (create_order_run env pricing st user_id order_data intent
                secret Hgw Hkeys Hintent) as H.
  cbv zeta in H. unfold wp in H. rewrite Hpub in H.
  destruct H as (Ho & (a1 & a2 & Ha & _ & H2 & _ & _ & _ & H4 & _) & Hr & Hb).
  split; [exact Hr|]. split; [|split; [|exact Hb]].
  - eexists. split; [exact Ho|]. split; reflexivity.
  - exists a1, a2. auto.
Qed.

Lemma create_order_publish_failure_witness :
  let run :=
    BillingService.create_order env_broker_down sample_pricing 7
      (Build_OrderCreate STANDARD None) initial_state in
  fst run = Raise (BrokerError "connection closed") /\
  broker (snd run) = [].
Proof.
  destruct (create_order_publish_failure env_broker_down sample_pricing
              initial_state 7 (Build_OrderCreate STANDARD None)
              "pi_1" "pi_1_secret" "connection closed"
              (fun _ _ _ => eq_refl) (fun _ => eq_refl)
              (fun x (H : In x []) => match H with end)
              (fun x (H : In x []) => match H with end))
    as (H1 & _ & _ & H2).
  split; [exact H1 | exact H2].
Defined.

(** ** First delivery of a provider event *)

Lemma filter_nil_all {A} (p : A -> bool) l :
  filter p l = [] -> forall y, In y l -> p y = false.
Proof.
  intros Hnil y Hy. destruct (p y) eqn:E; [|reflexivity].
  assert (In y (filter p l)) as H by (apply filter_In; auto).
  rewrite Hnil in H. contradiction.
Qed.

Lemma get_by_stripe_event_id_fresh event_id s :
  fst (WebhookEventRepository.get_by_stripe_event_id event_id s) = Ok None ->
  filter (same_event event_id) (webhook_events s) = [].
Proof.
  unfold WebhookEventRepository.get_by_stripe_event_id, bind, get_state,
    scalar_one_or_none, same_event.
  destruct (filter _ (webhook_events s)) as [|x [|y l]]; cbn [fst ret raise];
    intros H; congruence.
Qed.

(** The ledger row of an event after its first, successful delivery. *)
Ltac ledger_row Hnone :=
  rewrite !filter_sql_update by reflexivity;
  rewrite filter_fresh_row
    by first [ exact Hnone
             | unfold same_event; cbn [WebhookEvent.stripe_event_id];
               apply String.eqb_refl ];
  cbn [sql_update map WebhookEvent.id
       WebhookEventRepository.set_processing
       WebhookEventRepository.set_processed];
  rewrite ?Nat.eqb_refl;
  cbn [WebhookEvent.id WebhookEventRepository.set_processing
       WebhookEventRepository.set_processed];
  rewrite ?Nat.eqb_refl.

Ltac first_delivery Hfresh Hexists Htype rest :=
  unfold BillingService.process_webhook, BillingService.finish_processing;
  wp_exec_with ltac:(
    try change (fun w : WebhookEvent.t =>
                  String.eqb (WebhookEvent.stripe_event_id w) ?i)
      with (same_event i);
    rewrite ?Hfresh, ?Hexists, ?Htype; eval_string_tests; rest).

Lemma payment_succeeded_run env ev payload st o :
  ev_type ev = "payment_intent.succeeded" ->
  filter (same_event (ev_id ev)) (webhook_events st) = [] ->
  filter (fun x => opt_string_eqb (Order.stripe_payment_intent_id x) (pi_id ev))
    (orders st) = [o] ->
  filter (fun x => Order.id x =? Order.id o) (orders st) = [o] ->
  Order.status o <> PAID ->
  (forall e, broker_publish env e = None) ->
  wp (BillingService.process_webhook env ev payload)
    (fun r s' =>
       r = Ok tt /\
       exists paid_at t a w,
         orders s' =
           sql_update (fun x => Order.id x =? Order.id o)
             (OrderRepository.set_status PAID (Some paid_at) t) (orders st) /\
         payment_audit s' = payment_audit st ++ [a] /\
         PaymentAudit.order_id a = Order.id o /\
         PaymentAudit.action a = "payment_succeeded" /\
         PaymentAudit.old_status a = Some (Order.status o) /\
         PaymentAudit.new_status a = PAID /\
         PaymentAudit.stripe_event_id a = Some (ev_id ev) /\
         broker s' =
           broker st ++
           [OrderPaidEvent (Order.id o) (Order.user_id o)
              (Order.package_type o) (Order.amount o) (Order.currency o)
              paid_at (pi_id ev)] /\
         filter (same_event (ev_id ev)) (webhook_events s') = [w] /\
         WebhookEvent.processed w = true /\
         WebhookEvent.order_id w = Some (Order.id o) /\
         WebhookEvent.error_message w = None /\
         WebhookEvent.retry_count w = 0%Z) st.
Proof.
  intros Htype Hfresh Hfound Hid Hst Hpub.
  pose proof (filter_nil_existsb _ _ Hfresh) as Hexists.
  pose proof (filter_nil_all _ _ Hfresh) as Hnone.
  pose proof (fun v => returning_found _ v _ _ Hid) as Hret.
  assert (OrderStatus_eqb (Order.status o) PAID = false) as Hst'.
  { destruct (OrderStatus_eqb (Order.status o) PAID) eqn:E; [|reflexivity].
    apply OrderStatus_eqb_eq in E. contradiction. }
  first_delivery Hfresh Hexists Htype
    ltac:(rewrite ?Hfound, ?Hret, ?Hst', ?Hpub;
          cbn [Order.id Order.user_id Order.package_type Order.amount
               Order.currency OrderRepository.set_status]).
  split; [reflexivity|]. do 4 eexists.
  do 8 (split; [reflexivity|]).
  ledger_row Hnone. repeat split.
Qed.

(** X5. The first delivery of a payment-succeeded event that resolves to an
    order not yet paid, with the broker up, returns normally; the order's
    rows become [paid] with [paid_at] set; one [payment_succeeded] audit row
    records old and new status and the provider event id; one [OrderPaid]
    event goes out, carrying the same [paid_at] and the payment-intent id;
    and the event's single ledger row is processed, without error, tied to
    the order. *)
Theorem first_payment_succeeded env ev payload st o :
  ev_type ev = "payment_intent.succeeded" ->
  fst (WebhookEventRepository.get_by_stripe_event_id (ev_id ev) st) = Ok None ->
  fst (OrderRepository.get_by_payment_intent_id (pi_id ev) st) = Ok (Some o) ->
  fst (OrderRepository.get_by_id (Order.id o) st) = Ok (Some o) ->
  Order.status o <> PAID ->
  (forall e, broker_publish env e = None) ->
  let run := BillingService.process_webhook env ev payload st in
  fst run = Ok tt /\
  exists paid_at t a w,
    orders (snd run) =
      sql_update (fun x => Order.id x =? Order.id o)
        (OrderRepository.set_status PAID (Some paid_at) t) (orders st) /\
    In (OrderRepository.set_status PAID (Some paid_at) t o)
      (orders (snd run)) /\
    payment_audit (snd run) = payment_audit st ++ [a] /\
    PaymentAudit.order_id a = Order.id o /\
    PaymentAudit.action a = "payment_succeeded" /\
    PaymentAudit.old_status a = Some (Order.status o) /\
    PaymentAudit.new_status a = PAID /\
    PaymentAudit.stripe_event_id a = Some (ev_id ev) /\
    broker (snd run) =
      broker st ++
      [OrderPaidEvent (Order.id o) (Order.user_id o) (Order.package_type o)
         (Order.amount o) (Order.currency o) paid_at (pi_id ev)] /\
    filter (same_event (ev_id ev)) (webhook_events (snd run)) = [w] /\
    WebhookEvent.processed w = true /\
    WebhookEvent.order_id w = Some (Order.id o) /\
    WebhookEvent.error_message w = None.
Proof.
  intros Htype Hfresh Hfound Hid Hst Hpub run. subst run.
  apply get_by_stripe_event_id_fresh in Hfresh.
  apply get_by_payment_intent_id_found in Hfound.
  apply get_by_id_found in Hid.
  pose proof (payment_succeeded_run env ev payload st o Htype Hfresh Hfound
                Hid Hst Hpub) as H.
  unfold wp in H.
  destruct H as (Hr & paid_at & t & a & w & Ho & Ha & H1 & H2 & H3 & H4 &
                 H5 & Hb & Hw & H6 & H7 & H8 & _).
  split; [exact Hr|]. exists paid_at, t, a, w.
  split; [exact Ho|]. split.
  { rewrite Ho. apply sql_update_In; [|apply Nat.eqb_refl].
    apply (found_row _ _ _ Hid). }
  repeat (split; [assumption|]). assumption.
Qed.

Lemma first_payment_succeeded_witness :
  let run :=
    BillingService.process_webhook env_up
      (sample_event "evt_1" "payment_intent.succeeded") "{}" state_pending in
  fst run = Ok tt /\
  exists paid_at,
    broker (snd run) =
      [OrderPaidEvent 0 7 STANDARD 2999%Z "USD" paid_at "pi_1"].
Proof.
  destruct (first_payment_succeeded env_up
              (sample_event "evt_1" "payment_intent.succeeded") "{}"
              state_pending
              (sample_order 0 7 PENDING_PAYMENT (Some "pi_1") 0 None)
              eq_refl eq_refl eq_refl eq_refl ltac:(discriminate)
              (fun _ => eq_refl))
    as (H1 & paid_at & t & a & w & _ & _ & _ & _ & _ & _ & _ & _ & H2 & _).
  split; [exact H1|]. exists paid_at. exact H2.
Defined.

Lemma payment_failed_run env ev payload st o :
  ev_type ev = "payment_intent.payment_failed" ->
  filter (same_event (ev_id ev)) (webhook_events st) = [] ->
  filter (fun x => opt_string_eqb (Order.stripe_payment_intent_id x) (pi_id ev))
    (orders st) = [o] ->
  filter (fun x => Order.id x =? Order.id o) (orders st) = [o] ->
  wp (BillingService.process_webhook env ev payload)
    (fun r s' =>
       exists t w,
         orders s' =
           sql_update (fun x => Order.id x =? Order.id o)
             (OrderRepository.set_status FAILED None t) (orders st) /\
         filter (same_event (ev_id ev)) (webhook_events s') = [w] /\
         WebhookEvent.order_id w = Some (Order.id o) /\
         match pi_last_payment_error ev with
         | LpeNone =>
             r = Raise (AttributeError
                          "'NoneType' object has no attribute 'get'") /\
             payment_audit s' = payment_audit st /\
             broker s' = broker st /\
             WebhookEvent.processed w = false /\
             WebhookEvent.error_message w =
               Some "Error processing webhook: 'NoneType' object has no attribute 'get'"
         | LpeDict MessageNone =>
             exists a,
               payment_audit s' = payment_audit st ++ [a] /\
               PaymentAudit.order_id a = Order.id o /\
               PaymentAudit.action a = "payment_failed" /\
               PaymentAudit.old_status a = Some (Order.status o) /\
               PaymentAudit.new_status a = FAILED /\
               PaymentAudit.stripe_event_id a = Some (ev_id ev) /\
               PaymentAudit.details a = Some "Error: None" /\
               r = Raise (ValidationError (str_ValidationError env)) /\
               broker s' = broker st /\
               (forall k oid d,
                  In (Publish k oid d) (trace s') ->
                  In (Publish k oid d) (trace st)) /\
               WebhookEvent.processed w = false /\
               WebhookEvent.error_message w =
                 Some (String.append "Error processing webhook: "
                         (str_ValidationError env))
         | LpeAbsent | LpeDict MessageAbsent | LpeDict (MessageStr _) =>
             exists a failed_at,
               payment_audit s' = payment_audit st ++ [a] /\
               PaymentAudit.order_id a = Order.id o /\
               PaymentAudit.action a = "payment_failed" /\
               PaymentAudit.old_status a = Some (Order.status o) /\
               PaymentAudit.new_status a = FAILED /\
               PaymentAudit.stripe_event_id a = Some (ev_id ev) /\
               PaymentAudit.details a =
                 Some (String.append "Error: " (failure_reason ev)) /\
               match broker_publish env
                       (OrderFailedEvent (Order.id o) (Order.user_id o)
                          (failure_reason ev) failed_at) with
               | None =>
                   r = Ok tt /\
                   broker s' =
                     broker st ++
                     [OrderFailedEvent (Order.id o) (Order.user_id o)
                        (failure_reason ev) failed_at] /\
                   WebhookEvent.processed w = true
               | Some e =>
                   r = Raise (BrokerError e) /\
                   broker s' = broker st /\
                   WebhookEvent.processed w = false
               end
         end) st.
Proof.
  intros Htype Hfresh Hfound Hid.
  pose proof (filter_nil_existsb _ _ Hfresh) as Hexists.
  pose proof (filter_nil_all _ _ Hfresh) as Hnone.
  pose proof (fun v => returning_found _ v _ _ Hid) as Hret.
  unfold failure_reason.
  first_delivery Hfresh Hexists Htype
    ltac:(rewrite ?Hfound, ?Hret;
          cbn [Order.id Order.user_id OrderRepository.set_status
               format_str]).
  all: do 2 eexists; split; [reflexivity|].
  all: ledger_row Hnone.
  all: split; [reflexivity|]; split; [reflexivity|].
  all: try (repeat split; fail).
  all: first
    [ eexists; do 9 (split; [reflexivity|]);
      split;
      [ intros k oid d Hin;
        repeat (apply in_app_or in Hin;
                destruct Hin as [Hin | [Hin | []]]; [| discriminate Hin]);
        exact Hin
      | split; reflexivity ]
    | do 2 eexists; do 7 (split; [reflexivity|]);
      match goal with
      | H : broker_publish _ _ = _ |- _ => rewrite H
      end; repeat split ].
Qed.

(** X6. The first delivery of a payment-failed event that resolves to an
    order sets the order's rows to [failed] whatever their status was,
    leaving [paid_at] alone. With a reason available (the text of the
    message of [last_payment_error], or "Unknown error" when the event has
    no [last_payment_error] or that has no message; a [last_payment_error]
    or a message that is there and null is excluded) and the broker up, it
    returns normally, the one audit row added has the details
    "Error: <reason>", and one [OrderFailed] event with that reason goes
    out. *)
Theorem first_payment_failed env ev payload st o :
  ev_type ev = "payment_intent.payment_failed" ->
  fst (WebhookEventRepository.get_by_stripe_event_id (ev_id ev) st) = Ok None ->
  fst (OrderRepository.get_by_payment_intent_id (pi_id ev) st) = Ok (Some o) ->
  fst (OrderRepository.get_by_id (Order.id o) st) = Ok (Some o) ->
  pi_last_payment_error ev <> LpeNone ->
  pi_last_payment_error ev <> LpeDict MessageNone ->
  (forall e, broker_publish env e = None) ->
  let run := BillingService.process_webhook env ev payload st in
  fst run = Ok tt /\
  exists t a failed_at w,
    orders (snd run) =
      sql_update (fun x => Order.id x =? Order.id o)
        (OrderRepository.set_status FAILED None t) (orders st) /\
    In (OrderRepository.set_status FAILED None t o) (orders (snd run)) /\
    Order.paid_at (OrderRepository.set_status FAILED None t o) =
      Order.paid_at o /\
    payment_audit (snd run) = payment_audit st ++ [a] /\
    PaymentAudit.action a = "payment_failed" /\
    PaymentAudit.old_status a = Some (Order.status o) /\
    PaymentAudit.new_status a = FAILED /\
    PaymentAudit.details a =
      Some (String.append "Error: " (failure_reason ev)) /\
    broker (snd run) =
      broker st ++
      [OrderFailedEvent (Order.id o) (Order.user_id o) (failure_reason ev)
         failed_at] /\
    filter (same_event (ev_id ev)) (webhook_events (snd run)) = [w] /\
    WebhookEvent.processed w = true.
Proof.
  intros Htype Hfresh Hfound Hid Hlpe Hmsg Hpub run. subst run.
  apply get_by_stripe_event_id_fresh in Hfresh.
  apply get_by_payment_intent_id_found in Hfound.
  apply get_by_id_found in Hid.
  pose proof (payment_failed_run env ev payload st o Htype Hfresh Hfound Hid)
    as H.
  unfold wp in H. destruct H as (t & w & Ho & Hw & _ & H).
  assert (exists a failed_at,
            payment_audit
              (snd (BillingService.process_webhook env ev payload st)) =
              payment_audit st ++ [a] /\
            PaymentAudit.action a = "payment_failed" /\
            PaymentAudit.old_status a = Some (Order.status o) /\
            PaymentAudit.new_status a = FAILED /\
            PaymentAudit.details a =
              Some (String.append "Error: " (failure_reason ev)) /\
            fst (BillingService.process_webhook env ev payload st) = Ok tt /\
            broker (snd (BillingService.process_webhook env ev payload st)) =
              broker st ++
              [OrderFailedEvent (Order.id o) (Order.user_id o)
                 (failure_reason ev) failed_at] /\
            WebhookEvent.processed w = true)
    as (a & failed_at & Ha & H1 & H2 & H3 & H4 & Hr & Hb & Hp).
  { destruct (pi_last_payment_error ev) as [| |[| |msg]] eqn:E;
      try congruence;
      destruct H as (a & failed_at & Ha & _ & H1 & H2 & H3 & _ & H4 & H);
      rewrite Hpub in H; destruct H as (Hr & Hb & Hp);
      exists a, failed_at; auto 10. }
  split; [exact Hr|]. exists t, a, failed_at, w.
  split; [exact Ho|]. split.
  { rewrite Ho. apply sql_update_In; [|apply Nat.eqb_refl].
    apply (found_row _ _ _ Hid). }
  split; [reflexivity|].
  repeat (split; [assumption|]). assumption.
Qed.

Lemma first_payment_failed_witness :
  let run :=
    BillingService.process_webhook env_up
      (sample_event "evt_2" "payment_intent.payment_failed") "{}"
      state_paid in
  fst run = Ok tt /\
  exists failed_at,
    broker (snd run) = [OrderFailedEvent 0 7 "Unknown error" failed_at].
Proof.
  destruct (first_payment_failed env_up
              (sample_event "evt_2" "payment_intent.payment_failed") "{}"
              state_paid (sample_order 0 7 PAID (Some "pi_1") 0 (Some 5))
              eq_refl eq_refl eq_refl eq_refl ltac:(discriminate)
              ltac:(discriminate) (fun _ => eq_refl))
    as (H1 & t & a & failed_at & w & _ & _ & _ & _ & _ & _ & _ & _ & H2 & _).
  split; [exact H1|]. exists failed_at. exact H2.
Defined.

(** X7. A payment-failed event whose [last_payment_error] is present but
    null makes the handler fail after the status update and before the
    audit write: the call raises AttributeError, the order's rows are
    [failed] all the same, no audit row and no event are written, and the
    ledger row keeps the error with [processed = false]. *)
Theorem payment_failed_null_error env ev payload st o :
  ev_type ev = "payment_intent.payment_failed" ->
  fst (WebhookEventRepository.get_by_stripe_event_id (ev_id ev) st) = Ok None ->
  fst (OrderRepository.get_by_payment_intent_id (pi_id ev) st) = Ok (Some o) ->
  fst (OrderRepository.get_by_id (Order.id o) st) = Ok (Some o) ->
  pi_last_payment_error ev = LpeNone ->
  let run := BillingService.process_webhook env ev payload st in
  fst run =
    Raise (AttributeError "'NoneType' object has no attribute 'get'") /\
  payment_audit (snd run) = payment_audit st /\
  broker (snd run) = broker st /\
  exists t w,
    orders (snd run) =
      sql_update (fun x => Order.id x =? Order.id o)
        (OrderRepository.set_status FAILED None t) (orders st) /\
    In (OrderRepository.set_status FAILED None t o) (orders (snd run)) /\
    filter (same_event (ev_id ev)) (webhook_events (snd run)) = [w] /\
    WebhookEvent.processed w = false /\
    WebhookEvent.error_message w =
      Some "Error processing webhook: 'NoneType' object has no attribute 'get'".
Proof.
  intros Htype Hfresh Hfound Hid Hlpe run. subst run.
  apply get_by_stripe_event_id_fresh in Hfresh.
  apply get_by_payment_intent_id_found in Hfound.
  apply get_by_id_found in Hid.
  pose proof (payment_failed_run env ev payload st o Htype Hfresh Hfound Hid)
    as H.
  unfold wp in H. destruct H as (t & w & Ho & Hw & _ & H).
  rewrite Hlpe in H. destruct H as (Hr & Ha & Hb & Hp & He).
  split; [exact Hr|]. split; [exact Ha|]. split; [exact Hb|].
  exists t, w. split; [exact Ho|]. split.
  { rewrite Ho. apply sql_update_In; [|apply Nat.eqb_refl].
    apply (found_row _ _ _ Hid). }
  auto.
Qed.

Lemma payment_failed_null_error_witness :
  let run :=
    BillingService.process_webhook env_up
      (Build_StripeEvent "evt_3" "payment_intent.payment_failed" "pi_1" None
         LpeNone) "{}" state_pending in
  fst run =
    Raise (AttributeError "'NoneType' object has no attribute 'get'") /\
  payment_audit (snd run) = [] /\
  map Order.status (orders (snd run)) = [FAILED].
Proof.
  destruct (payment_failed_null_error env_up
              (Build_StripeEvent "evt_3" "payment_intent.payment_failed"
                 "pi_1" None LpeNone) "{}" state_pending
              (sample_order 0 7 PENDING_PAYMENT (Some "pi_1") 0 None)
              eq_refl eq_refl eq_refl eq_refl eq_refl)
    as (H1 & H2 & _ & t & w & H3 & _).
  split; [exact H1|]. split; [exact H2|]. rewrite H3. reflexivity.
Defined.

(** X18. A payment-failed event whose [last_payment_error] holds a message
    that is null makes the handler fail after the audit write and before the
    publish: [OrderFailedEvent] refuses a reason that is not a string. The
    call raises that ValidationError, the order's rows are [failed], the one
    audit row added has the details "Error: None", no event is published and
    no publish is attempted, and the ledger row keeps the error with
    [processed = false]. *)
Theorem payment_failed_null_message env ev payload st o :
  ev_type ev = "payment_intent.payment_failed" ->
  fst (WebhookEventRepository.get_by_stripe_event_id (ev_id ev) st) = Ok None ->
  fst (OrderRepository.get_by_payment_intent_id (pi_id ev) st) = Ok (Some o) ->
  fst (OrderRepository.get_by_id (Order.id o) st) = Ok (Some o) ->
  pi_last_payment_error ev = LpeDict MessageNone ->
  let run := BillingService.process_webhook env ev payload st in
  fst run = Raise (ValidationError (str_ValidationError env)) /\
  broker (snd run) = broker st /\
  (forall k oid d,
     In (Publish k oid d) (trace (snd run)) ->
     In (Publish k oid d) (trace st)) /\
  exists t a w,
    orders (snd run) =
      sql_update (fun x => Order.id x =? Order.id o)
        (OrderRepository.set_status FAILED None t) (orders st) /\
    In (OrderRepository.set_status FAILED None t o) (orders (snd run)) /\
    payment_audit (snd run) = payment_audit st ++ [a] /\
    PaymentAudit.order_id a = Order.id o /\
    PaymentAudit.action a = "payment_failed" /\
    PaymentAudit.old_status a = Some (Order.status o) /\
    PaymentAudit.new_status a = FAILED /\
    PaymentAudit.details a = Some "Error: None" /\
    filter (same_event (ev_id ev)) (webhook_events (snd run)) = [w] /\
    WebhookEvent.processed w = false /\
    WebhookEvent.error_message w =
      Some (String.append "Error processing webhook: "
              (str_ValidationError env)).
Proof.
  intros Htype Hfresh Hfound Hid Hlpe run. subst run.
  apply get_by_stripe_event_id_fresh in Hfresh.
  apply get_by_payment_intent_id_found in Hfound.
  apply get_by_id_found in Hid.
  pose proof (payment_failed_run env ev payload st o Htype Hfresh Hfound Hid)
    as H.
  unfold wp in H. destruct H as (t & w & Ho & Hw & _ & H).
  rewrite Hlpe in H.
  destruct H as (a & Ha & H1 & H2 & H3 & H4 & _ & H5 & Hr & Hb & Ht & Hp & He).
  split; [exact Hr|]. split; [exact Hb|]. split; [exact Ht|].
  exists t, a, w. split; [exact Ho|]. split.
  { rewrite Ho. apply sql_update_In; [|apply Nat.eqb_refl].
    apply (found_row _ _ _ Hid). }
  auto 12.
Qed.

Lemma payment_failed_null_message_witness :
  let run :=
    BillingService.process_webhook env_up
      (Build_StripeEvent "evt_4" "payment_intent.payment_failed" "pi_1" None
         (LpeDict MessageNone)) "{}" state_pending in
  fst run = Raise (ValidationError "1 validation error for OrderFailedEvent") /\
  broker (snd run) = [] /\
  map Order.status (orders (snd run)) = [FAILED] /\
  map PaymentAudit.details (payment_audit (snd run)) = [Some "Error: None"].
Proof.
  destruct (payment_failed_null_message env_up
              (Build_StripeEvent "evt_4" "payment_intent.payment_failed"
                 "pi_1" None (LpeDict MessageNone)) "{}" state_pending
              (sample_order 0 7 PENDING_PAYMENT (Some "pi_1") 0 None)
              eq_refl eq_refl eq_refl eq_refl eq_refl)
    as (H1 & H2 & _ & t & a & w & H3 & _ & H4 & _ & _ & _ & _ & H5 & _).
  split; [exact H1|]. split; [exact H2|]. split.
  - rewrite H3. reflexivity.
  - rewrite H4. cbn [payment_audit state_pending map app]. rewrite H5.
    reflexivity.
Defined.

(** ** Events that are cancelled, orphaned or not handled *)

Lemma payment_canceled_broker env ev payload st :
  ev_type ev = "payment_intent.canceled" ->
  wp (BillingService.process_webhook env ev payload)
    (fun _ s' => broker s' = broker st) st.
Proof.
  intros Htype.
  unfold BillingService.process_webhook, BillingService.finish_processing.
  wp_exec_with ltac:(rewrite ?Htype; eval_string_tests).
  all: reflexivity.
Qed.

Lemma payment_canceled_run env ev payload st o :
  ev_type ev = "payment_intent.canceled" ->
  filter (same_event (ev_id ev)) (webhook_events st) = [] ->
  filter (fun x => opt_string_eqb (Order.stripe_payment_intent_id x) (pi_id ev))
    (orders st) = [o] ->
  filter (fun x => Order.id x =? Order.id o) (orders st) = [o] ->
  wp (BillingService.process_webhook env ev payload)
    (fun r s' =>
       r = Ok tt /\
       exists t a w,
         orders s' =
           sql_update (fun x => Order.id x =? Order.id o)
             (OrderRepository.set_status CANCELLED None t) (orders st) /\
         payment_audit s' = payment_audit st ++ [a] /\
         PaymentAudit.order_id a = Order.id o /\
         PaymentAudit.action a = "payment_canceled" /\
         PaymentAudit.old_status a = Some (Order.status o) /\
         PaymentAudit.new_status a = CANCELLED /\
         PaymentAudit.stripe_event_id a = Some (ev_id ev) /\
         filter (same_event (ev_id ev)) (webhook_events s') = [w] /\
         WebhookEvent.processed w = true /\
         WebhookEvent.order_id w = Some (Order.id o)) st.
Proof.
  intros Htype Hfresh Hfound Hid.
  pose proof (filter_nil_existsb _ _ Hfresh) as Hexists.
  pose proof (filter_nil_all _ _ Hfresh) as Hnone.
  pose proof (fun v => returning_found _ v _ _ Hid) as Hret.
  first_delivery Hfresh Hexists Htype
    ltac:(rewrite ?Hfound, ?Hret;
          cbn [Order.id Order.user_id OrderRepository.set_status]).
  split; [reflexivity|]. do 3 eexists.
  do 7 (split; [reflexivity|]).
  ledger_row Hnone. repeat split.
Qed.

(** X8. A payment-canceled event never reaches the broker, from any state
    and whatever else happens in the call. On first delivery, resolving to
    an order, it returns normally, sets the order's rows to [cancelled]
    whatever their status was, and adds one [payment_canceled] audit row. *)
Theorem payment_canceled_publishes_nothing env ev payload st :
  ev_type ev = "payment_intent.canceled" ->
  let run := BillingService.process_webhook env ev payload st in
  broker (snd run) = broker st /\
  forall o,
    fst (WebhookEventRepository.get_by_stripe_event_id (ev_id ev) st) =
      Ok None ->
    fst (OrderRepository.get_by_payment_intent_id (pi_id ev) st) =
      Ok (Some o) ->
    fst (OrderRepository.get_by_id (Order.id o) st) = Ok (Some o) ->
    fst run = Ok tt /\
    exists t a,
      orders (snd run) =
        sql_update (fun x => Order.id x =? Order.id o)
          (OrderRepository.set_status CANCELLED None t) (orders st) /\
      In (OrderRepository.set_status CANCELLED None t o) (orders (snd run)) /\
      payment_audit (snd run) = payment_audit st ++ [a] /\
      PaymentAudit.action a = "payment_canceled" /\
      PaymentAudit.old_status a = Some (Order.status o) /\
      PaymentAudit.new_status a = CANCELLED.
Proof.
  intros Htype run. subst run. split.
  - exact (payment_canceled_broker env ev payload st Htype).
  - intros o Hfresh Hfound Hid.
    apply get_by_stripe_event_id_fresh in Hfresh.
    apply get_by_payment_intent_id_found in Hfound.
    apply get_by_id_found in Hid.
    pose proof (payment_canceled_run env ev payload st o Htype Hfresh Hfound
                  Hid) as H.
    unfold wp in H.
    destruct H as (Hr & t & a & w & Ho & Ha & _ & H1 & H2 & H3 & _).
    split; [exact Hr|]. exists t, a. split; [exact Ho|]. split.
    { rewrite Ho. apply sql_update_In; [|apply Nat.eqb_refl].
      apply (found_row _ _ _ Hid). }
    auto.
Qed.

Lemma payment_canceled_publishes_nothing_witness :
  let run :=
    BillingService.process_webhook env_up
      (sample_event "evt_4" "payment_intent.canceled") "{}" state_paid in
  broker (snd run) = [] /\
  fst run = Ok tt /\
  map Order.status (orders (snd run)) = [CANCELLED].
Proof.
  destruct (payment_canceled_publishes_nothing env_up
              (sample_event "evt_4" "payment_intent.canceled") "{}"
              state_paid eq_refl) as (H1 & H2).
  destruct (H2 (sample_order 0 7 PAID (Some "pi_1") 0 (Some 5))
              eq_refl eq_refl eq_refl) as (H3 & t & a & H4 & _).
  split; [exact H1|]. split; [exact H3|]. rewrite H4. reflexivity.
Defined.

Lemma event_target_none type :
  event_target type = None ->
  String.eqb type "payment_intent.succeeded" = false /\
  String.eqb type "payment_intent.payment_failed" = false /\
  String.eqb type "payment_intent.canceled" = false.
Proof.
  unfold event_target.
  destruct (String.eqb type "payment_intent.succeeded"); [discriminate|].
  destruct (String.eqb type "payment_intent.payment_failed"); [discriminate|].
  destruct (String.eqb type "payment_intent.canceled"); [discriminate|].
  auto.
Qed.

Lemma unhandled_event_frame env ev payload st :
  event_target (ev_type ev) = None ->
  wp (BillingService.process_webhook env ev payload)
    (fun _ s' =>
       orders s' = orders st /\
       payment_audit s' = payment_audit st /\
       broker s' = broker st) st.
Proof.
  intros Hnone. destruct (event_target_none _ Hnone) as (H1 & H2 & H3).
  unfold BillingService.process_webhook, BillingService.finish_processing.
  wp_exec_with ltac:(rewrite ?H1, ?H2, ?H3).
  all: repeat split.
Qed.

Lemma unresolved_event_run env ev payload st :
  filter (same_event (ev_id ev)) (webhook_events st) = [] ->
  event_target (ev_type ev) = None \/
  filter (fun x => opt_string_eqb (Order.stripe_payment_intent_id x) (pi_id ev))
    (orders st) = [] ->
  wp (BillingService.process_webhook env ev payload)
    (fun r s' =>
       r = Ok tt /\
       orders s' = orders st /\
       payment_audit s' = payment_audit st /\
       broker s' = broker st /\
       exists w,
         filter (same_event (ev_id ev)) (webhook_events s') = [w] /\
         WebhookEvent.processed w = true /\
         WebhookEvent.error_message w = None /\
         WebhookEvent.order_id w =
           StripeService.extract_order_id_from_event env ev /\
         WebhookEvent.event_type w = ev_type ev /\
         WebhookEvent.raw_payload w = payload /\
         WebhookEvent.retry_count w = 0%Z) st.
Proof.
  intros Hfresh Hwhy.
  pose proof (filter_nil_existsb _ _ Hfresh) as Hexists.
  pose proof (filter_nil_all _ _ Hfresh) as Hnone.
  destruct Hwhy as [Htarget | Hnf].
  - destruct (event_target_none _ Htarget) as (H1 & H2 & H3).
    unfold BillingService.process_webhook, BillingService.finish_processing.
    wp_exec_with ltac:(
      try change (fun w : WebhookEvent.t =>
                    String.eqb (WebhookEvent.stripe_event_id w) ?i)
        with (same_event i);
      rewrite ?Hfresh, ?Hexists, ?H1, ?H2, ?H3).
    do 4 (split; [reflexivity|]). eexists.
    ledger_row Hnone. repeat split.
  - unfold BillingService.process_webhook, BillingService.finish_processing.
    wp_exec_with ltac:(
      try change (fun w : WebhookEvent.t =>
                    String.eqb (WebhookEvent.stripe_event_id w) ?i)
        with (same_event i);
      rewrite ?Hfresh, ?Hexists, ?Hnf).
    all: do 4 (split; [reflexivity|]); eexists.
    all: ledger_row Hnone; repeat split.
Qed.

Lemma get_by_payment_intent_id_none p s :
  fst (OrderRepository.get_by_payment_intent_id p s) = Ok None ->
  filter (fun x => opt_string_eqb (Order.stripe_payment_intent_id x) p)
    (orders s) = [].
Proof.
  unfold OrderRepository.get_by_payment_intent_id, bind, get_state,
    scalar_one_or_none.
  destruct (filter _ (orders s)) as [|x [|y l]]; cbn [fst ret raise];
    intros H; congruence.
Qed.

(** X9. An event of a type the service does not handle never changes
    orders, audit rows or broker, from any state. On first delivery, such
    an event, and likewise an event of a handled type whose payment intent
    belongs to no order, is not an error: the call returns normally with
    those three untouched and leaves one ledger row for the event, marked
    processed, holding the event type, the raw payload and whatever order id
    the event's metadata yields (none if it has none). *)
Theorem unresolved_event_recorded env ev payload st :
  (event_target (ev_type ev) = None ->
   let run := BillingService.process_webhook env ev payload st in
   orders (snd run) = orders st /\
   payment_audit (snd run) = payment_audit st /\
   broker (snd run) = broker st) /\
  (fst (WebhookEventRepository.get_by_stripe_event_id (ev_id ev) st) =
     Ok None ->
   event_target (ev_type ev) = None \/
   fst (OrderRepository.get_by_payment_intent_id (pi_id ev) st) = Ok None ->
   let run := BillingService.process_webhook env ev payload st in
   fst run = Ok tt /\
   orders (snd run) = orders st /\
   payment_audit (snd run) = payment_audit st /\
   broker (snd run) = broker st /\
   exists w,
     filter (same_event (ev_id ev)) (webhook_events (snd run)) = [w] /\
     WebhookEvent.processed w = true /\
     WebhookEvent.error_message w = None /\
     WebhookEvent.order_id w =
       StripeService.extract_order_id_from_event env ev /\
     WebhookEvent.event_type w = ev_type ev /\
     WebhookEvent.raw_payload w = payload).
Proof.
  split.
  - intros Hnone. exact (unhandled_event_frame env ev payload st Hnone).
  - intros Hfresh Hwhy run. subst run.
    apply get_by_stripe_event_id_fresh in Hfresh.
    assert (event_target (ev_type ev) = None \/
            filter (fun x => opt_string_eqb (Order.stripe_payment_intent_id x)
                               (pi_id ev)) (orders st) = []) as Hwhy'.
    { destruct Hwhy as [H|H]; [left; exact H|right].
      apply get_by_payment_intent_id_none, H. }
    pose proof (unresolved_event_run env ev payload st Hfresh Hwhy') as H.
    unfold wp in H.
    destruct H as (Hr & Ho & Ha & Hb & w & Hw & H1 & H2 & H3 & H4 & H5 & _).
    repeat (split; [assumption|]). exists w. auto 10.
Qed.

Lemma unresolved_event_recorded_witness :
  let run :=
    BillingService.process_webhook env_up
      (Build_StripeEvent "evt_5" "payment_intent.succeeded" "pi_unknown"
         None LpeAbsent) "{}" state_pending in
  fst run = Ok tt /\
  orders (snd run) = orders state_pending /\
  map WebhookEvent.order_id (webhook_events (snd run)) = [None].
Proof.
  destruct (unresolved_event_recorded env_up
              (Build_StripeEvent "evt_5" "payment_intent.succeeded"
                 "pi_unknown" None LpeAbsent) "{}" state_pending)
    as (_ & H).
  destruct (H eq_refl (or_intror eq_refl)) as (H1 & H2 & _).
  split; [exact H1|]. split; [exact H2 | reflexivity].
Defined.

(** ** Redelivery after a failure *)

Lemma begin_processing_no_broker_error env ev payload s :
  wp (BillingService.begin_processing env ev payload)
    (fun r _ => forall m, r <> Raise (BrokerError m)) s.
Proof. wp_exec; intros m; discriminate. Qed.

(** The ledger row of the event across the [try] of [process_webhook]. *)
Lemma finish_processing_ledger env ev weid s1 w1 :
  filter (same_event (ev_id ev)) (webhook_events s1) = [w1] ->
  WebhookEvent.id w1 = weid ->
  exists w,
    filter (same_event (ev_id ev))
      (webhook_events (snd (BillingService.finish_processing env ev weid s1)))
      = [w] /\
    WebhookEvent.id w = weid /\
    WebhookEvent.retry_count w = WebhookEvent.retry_count w1 /\
    WebhookEvent.processed w =
      match fst (BillingService.finish_processing env ev weid s1) with
      | Ok _ => true
      | Raise _ => false
      end.
Proof.
  intros Hw Hid. rewrite finish_processing_run.
  pose proof (dispatch_ledger env ev weid s1) as Hd.
  run_of Hd (BillingService.dispatch env ev weid) s1 r s2.
  destruct r as [[]|e]; rewrite mark_processed_run;
    cbn [fst snd webhook_events];
    rewrite filter_sql_update by reflexivity;
    (destruct Hd as [-> | (oid & t & ->)];
     [| rewrite filter_sql_update by reflexivity]);
    rewrite Hw; cbn [sql_update map]; rewrite Hid, Nat.eqb_refl;
    cbn [WebhookEventRepository.set_processed WebhookEvent.id];
    rewrite ?Hid, ?Nat.eqb_refl;
    eexists; repeat split; assumption.
Qed.

(** The check that [increment_retry_count] passes or fails. *)
Lemma retry_counter_room event_id rows :
  (forall w, In w rows -> WebhookEvent.id w = event_id ->
             (WebhookEvent.retry_count w < INT32_MAX)%Z) ->
  existsb (fun w => (INT32_MAX <? WebhookEvent.retry_count w + 1)%Z)
    (filter (fun w => WebhookEvent.id w =? event_id) rows) = false.
Proof.
  intros Hroom. apply not_true_is_false. intros H.
  apply existsb_exists in H. destruct H as (w & Hin & Hfull).
  apply filter_In in Hin. destruct Hin as [Hin Hid].
  apply Nat.eqb_eq in Hid. apply Z.ltb_lt in Hfull.
  specialize (Hroom w Hin Hid). lia.
Qed.

Lemma retry_counter_full event_id rows w :
  In w rows -> WebhookEvent.id w = event_id ->
  (INT32_MAX <= WebhookEvent.retry_count w)%Z ->
  existsb (fun w => (INT32_MAX <? WebhookEvent.retry_count w + 1)%Z)
    (filter (fun w => WebhookEvent.id w =? event_id) rows) = true.
Proof.
  intros Hin Hid Hfull. apply existsb_exists. exists w. split.
  - apply filter_In. split; [exact Hin|]. apply Nat.eqb_eq. exact Hid.
  - apply Z.ltb_lt. lia.
Qed.

Lemma begin_processing_unprocessed env ev payload s w0 :
  filter (same_event (ev_id ev)) (webhook_events s) = [w0] ->
  WebhookEvent.processed w0 = false ->
  existsb (fun w => (INT32_MAX <? WebhookEvent.retry_count w + 1)%Z)
    (filter (fun w => WebhookEvent.id w =? WebhookEvent.id w0)
       (webhook_events s)) = false ->
  wp (BillingService.begin_processing env ev payload)
    (fun r s1 =>
       r = Ok (Some (WebhookEvent.id w0)) /\
       orders s1 = orders s /\
       payment_audit s1 = payment_audit s /\
       broker s1 = broker s /\
       exists w1,
         filter (same_event (ev_id ev)) (webhook_events s1) = [w1] /\
         WebhookEvent.id w1 = WebhookEvent.id w0 /\
         WebhookEvent.retry_count w1 = (WebhookEvent.retry_count w0 + 1)%Z) s.
Proof.
  intros Hw Hproc Hroom.
  wp_exec_with ltac:(
    try change (fun w : WebhookEvent.t =>
                  String.eqb (WebhookEvent.stripe_event_id w) ?i)
      with (same_event i);
    rewrite ?Hw, ?Hproc, ?Hroom).
  do 4 (split; [reflexivity|]).
  rewrite !filter_sql_update by reflexivity. rewrite Hw.
  cbn [sql_update map]. rewrite Nat.eqb_refl.
  cbn [WebhookEventRepository.bump_retry_count WebhookEvent.id].
  rewrite Nat.eqb_refl. eexists. repeat split.
Qed.

(** With the retry counter full, the redelivery stops at the counter. *)
Lemma begin_processing_counter_full env ev payload s w0 :
  filter (same_event (ev_id ev)) (webhook_events s) = [w0] ->
  WebhookEvent.processed w0 = false ->
  existsb (fun w => (INT32_MAX <? WebhookEvent.retry_count w + 1)%Z)
    (filter (fun w => WebhookEvent.id w =? WebhookEvent.id w0)
       (webhook_events s)) = true ->
  BillingService.begin_processing env ev payload s =
    (Raise (DBAPIError "integer out of range"), s).
Proof.
  intros Hw Hproc Hfull.
  unfold BillingService.begin_processing,
    WebhookEventRepository.get_by_stripe_event_id, bind at 1 2, get_state.
  cbv beta iota.
  change (fun w : WebhookEvent.t =>
            String.eqb (WebhookEvent.stripe_event_id w) (ev_id ev))
    with (same_event (ev_id ev)).
  rewrite Hw. cbn [scalar_one_or_none ret]. rewrite Hproc.
  unfold WebhookEventRepository.increment_retry_count, bind, get_state.
  rewrite Hfull. reflexivity.
Qed.

Lemma dispatch_broker_failure_paid env ev weid s :
  ev_type ev = "payment_intent.succeeded" ->
  wp (BillingService.dispatch env ev weid)
    (fun r s' =>
       forall m, r = Raise (BrokerError m) ->
       exists o',
         filter (fun x => opt_string_eqb (Order.stripe_payment_intent_id x)
                            (pi_id ev)) (orders s') = [o'] /\
         Order.status o' = PAID) s.
Proof.
  intros Htype.
  wp_exec_with ltac:(rewrite ?Htype; eval_string_tests).
  all: intros m Hm; try discriminate Hm.
  rewrite filter_sql_update by reflexivity.
  match goal with
  | H : filter _ (orders s) = [_] |- _ => rewrite H
  end.
  cbn [sql_update map]. rewrite Nat.eqb_refl.
  eexists. split; reflexivity.
Qed.

(** X10. Redelivery does not repair a missed [OrderPaid]. If processing a
    payment-succeeded event failed because the broker refused the event, the
    ledger row is left unprocessed and the order is already paid; when the
    provider delivers the event again, the call publishes nothing and
    changes no order and no audit row, whatever the broker would answer by
    then. As long as the retry counter of the ledger row has room (it is an
    [integer] column), the call counts the retry, finds the order paid and
    marks the event processed, returning normally; with the counter at
    2147483647 the call raises the database's error and changes nothing at
    all, so the event stays unprocessed. *)
Theorem redelivery_after_publish_failure env env' ev payload st m :
  ev_type ev = "payment_intent.succeeded" ->
  fst (BillingService.process_webhook env ev payload st) =
    Raise (BrokerError m) ->
  let st1 := snd (BillingService.process_webhook env ev payload st) in
  let run := BillingService.process_webhook env' ev payload st1 in
  broker (snd run) = broker st1 /\
  orders (snd run) = orders st1 /\
  payment_audit (snd run) = payment_audit st1 /\
  exists w0,
    filter (same_event (ev_id ev)) (webhook_events st1) = [w0] /\
    WebhookEvent.processed w0 = false /\
    ((forall w',
        In w' (webhook_events st1) ->
        WebhookEvent.id w' = WebhookEvent.id w0 ->
        (WebhookEvent.retry_count w' < INT32_MAX)%Z) ->
     fst run = Ok tt /\
     exists w,
       filter (same_event (ev_id ev)) (webhook_events (snd run)) = [w] /\
       WebhookEvent.processed w = true /\
       WebhookEvent.retry_count w = (WebhookEvent.retry_count w0 + 1)%Z) /\
    ((exists w',
        In w' (webhook_events st1) /\
        WebhookEvent.id w' = WebhookEvent.id w0 /\
        (INT32_MAX <= WebhookEvent.retry_count w')%Z) ->
     (exists msg, fst run = Raise (DBAPIError msg)) /\
     snd run = st1).
Proof.
  intros Htype Hfail st1 run.
  (* the first call *)
  assert (exists w0 o',
            filter (same_event (ev_id ev)) (webhook_events st1) = [w0] /\
            WebhookEvent.processed w0 = false /\
            filter (fun x => opt_string_eqb (Order.stripe_payment_intent_id x)
                               (pi_id ev)) (orders st1) = [o'] /\
            Order.status o' = PAID) as (w0 & o' & Hw0 & Hp0 & Ho' & Hpaid).
  { subst st1. revert Hfail. rewrite process_webhook_run.
    pose proof (begin_processing_spec env ev payload st) as Hb.
    pose proof (begin_processing_no_broker_error env ev payload st) as Hnb.
    unfold wp in Hnb.
    run_of Hb (BillingService.begin_processing env ev payload) st r s1.
    cbn [fst] in Hnb. destruct Hb as (_ & _ & _ & _ & _ & Hr).
    destruct r as [[weid|]|e]; cbn [fst snd]; intros Hfail;
      [| discriminate Hfail
       | injection Hfail as ->; elim (Hnb m eq_refl)].
    destruct Hr as (w1 & Hw1 & Hid1).
    destruct (finish_processing_ledger env ev weid s1 w1 Hw1 Hid1)
      as (w & Hw & _ & _ & Hproc).
    rewrite Hfail in Hproc. exists w.
    revert Hfail. rewrite finish_processing_run in *.
    pose proof (dispatch_broker_failure_paid env ev weid s1 Htype) as Hd.
    run_of Hd (BillingService.dispatch env ev weid) s1 r s2.
    destruct r as [[]|e]; rewrite mark_processed_run in *;
      cbn [fst snd orders] in *; intros Hfail; [discriminate Hfail|].
    destruct (Hd m Hfail) as (o' & Ho' & Hpaid).
    exists o'. auto. }
  (* the redelivery *)
  subst run. rewrite process_webhook_run.
  destruct (existsb (fun w => (INT32_MAX <? WebhookEvent.retry_count w + 1)%Z)
              (filter (fun w => WebhookEvent.id w =? WebhookEvent.id w0)
                 (webhook_events st1))) eqn:Hcounter.
  - (* the counter is full *)
    rewrite (begin_processing_counter_full env' ev payload st1 w0 Hw0 Hp0
               Hcounter).
    cbn [fst snd]. do 3 (split; [reflexivity|]).
    exists w0. split; [exact Hw0|]. split; [exact Hp0|]. split.
    + intros Hroom.
      rewrite (retry_counter_room _ _ Hroom) in Hcounter.
      discriminate Hcounter.
    + intros _. split; [eexists; reflexivity | reflexivity].
  - pose proof (begin_processing_unprocessed env' ev payload st1 w0 Hw0 Hp0
                  Hcounter) as Hb.
    run_of Hb (BillingService.begin_processing env' ev payload) st1 r s1.
    destruct Hb as (-> & Ho1 & Ha1 & Hb1 & w1 & Hw1 & Hid1 & Hretry).
    destruct (finish_processing_ledger env' ev (WebhookEvent.id w0) s1 w1 Hw1
                Hid1) as (w & Hw & _ & Hcount & Hproc).
    rewrite <- Ho1 in Ho'.
    pose proof (dispatch_already_paid env' ev (WebhookEvent.id w0) s1 o' Htype
                  Ho' Hpaid) as Hd.
    rewrite finish_processing_run in *.
    run_of Hd (BillingService.dispatch env' ev (WebhookEvent.id w0)) s1 r s2.
    destruct Hd as (-> & Ho2 & Ha2 & Hb2 & _).
    rewrite mark_processed_run in *.
    cbn [fst snd orders payment_audit broker webhook_events] in *.
    split; [congruence|]. split; [congruence|]. split; [congruence|].
    exists w0. split; [exact Hw0|]. split; [exact Hp0|]. split.
    + intros _. split; [reflexivity|].
      exists w. repeat (split; [assumption|]). congruence.
    + intros (w' & Hin & Hid & Hfull).
      rewrite (retry_counter_full _ _ w' Hin Hid Hfull) in Hcounter.
      discriminate Hcounter.
Qed.

Lemma redelivery_after_publish_failure_witness :
  (let st1 :=
     snd (BillingService.process_webhook env_broker_down
            (sample_event "evt_1" "payment_intent.succeeded") "{}"
            state_pending) in
   let run :=
     BillingService.process_webhook env_up
       (sample_event "evt_1" "payment_intent.succeeded") "{}" st1 in
   fst run = Ok tt /\ broker (snd run) = [] /\
   map Order.status (orders (snd run)) = [PAID]) /\
  (let st1 :=
     snd (BillingService.process_webhook env_broker_down
            (sample_event "evt_1" "payment_intent.succeeded") "{}"
            state_many_retries) in
   let run :=
     BillingService.process_webhook env_up
       (sample_event "evt_1" "payment_intent.succeeded") "{}" st1 in
   (exists msg, fst run = Raise (DBAPIError msg)) /\ snd run = st1).
Proof.
  split.
  - destruct (redelivery_after_publish_failure env_broker_down env_up
                (sample_event "evt_1" "payment_intent.succeeded") "{}"
                state_pending "connection closed" eq_refl eq_refl)
      as (H2 & H3 & _ & w0 & _ & _ & Hroom & _).
    split; [|split; [exact H2 | rewrite H3; reflexivity]].
    apply Hroom. intros w' Hin _.
    apply (in_map WebhookEvent.retry_count) in Hin.
    assert (map WebhookEvent.retry_count
              (webhook_events
                 (snd (BillingService.process_webhook env_broker_down
                         (sample_event "evt_1" "payment_intent.succeeded")
                         "{}" state_pending))) = [0%Z]) as Hcount
      by (vm_compute; reflexivity).
    rewrite Hcount in Hin. destruct Hin as [<-|[]]. reflexivity.
  - destruct (redelivery_after_publish_failure env_broker_down env_up
                (sample_event "evt_1" "payment_intent.succeeded") "{}"
                state_many_retries "connection closed" eq_refl eq_refl)
      as (_ & _ & _ & w0 & Hw0 & _ & _ & Hfull).
    apply Hfull. exists w0. use_found.
    split; [exact Hfound|]. split; [reflexivity|].
    apply (in_map WebhookEvent.retry_count) in Hfound.
    assert (map WebhookEvent.retry_count
              (webhook_events
                 (snd (BillingService.process_webhook env_broker_down
                         (sample_event "evt_1" "payment_intent.succeeded")
                         "{}" state_many_retries))) = [2147483647%Z])
      as Hcount by (vm_compute; reflexivity).
    rewrite Hcount in Hfound. destruct Hfound as [<-|[]]. discriminate.
Defined.

(** ** What no operation does *)

Ltac grows :=
  unfold extends;
  rewrite ?sql_update_map by (intro; reflexivity);
  rewrite ?map_app, <- ?app_assoc;
  first [ exists []; rewrite app_nil_r; reflexivity
        | eexists; reflexivity ].

Lemma extends_refl {A} (l : list A) : extends l l.
Proof. exists []. symmetry. apply app_nil_r. Qed.

Lemma process_webhook_grows env ev payload st :
  wp (BillingService.process_webhook env ev payload)
    (fun _ s' =>
       extends (map order_core (orders st)) (map order_core (orders s')) /\
       extends (payment_audit st) (payment_audit s') /\
       extends (map ledger_core (webhook_events st))
         (map ledger_core (webhook_events s')) /\
       extends (broker st) (broker s')) st.
Proof.
  unfold BillingService.process_webhook, BillingService.finish_processing.
  wp_exec; (split; [grows|]); (split; [grows|]); split; grows.
Qed.

Lemma create_order_grows env pricing user_id order_data st :
  wp (BillingService.create_order env pricing user_id order_data)
    (fun _ s' =>
       extends (map order_core (orders st)) (map order_core (orders s')) /\
       extends (payment_audit st) (payment_audit s') /\
       extends (map ledger_core (webhook_events st))
         (map ledger_core (webhook_events s')) /\
       extends (broker st) (broker s')) st.
Proof.
  wp_exec; (split; [grows|]); (split; [grows|]); split; grows.
Qed.

Lemma cancel_order_grows env order_id user_id st :
  wp (BillingService.cancel_order env order_id user_id)
    (fun _ s' =>
       extends (map order_core (orders st)) (map order_core (orders s')) /\
       extends (payment_audit st) (payment_audit s') /\
       extends (map ledger_core (webhook_events st))
         (map ledger_core (webhook_events s')) /\
       extends (broker st) (broker s')) st.
Proof.
  wp_exec; (split; [grows|]); (split; [grows|]); split; grows.
Qed.

(** X11. No operation of the service, from any state and whatever its outcome,
    removes or reorders a row or rewrites what identifies it: the orders
    table keeps every order with its id, owner, package, amount, currency,
    description, metadata and creation time; the audit table keeps every
    row unchanged; the ledger keeps every event with its id, provider event
    id, type, payload and creation time; and nothing leaves the broker.
    Rows are only added at the end. *)
Theorem tables_only_grow env pricing op st :
  let st' := run_op env pricing op st in
  extends (map order_core (orders st)) (map order_core (orders st')) /\
  extends (payment_audit st) (payment_audit st') /\
  extends (map ledger_core (webhook_events st))
    (map ledger_core (webhook_events st')) /\
  extends (broker st) (broker st').
Proof.
  destruct op as [u d | o u | u p ps s | o u | ev payload]; cbn [run_op].
  - exact (create_order_grows env pricing u d st).
  - rewrite get_order_reads. repeat split; apply extends_refl.
  - rewrite get_user_orders_reads. repeat split; apply extends_refl.
  - exact (cancel_order_grows env o u st).
  - exact (process_webhook_grows env ev payload st).
Qed.

(** ** Payment-intent ids along a history *)

Lemma intent_ids_app l1 l2 :
  intent_ids (l1 ++ l2) = intent_ids l1 ++ intent_ids l2.
Proof. unfold intent_ids. apply flat_map_app. Qed.

Lemma intent_ids_by_column rows rows' :
  map Order.stripe_payment_intent_id rows =
    map Order.stripe_payment_intent_id rows' ->
  intent_ids rows = intent_ids rows'.
Proof.
  revert rows'. induction rows as [|x r IH]; intros [|y r'] H;
    try discriminate H; [reflexivity|].
  cbn [map] in H. injection H as Hx Hr.
  unfold intent_ids in *. cbn [flat_map]. rewrite Hx.
  f_equal. apply IH, Hr.
Qed.

Lemma intent_ids_set_status w ns pa t rows :
  intent_ids (sql_update w (OrderRepository.set_status ns pa t) rows) =
  intent_ids rows.
Proof.
  apply intent_ids_by_column. apply sql_update_map. reflexivity.
Qed.

Lemma intent_ids_In p rows :
  In p (intent_ids rows) <->
  exists o, In o rows /\ Order.stripe_payment_intent_id o = Some p.
Proof.
  unfold intent_ids. rewrite in_flat_map. split.
  - intros (o & Ho & Hp). exists o. split; [exact Ho|].
    destruct (Order.stripe_payment_intent_id o) as [q|]; [|contradiction].
    destruct Hp as [->|[]]. reflexivity.
  - intros (o & Ho & Hp). exists o. split; [exact Ho|].
    rewrite Hp. left. reflexivity.
Qed.

(** [create_order] with the outcome of the uniqueness check made visible. *)
Lemma create_order_intents env pricing user_id order_data st :
  wp (BillingService.create_order env pricing user_id order_data)
    (fun _ st' =>
       exists new,
         (orders st' = orders st ++ [new] \/
          exists p c t,
            orders st' =
              sql_update (fun x => Order.id x =? uuid_supply st)
                (OrderRepository.set_payment_intent p c t)
                (orders st ++ [new]) /\
            List.length
              (filter (fun o => opt_string_eqb
                                  (Order.stripe_payment_intent_id o) p)
                 (sql_update (fun x => Order.id x =? uuid_supply st)
                    (OrderRepository.set_payment_intent p c t)
                    (orders st ++ [new]))) <= 1) /\
         Order.id new = uuid_supply st /\
         Order.stripe_payment_intent_id new = None) st.
Proof.
  wp_exec; eexists;
    (split;
     [first [ left; reflexivity
            | right; do 3 eexists; split; [reflexivity|];
              match goal with
              | H : (1 <? _) = false |- _ => apply Nat.ltb_ge in H; exact H
              end ]|]);
    split; reflexivity.
Qed.

Lemma keys_ok_fresh st :
  keys_ok st ->
  forall y, In y (orders st) -> (Order.id y =? uuid_supply st) = false.
Proof.
  intros [_ Hlt] y Hy. apply Nat.eqb_neq. specialize (Hlt y Hy). lia.
Qed.

(** One operation: the intent ids stay distinct, and a row that continues
    an order with an intent id carries the same one. *)
Lemma intents_step env pricing op st :
  keys_ok st -> NoDup (intent_ids (orders st)) ->
  NoDup (intent_ids (orders (run_op env pricing op st))) /\
  forall o o' p,
    In o (orders st) -> Order.stripe_payment_intent_id o = Some p ->
    In o' (orders (run_op env pricing op st)) ->
    Order.id o' = Order.id o ->
    Order.stripe_payment_intent_id o' = Some p.
Proof.
  intros Hok Hnd.
  assert (forall rows, rows = orders st ->
            forall o o' p,
              In o (orders st) -> Order.stripe_payment_intent_id o = Some p ->
              In o' rows -> Order.id o' = Order.id o ->
              Order.stripe_payment_intent_id o' = Some p) as Hsame.
  { intros rows -> o o' p Ho Hp Ho' Hid.
    assert (o' = o) as ->; [|exact Hp].
    apply (NoDup_key_unique Order.id (orders st)); try assumption.
    apply Hok. }
  assert (forall w ns pa t o o' p,
              In o (orders st) -> Order.stripe_payment_intent_id o = Some p ->
              In o' (sql_update w (OrderRepository.set_status ns pa t)
                       (orders st)) ->
              Order.id o' = Order.id o ->
              Order.stripe_payment_intent_id o' = Some p) as Hupd.
  { intros w ns pa t o o' p Ho Hp Ho' Hid.
    apply sql_update_In_inv in Ho'. destruct Ho' as (x & Hx & ->).
    assert (x = o) as ->.
    { apply (NoDup_key_unique Order.id (orders st)); try assumption;
        [apply Hok|].
      destruct (w x); exact Hid. }
    destruct (w o); exact Hp. }
  destruct op as [u d | oid u | u pg ps s | oid u | ev payload];
    cbn [run_op].
  - (* create_order *)
    pose proof (create_order_intents env pricing u d st) as H.
    unfold wp in H. destruct H as (new & Hshape & Hid & Hnone).
    pose proof (keys_ok_fresh st Hok) as Hfresh.
    assert (intent_ids (orders st ++ [new]) = intent_ids (orders st)) as Hnew.
    { rewrite intent_ids_app. unfold intent_ids at 2. cbn [flat_map].
      rewrite Hnone. cbn [app]. apply app_nil_r. }
    destruct Hshape as [Ho | (p & c & t & Ho & Hlen)]; rewrite Ho.
    + split; [rewrite Hnew; exact Hnd|].
      intros o o' q Hin Hq Hin' Hid'.
      apply in_app_or in Hin'. destruct Hin' as [Hin'|[<-|[]]].
      * exact (Hsame _ eq_refl o o' q Hin Hq Hin' Hid').
      * destruct Hok as [_ Hlt]. specialize (Hlt o Hin). lia.
    + rewrite sql_update_fresh_row in *
        by first [exact Hfresh | rewrite Hid; apply Nat.eqb_refl].
      split.
      * rewrite intent_ids_app. unfold intent_ids at 2. cbn.
        apply NoDup_app; [exact Hnd | repeat constructor; intros []|].
        intros q Hq [<-|[]].
        apply intent_ids_In in Hq. destruct Hq as (x & Hx & Hpx).
        rewrite filter_app in Hlen. cbn [filter] in Hlen.
        cbn [OrderRepository.set_payment_intent
             Order.stripe_payment_intent_id opt_string_eqb] in Hlen.
        rewrite String.eqb_refl in Hlen.
        rewrite length_app in Hlen. cbn [List.length] in Hlen.
        assert (In x (filter (fun o => opt_string_eqb
                                (Order.stripe_payment_intent_id o) p)
                        (orders st))) as Hxin.
        { apply filter_In. split; [exact Hx|]. rewrite Hpx.
          apply String.eqb_refl. }
        destruct (filter _ (orders st)); [contradiction|].
        cbn [List.length] in Hlen. lia.
      * intros o o' q Hin Hq Hin' Hid'.
        apply in_app_or in Hin'. destruct Hin' as [Hin'|[<-|[]]].
        -- exact (Hsame _ eq_refl o o' q Hin Hq Hin' Hid').
        -- cbn in Hid'. destruct Hok as [_ Hlt]. specialize (Hlt o Hin). lia.
  - rewrite get_order_reads. split; [exact Hnd | exact (Hsame _ eq_refl)].
  - rewrite get_user_orders_reads.
    split; [exact Hnd | exact (Hsame _ eq_refl)].
  - pose proof (cancel_order_orders env oid u st) as H.
    unfold wp in H. destruct H as (_ & [Ho | (x & t & Ho)]); rewrite Ho.
    + split; [exact Hnd | exact (Hsame _ eq_refl)].
    + split; [rewrite intent_ids_set_status; exact Hnd|].
      apply Hupd.
  - destruct (process_webhook_orders env ev payload st)
      as (_ & [(Ho & _) | (x & ns & pa & t & Ho & _)]); rewrite Ho.
    + split; [exact Hnd | exact (Hsame _ eq_refl)].
    + split; [rewrite intent_ids_set_status; exact Hnd|].
      apply Hupd.
Qed.

Lemma history_intents h :
  history h ->
  match h with
  | [] => False
  | st :: _ => NoDup (intent_ids (orders st))
  end.
Proof.
  intros Hh. pose proof Hh as Hinv. revert Hinv.
  induction Hh as [|env pricing op st past Hh IH]; intros Hinv.
  - constructor.
  - pose proof (history_invariant _ Hh) as (Hok & _).
    apply (intents_step env pricing op st Hok (IH Hh)).
Qed.

(** X12. Along every history of the service from empty tables, no two orders
    carry the same payment-intent id, and an order that has a
    payment-intent id keeps exactly that id through every later
    operation. *)
Theorem payment_intent_ids_unique_and_stable st past :
  history (st :: past) ->
  NoDup (intent_ids (orders st)) /\
  (forall o1 o2 p,
     In o1 (orders st) -> In o2 (orders st) ->
     Order.stripe_payment_intent_id o1 = Some p ->
     Order.stripe_payment_intent_id o2 = Some p ->
     o1 = o2) /\
  (forall env pricing op o o' p,
     In o (orders st) -> Order.stripe_payment_intent_id o = Some p ->
     In o' (orders (run_op env pricing op st)) ->
     Order.id o' = Order.id o ->
     Order.stripe_payment_intent_id o' = Some p).
Proof.
  intros Hh.
  pose proof (history_intents _ Hh) as Hnd. cbn beta iota in Hnd.
  pose proof (history_invariant _ Hh) as (Hok & _).
  split; [exact Hnd|]. split.
  - intros o1 o2 p H1 H2 Hp1 Hp2.
    clear -Hnd H1 H2 Hp1 Hp2. revert Hnd H1 H2.
    induction (orders st) as [|x r IH]; [contradiction|].
    unfold intent_ids in *. cbn [flat_map].
    intros Hnd [->|H1] [->|H2]; try reflexivity.
    + exfalso. rewrite Hp1 in Hnd. cbn [app] in Hnd.
      inversion Hnd as [|? ? Hnot _]; subst. apply Hnot.
      apply in_flat_map. exists o2. split; [exact H2|].
      rewrite Hp2. left. reflexivity.
    + exfalso. rewrite Hp2 in Hnd. cbn [app] in Hnd.
      inversion Hnd as [|? ? Hnot _]; subst. apply Hnot.
      apply in_flat_map. exists o1. split; [exact H1|].
      rewrite Hp1. left. reflexivity.
    + apply IH; try assumption.
      destruct (Order.stripe_payment_intent_id x); [|exact Hnd].
      cbn [app] in Hnd. inversion Hnd; assumption.
  - intros env pricing op.
    apply (intents_step env pricing op st Hok Hnd).
Qed.

Lemma payment_intent_ids_unique_and_stable_witness :
  NoDup (intent_ids (orders state_after_payment)) /\
  map Order.stripe_payment_intent_id (orders state_after_payment) =
    map Order.stripe_payment_intent_id (orders state_created).
Proof.
  destruct (payment_intent_ids_unique_and_stable state_after_payment
              [state_created; initial_state]
              (history_step _ _ _ _ _ (history_step _ _ _ _ _ history_init)))
    as (H & _).
  split; [exact H | reflexivity].
Defined.

(** ** The create-order endpoint *)

(** X3. When the gateway refuses the payment intent, the create-order
    endpoint answers 400 with the text "Stripe error: ..." as detail, and
    the order it had inserted stays behind in [created], without a payment
    intent, as the last row of the table. *)
Theorem create_order_endpoint_gateway_failure env pricing st user_id
    order_data err :
  (forall amount currency metadata,
     stripe_PaymentIntent_create env amount currency metadata = inr err) ->
  let reply := Presentation.create_order env pricing order_data user_id st in
  fst reply =
    HTTPException HTTP_400_BAD_REQUEST (String.append "Stripe error: " err) /\
  exists o,
    orders (snd reply) = orders st ++ [o] /\
    Order.user_id o = user_id /\
    Order.status o = CREATED /\
    Order.stripe_payment_intent_id o = None /\
    broker (snd reply) = broker st.
Proof.
  intros Hfail reply. subst reply.
  unfold Presentation.create_order.
  cbv beta iota zeta delta [BillingService.create_order OrderRepository.create
    PaymentAuditRepository.log_action StripeService.create_payment_intent
    try_except bind uuid4 now get_state set_orders set_payment_audit
    emit modify ret raise fst snd
    orders webhook_events payment_audit broker trace clock uuid_supply].
  rewrite Hfail.
  cbv beta iota zeta delta [fst snd raise str_exn
    orders webhook_events payment_audit broker trace clock uuid_supply].
  split; [reflexivity|]. eexists. repeat split.
Qed.

Lemma create_order_endpoint_gateway_failure_witness :
  fst (Presentation.create_order env_gateway_down sample_pricing
         (Build_OrderCreate BASIC None) 7 initial_state) =
    HTTPException 400 "Stripe error: api connection error".
Proof.
  exact (proj1 (create_order_endpoint_gateway_failure env_gateway_down
                  sample_pricing initial_state 7 (Build_OrderCreate BASIC None)
                  "api connection error" (fun _ _ _ => eq_refl))).
Defined.
